(** * G-code segment-window scheduler: embedding and verified properties

    A shallow embedding of [omgtools/problems/gcodeschedulerproblem.py]
    (class [GCodeSchedulerProblem]) and the properties of its corridor
    builder, segment window, centerline guess generator and solution
    stitcher.

    Modelling conventions.
    - Python floats are idealised as the real numbers [R]; numpy's
      [sqrt], [cos], [sin], [arctan2] and [pi] are the real functions.
    - A point of the G-code program (block start, end, centre), the tool
      state and the goal state are triples [vec3]; poses stay Python lists.
    - A G-code block has one of the four types [G00] to [G03], a ring one
      of the two directions [CW] and [CCW].
    - Python exceptions are the [Error] results of an error monad; Python's
      negative indices are kept ([py_index], [py_set_item]).
    - The scheduler object [self] is the record [Scheduler]; a method that
      changes it is a function from [Scheduler] to [result Scheduler].
    - The external collaborators are interfaces: [SciPy] (interpolation
      and linear solve), [SplineLib] (the spline classes) and [OptiLayer]
      (the local problem and its optimiser). Every general result holds
      for all their implementations.
    - Printing, warnings, plotting, [store], [simulate], [final] and
      [export] are left out. *)

From Stdlib Require Import Reals Lra Lia List ZArith Bool.
From Stdlib Require Import String.
Import ListNotations.
Open Scope R_scope.

Set Implicit Arguments.

(* ================================================================== *)
(** ** Python exceptions and the error monad *)

Inductive PyError : Type :=
| IndexError
| KeyError
| AttributeError
| LinAlgError
| RuntimeError (msg : String.string).

Inductive result (A : Type) : Type :=
| Ok (a : A)
| Error (e : PyError).

Arguments Ok {A} a.
Arguments Error {A} e.

Definition bind {A B : Type} (m : result A) (k : A -> result B) : result B :=
  match m with
  | Ok a => k a
  | Error e => Error e
  end.

Notation "x <- m ;; k" := (bind m (fun x => k))
  (at level 61, m at next level, right associativity).
Notation "' pat <- m ;; k" := (bind m (fun x => match x with pat => k end))
  (at level 61, pat pattern, m at next level, right associativity).

Definition is_error {A : Type} (m : result A) : Prop :=
  exists e, m = Error e.

Definition of_option {A : Type} (e : PyError) (o : option A) : result A :=
  match o with
  | Some a => Ok a
  | None => Error e
  end.

(** [for x in xs: acc = f(acc, x)] where the body may raise. *)
Fixpoint for_each {A S : Type} (f : S -> A -> result S) (xs : list A) (acc : S)
  : result S :=
  match xs with
  | [] => Ok acc
  | x :: xs' => acc' <- f acc x ;; for_each f xs' acc'
  end.

(* ================================================================== *)
(** ** Python list operations *)

Section PyList.
Context {A : Type}.

(** Position designated by a Python index: negative indices count from
    the end; [None] when out of range. *)
Definition py_pos (l : list A) (i : Z) : option nat :=
  let n := Z.of_nat (List.length l) in
  if (0 <=? i)%Z then (if (i <? n)%Z then Some (Z.to_nat i) else None)
  else if (0 <=? i + n)%Z then Some (Z.to_nat (i + n)) else None.

(** [l[i]] *)
Definition py_index (l : list A) (i : Z) : result A :=
  match py_pos l i with
  | Some k => of_option IndexError (nth_error l k)
  | None => Error IndexError
  end.

Fixpoint set_nth (l : list A) (k : nat) (v : A) : list A :=
  match l, k with
  | [], _ => []
  | _ :: t, O => v :: t
  | h :: t, S k' => h :: set_nth t k' v
  end.

(** [l[i] = v] *)
Definition py_set_item (l : list A) (i : Z) (v : A) : result (list A) :=
  match py_pos l i with
  | Some k => Ok (set_nth l k v)
  | None => Error IndexError
  end.

(** [l[lo:hi]] for non-negative bounds. *)
Definition py_slice (l : list A) (lo hi : nat) : list A :=
  firstn (hi - lo) (skipn lo l).
End PyList.

(* ================================================================== *)
(** ** Geometry and the G-code data model *)

Record vec3 : Type := mk_vec3 { vx : R; vy : R; vz : R }.

Definition vec3_eq_dec (a b : vec3) : {a = b} + {a <> b}.
Proof.
  destruct a as [ax ay az], b as [bx b_y bz].
  destruct (Req_dec_T ax bx); [| right; congruence].
  destruct (Req_dec_T ay b_y); [| right; congruence].
  destruct (Req_dec_T az bz); [| right; congruence].
  left; congruence.
Defined.

(** [np.array(a) - np.array(b)] on points. *)
Definition vec3_sub (a b : vec3) : vec3 :=
  mk_vec3 (vx a - vx b) (vy a - vy b) (vz a - vz b).

(** [(np.array(a) != np.array(b)).any()] *)
Definition np_any_ne (a b : vec3) : bool :=
  (if Req_dec_T (vx a) (vx b) then false else true)
  || (if Req_dec_T (vy a) (vy b) then false else true)
  || (if Req_dec_T (vz a) (vz b) then false else true).

(** [a == b] on two Python lists of three numbers. *)
Definition list_eqb (a b : vec3) : bool :=
  if vec3_eq_dec a b then true else false.

(** [np.arctan2(y, x)] *)
Definition arctan2 (y x : R) : R :=
  if Rlt_dec 0 x then atan (y / x)
  else if Rlt_dec x 0 then
         (if Rle_dec 0 y then atan (y / x) + PI else atan (y / x) - PI)
  else if Rlt_dec 0 y then PI / 2
  else if Rlt_dec y 0 then - (PI / 2)
  else 0.

(** Modelled from the spec: [distance_between_points] of
    [omgtools/basics/geometry.py] is not among the sources; the spec gives
    the width of a LINE corridor as the Euclidean distance between the
    block's start and end. *)
Definition distance_between_points (p q : vec3) : R :=
  sqrt ((vx p - vx q) ^ 2 + (vy p - vy q) ^ 2 + (vz p - vz q) ^ 2).

Inductive BlockType : Type := G00 | G01 | G02 | G03.

Record Block : Type := mk_Block {
  block_type : BlockType;
  block_start : vec3;
  block_end : vec3;
  block_center : vec3;
  block_radius : R
}.

Inductive Direction : Type := CW | CCW.

Inductive Shape : Type :=
| Rectangle (width height orientation : R)
| Ring (radius_in radius_out : R) (ring_start ring_end : vec3)
       (direction : Direction).

(** A room of the environment: the dict built by [get_environment].
    [room_orientation] is the optional key ['orientation'] that
    [create_segment] looks for. *)
Record Room : Type := mk_Room {
  room_shape : Shape;
  room_pose : list R;
  room_position : list R;
  room_draw : bool;
  room_start : vec3;
  room_end : vec3;
  room_orientation : option R
}.

Record Border : Type := mk_Border {
  border_shape : Shape;
  border_pose : list R;
  border_orientation : R;
  border_limits : option (list R)
}.

Record Segment : Type := mk_Segment {
  seg_border : Border;
  seg_number : nat;
  seg_start : vec3;
  seg_end : vec3
}.

(** Body of the loop of [get_environment] (lines 234-263): one block to
    one room. *)
Definition room_of_block (tolerance : R) (block : Block) : Room :=
  match block_type block with
  | G00 | G01 =>
      let s := block_start block in
      let e := block_end block in
      let width := distance_between_points s e in
      let height := tolerance in
      let orientation := arctan2 (vy e - vy s) (vx e - vx s) in
      let shape := Rectangle width height orientation in
      let pose := [vx s + (vx e - vx s) * 0.5;
                   vy s + (vy e - vy s) * 0.5;
                   vz s + (vz e - vz s) * 0.5;
                   orientation; 0; 0] in
      mk_Room shape pose (firstn 2 pose) true s e None
  | G02 | G03 =>
      let radius_in := block_radius block - tolerance in
      let radius_out := block_radius block + tolerance in
      let start := vec3_sub (block_start block) (block_center block) in
      let end_ := vec3_sub (block_end block) (block_center block) in
      let direction :=
        match block_type block with G02 => CW | _ => CCW end in
      let shape := Ring radius_in radius_out start end_ direction in
      let c := block_center block in
      let pose := [vx c; vy c; vz c] ++ [0; 0; 0] in
      mk_Room shape pose (firstn 2 pose) true
              (block_start block) (block_end block) None
  end.

(** [get_environment] (lines 227-264): the rooms of the environment, in
    program order. *)
Definition get_environment (GCode : list Block) (tolerance : R) : list Room :=
  map (room_of_block tolerance) GCode.

(** [create_segment] (lines 266-283); [n_current_block] is the scheduler's
    counter at the time of the call. *)
Definition create_segment (n_current_block : nat) (block : Room)
  : result Segment :=
  let orientation :=
    match room_orientation block with
    | Some o => o
    | None => 0
    end in
  limits <-
    match room_shape block with
    | Rectangle width height _ =>
        p0 <- py_index (room_pose block) 0 ;;
        p1 <- py_index (room_pose block) 1 ;;
        let xmin := p0 - width * 0.5 in
        let xmax := p0 + width * 0.5 in
        let ymin := p1 - height * 0.5 in
        let ymax := p1 + height * 0.5 in
        Ok (Some [xmin; ymin; xmax; ymax])
    | Ring _ _ _ _ _ => Ok None
    end ;;
  let border := mk_Border (room_shape block) (room_pose block)
                          orientation limits in
  Ok (mk_Segment border n_current_block (room_start block) (room_end block)).

(* ================================================================== *)
(** ** External collaborators *)

Definition matrix : Type := list (list R).

(** The two scipy functions the scheduler calls. *)
Class SciPy : Type := {
  (** [interp1d(x, y, kind='linear', bounds_error=False,
      fill_value=fill)(x_new)], for one abscissa [x_new]. *)
  interp1d : list R -> list R -> R -> R -> R;
  (** [scipy.linalg.solve(a, b)]; a singular [a] raises [LinAlgError]. *)
  la_solve : matrix -> list R -> result (list R)
}.

(** The spline library ([omgtools/basics/spline.py], [spline_extra.py]). *)
Class SplineLib : Type := {
  Basis : Type;
  Spline : Type;
  (** [BSplineBasis(knots, degree)] *)
  BSplineBasis : list R -> nat -> Basis;
  basis_knots : Basis -> list R;
  basis_degree : Basis -> nat;
  (** [basis.greville()] *)
  greville : Basis -> list R;
  (** [basis(points).toarray()] *)
  basis_call : Basis -> list R -> matrix;
  spline_basis : Spline -> Basis;
  (** [spline(points)] *)
  spline_call : Spline -> list R -> list R;
  (** [concat_splines(segments, times)]: one spline per axis. *)
  concat_splines : list (list Spline) -> list R -> list Spline
}.

(** [vehicle.signals]: the stored state and input traces, one column per
    sample. *)
Record Signals : Type := mk_Signals {
  sig_state : list vec3;
  sig_input : list vec3
}.

Inductive VehicleShape : Type :=
| Circle (radius : R)
| OtherShape.

(** The tool ([self.vehicles[0]]): what the scheduler reads of it and what
    it passes to it. An attribute that may be missing is an [option]. *)
Record Vehicle {splines : SplineLib} : Type := mk_Vehicle {
  veh_tolerance : R;
  veh_shapes : list VehicleShape;
  veh_poseT : vec3;
  veh_basis : Basis;
  veh_vmax : option R;
  veh_vxmax : option R;
  veh_vymax : option R;
  veh_vzmax : option R;
  veh_prediction_state : vec3;
  veh_signals : option Signals;
  (** last arguments of [set_init_spline_values] *)
  veh_init_spline_values : option (list matrix * nat);
  (** last arguments of [set_initial_conditions] *)
  veh_initial_conditions : option (vec3 * option vec3);
  (** last argument of [set_terminal_conditions] *)
  veh_terminal_conditions : option vec3
}.

Arguments mk_Vehicle {splines}.

(** [father._var_result]: the optimiser's latest values. *)
Record VarResult {splines : SplineLib} : Type := mk_VarResult {
  (** [get_variables(vehicle, 'splines_seg' + k)]: per-axis splines *)
  vr_splines : list (list Spline);
  (** [get_variables()[label, 'splines_seg' + k]]: raw coefficients *)
  vr_coeffs : list matrix;
  (** [get_variables(problem, 'T' + k)[0][0]] *)
  vr_T : list R
}.

Arguments mk_VarResult {splines}.

(** The local problem ([GCodeProblem] and its father, the optimisation
    layer), as the scheduler uses it. *)
Class OptiLayer {splines : SplineLib} : Type := {
  LocalProblem : Type;
  (** [GCodeProblem(vehicle, Environment(rooms), segments, n_segments)]
      followed by [set_options], [init()] and [initialize(0.)]. *)
  GCodeProblem : Vehicle -> list Room -> list Segment -> nat -> LocalProblem;
  (** [problem.reset_init_guess(init_guess)] *)
  reset_init_guess : LocalProblem -> list matrix -> LocalProblem;
  (** [problem.solve(current_time, update_time)]: the solved problem and
      the tool as the solve leaves it. *)
  problem_solve : LocalProblem -> Vehicle -> R -> R
                  -> result (LocalProblem * Vehicle);
  (** [problem.stop_criterium(current_time, update_time)] *)
  problem_stop_criterium : LocalProblem -> R -> R -> bool;
  (** [problem.father._var_result], [None] while the attribute is absent *)
  var_result : LocalProblem -> option VarResult;
  (** [problem.update_times] *)
  problem_update_times : LocalProblem -> list R
}.

Section Scheduler.
Context {scipy : SciPy} {splines : SplineLib} {opti : OptiLayer}.

(** The scheduler object. [local_problem] is [None] while the attribute
    does not exist. *)
Record Scheduler : Type := mk_Scheduler {
  environment : list Room;
  vehicle : Vehicle;
  n_current_block : nat;
  curr_state : vec3;
  goal_state : vec3;
  update_times : list R;
  n_segments : nat;
  segments : list Segment;
  cnt : nat;
  motion_times : list R;
  init_guess : list matrix;
  local_problem : option LocalProblem
}.

(* ================================================================== *)
(** ** Centerline guess generator: [get_init_guess_new_segment] *)

(** [np.linspace(start, stop, num)] *)
Definition linspace (start stop : R) (num : nat) : list R :=
  match num with
  | O => []
  | S O => [start]
  | S div =>
      let step := (stop - start) / INR div in
      map (fun i => INR i * step + start) (seq 0 div) ++ [stop]
  end.

(** The unwrapping of the two angles of an arc according to its
    direction. *)
Definition sweep_angles (direction : Direction) (start_angle end_angle : R)
  : R * R :=
  match direction with
  | CW =>
      if Rlt_dec start_angle end_angle
      then (start_angle + 2 * PI, end_angle)
      else (start_angle, end_angle)
  | CCW =>
      if Rgt_dec start_angle end_angle
      then (start_angle, end_angle + 2 * PI)
      else (start_angle, end_angle)
  end.

(** The sampled centerline [points] (lines 386-403), as its three rows. *)
Definition centerline (segment : Segment)
  : result (list R * list R * list R) :=
  let border := seg_border segment in
  let s := seg_start segment in
  let e := seg_end segment in
  match border_shape border with
  | Rectangle _ _ _ =>
      Ok ([vx s; vx e], [vy s; vy e], [vz s; vz e])
  | Ring radius_in radius_out _ _ direction =>
      p1 <- py_index (border_pose border) 1 ;;
      p0 <- py_index (border_pose border) 0 ;;
      let start_angle := arctan2 (vy s - p1) (vx s - p0) in
      let end_angle := arctan2 (vy e - p1) (vx e - p0) in
      let '(start_angle, end_angle) :=
        sweep_angles direction start_angle end_angle in
      let angles := linspace start_angle end_angle 50 in
      let radius := (radius_in + radius_out) * 0.5 in
      let xs := map (fun a => p0 + radius * cos a) angles in
      let ys := map (fun a => p1 + radius * sin a) angles in
      let zs := map (fun x => 0 * x) xs in
      Ok (xs, ys, zs)
  end.

(** Net displacement of one axis over the sampled centerline: last sample
    minus first sample. *)
Definition net_displacement (p : list R) : R := last p 0 - hd 0 p.

(** [l += p[i+1] - p[i]] over the consecutive samples of one axis
    (lines 411-415). *)
Fixpoint total_length (acc : R) (p : list R) : R :=
  match p with
  | a :: ((b :: _) as t) => total_length (acc + (b - a)) t
  | _ => acc
  end.

(** The entries appended to one axis' time vector (lines 418-432); [prev]
    is [time[-1]]. *)
Fixpoint time_steps (l prev : R) (p : list R) : list R :=
  match p with
  | a :: ((b :: _) as t) =>
      let next := if Req_dec_T l 0 then 0 else prev + (b - a) / l in
      next :: time_steps l next t
  | _ => []
  end.

Definition time_vector (l : R) (p : list R) : list R :=
  0 :: time_steps l 0 p.

(** [if 1 - t < 1e-5: time[idx] = 1] (lines 437-445) *)
Definition snap_to_one (t : R) : R :=
  if Rlt_dec (1 - t) 1e-5 then 1 else t.

(** [all(t == 0 for t in time)] *)
Definition all_zero (time : list R) : bool :=
  forallb (fun t => if Req_dec_T t 0 then true else false) time.

(** [np.c_[a, b, c]]: the rows of the matrix with columns [a], [b], [c]. *)
Definition np_c3 (a b c : list R) : matrix :=
  map (fun r => [fst r; fst (snd r); snd (snd r)]) (combine a (combine b c)).

Definition attr {A : Type} (o : option A) : result A :=
  of_option AttributeError o.

(** [vehicle.vmax if hasattr(vehicle, 'vmax') else
    (vehicle.vxmax + vehicle.vymax + vehicle.vzmax)*0.5] (line 487) *)
Definition max_vel (v : Vehicle) : result R :=
  match veh_vmax v with
  | Some vmax => Ok vmax
  | None =>
      vxmax <- attr (veh_vxmax v) ;;
      vymax <- attr (veh_vymax v) ;;
      vzmax <- attr (veh_vzmax v) ;;
      Ok ((vxmax + vymax + vzmax) * 0.5)
  end.

Definition goal_is_current : PyError :=
  RuntimeError "Trying to make a prediction for goal = current position."%string.

(** The time vector of one axis, with the entries close to 1 set to 1. *)
Definition axis_time (p : list R) : list R :=
  map snap_to_one (time_vector (total_length 0 p) p).

(** The abscissae of the three interpolation functions (lines 448-472):
    the call fails when no axis moves; an axis that does not move borrows
    the time vector of another one. *)
Definition interpolation_times (time_x time_y time_z : list R)
  : result (list R * list R * list R) :=
  if all_zero time_x && all_zero time_y && all_zero time_z
  then Error goal_is_current
  else
    let time_x :=
      if all_zero time_x
      then (if negb (all_zero time_y) then time_y else time_z)
      else time_x in
    let time_y :=
      if all_zero time_y
      then (if negb (all_zero time_x) then time_x else time_z)
      else time_y in
    let time_z :=
      if all_zero time_z
      then (if negb (all_zero time_x) then time_x else time_y)
      else time_z in
    Ok (time_x, time_y, time_z).

(** [init_guess[-3] = init_guess[-1]; init_guess[-4] = init_guess[-1]]
    (lines 489-490) *)
Definition repeat_final_row (init_guess : matrix) : result matrix :=
  last <- py_index init_guess (-1) ;;
  init_guess <- py_set_item init_guess (-3) last ;;
  last <- py_index init_guess (-1) ;;
  py_set_item init_guess (-4) last.

(** [get_init_guess_new_segment] (lines 383-492) *)
Definition get_init_guess_new_segment (self : Scheduler) (segment : Segment)
  : result (matrix * R) :=
  '(x, y, z) <- centerline segment ;;
  let l_x := total_length 0 x in
  let l_y := total_length 0 y in
  let l_z := total_length 0 z in
  '(time_x, time_y, time_z) <-
    interpolation_times (axis_time x) (axis_time y) (axis_time z) ;;
  let fx := interp1d time_x x 1 in
  let fy := interp1d time_y y 1 in
  let fz := interp1d time_z z 1 in
  let grev := greville (veh_basis (vehicle self)) in
  let coeffs_x := map fx grev in
  let coeffs_y := map fy grev in
  let coeffs_z := map fz grev in
  let init_guess := np_c3 coeffs_x coeffs_y coeffs_z in
  let length_to_travel := sqrt (l_x ^ 2 + l_y ^ 2 + l_z ^ 2) in
  max_vel <- max_vel (vehicle self) ;;
  let motion_time := length_to_travel / (max_vel * 0.5) in
  init_guess <- repeat_final_row init_guess ;;
  Ok (init_guess, motion_time).

(* ================================================================== *)
(** ** Solution stitcher: [get_init_guess_combined_segment] *)

(** [self.local_problem.father._var_result] *)
Definition get_variables (self : Scheduler) : result VarResult :=
  lp <- attr (local_problem self) ;;
  attr (var_result lp).

Definition key {A : Type} (l : list A) (k : nat) : result A :=
  of_option KeyError (nth_error l k).

Fixpoint zip_cons (col : list R) (m : matrix) : matrix :=
  match col, m with
  | x :: col', r :: m' => (x :: r) :: zip_cons col' m'
  | _, _ => []
  end.

(** [np.r_[coeffs].transpose()] *)
Fixpoint transpose (m : matrix) : matrix :=
  match m with
  | [] => []
  | [r] => map (fun x => [x]) r
  | r :: m' => zip_cons r (transpose m')
  end.

(** Body of the loop over the axes (lines 517-528): the coefficients of
    the concatenated spline [spl[l]] in the basis of [s], rescaled to
    [motion_time]. *)
Definition stitch_axis (motion_time : R) (spl : list Spline)
           (l : nat) (s : Spline) : result (list R) :=
  let degree := basis_degree (spline_basis s) in
  let knots := map (fun k => k * motion_time) (basis_knots (spline_basis s)) in
  let new_basis := BSplineBasis knots degree in
  let grev_bc := greville new_basis in
  g0 <- py_index grev_bc 0 ;;
  g1 <- py_index grev_bc 1 ;;
  grev_bc <- py_set_item grev_bc 0 (g0 + (g1 - g0) * 0.01) ;;
  gl <- py_index grev_bc (-1) ;;
  gl2 <- py_index grev_bc (-2) ;;
  grev_bc <- py_set_item grev_bc (-1) (gl - (gl - gl2) * 0.01) ;;
  spl_l <- py_index spl (Z.of_nat l) ;;
  let eval_sc := spline_call spl_l grev_bc in
  let eval_bc := basis_call new_basis grev_bc in
  la_solve eval_bc eval_sc.

(** [get_init_guess_combined_segment] (lines 494-532) *)
Definition get_init_guess_combined_segment (self : Scheduler)
  : result (matrix * R) :=
  vr <- get_variables self ;;
  spl1 <- key (vr_splines vr) 0 ;;
  spl2 <- key (vr_splines vr) 1 ;;
  time1 <- key (vr_T vr) 0 ;;
  time2 <- key (vr_T vr) 1 ;;
  let motion_time := time1 + time2 in
  let spl := concat_splines [spl1; spl2] [time1; time2] in
  coeffs <- for_each
              (fun coeffs ls =>
                 c <- stitch_axis motion_time spl (fst ls) (snd ls) ;;
                 Ok (coeffs ++ [c]))
              (combine (seq 0 (List.length spl1)) spl1) [] ;;
  let init_splines := transpose coeffs in
  Ok (init_splines, motion_time).

(* ================================================================== *)
(** ** The segment window *)

Definition set_vehicle (self : Scheduler) (v : Vehicle) : Scheduler :=
  mk_Scheduler (environment self) v (n_current_block self) (curr_state self)
    (goal_state self) (update_times self) (n_segments self) (segments self)
    (cnt self) (motion_times self) (init_guess self) (local_problem self).

Definition set_n_current_block (self : Scheduler) (n : nat) : Scheduler :=
  mk_Scheduler (environment self) (vehicle self) n (curr_state self)
    (goal_state self) (update_times self) (n_segments self) (segments self)
    (cnt self) (motion_times self) (init_guess self) (local_problem self).

Definition set_curr_state (self : Scheduler) (x : vec3) : Scheduler :=
  mk_Scheduler (environment self) (vehicle self) (n_current_block self) x
    (goal_state self) (update_times self) (n_segments self) (segments self)
    (cnt self) (motion_times self) (init_guess self) (local_problem self).

Definition set_update_times (self : Scheduler) (u : list R) : Scheduler :=
  mk_Scheduler (environment self) (vehicle self) (n_current_block self)
    (curr_state self) (goal_state self) u (n_segments self) (segments self)
    (cnt self) (motion_times self) (init_guess self) (local_problem self).

Definition set_segments (self : Scheduler) (s : list Segment) : Scheduler :=
  mk_Scheduler (environment self) (vehicle self) (n_current_block self)
    (curr_state self) (goal_state self) (update_times self) (n_segments self)
    s (cnt self) (motion_times self) (init_guess self) (local_problem self).

Definition set_cnt (self : Scheduler) (n : nat) : Scheduler :=
  mk_Scheduler (environment self) (vehicle self) (n_current_block self)
    (curr_state self) (goal_state self) (update_times self) (n_segments self)
    (segments self) n (motion_times self) (init_guess self)
    (local_problem self).

Definition set_motion_times (self : Scheduler) (m : list R) : Scheduler :=
  mk_Scheduler (environment self) (vehicle self) (n_current_block self)
    (curr_state self) (goal_state self) (update_times self) (n_segments self)
    (segments self) (cnt self) m (init_guess self) (local_problem self).

Definition set_init_guess (self : Scheduler) (g : list matrix) : Scheduler :=
  mk_Scheduler (environment self) (vehicle self) (n_current_block self)
    (curr_state self) (goal_state self) (update_times self) (n_segments self)
    (segments self) (cnt self) (motion_times self) g (local_problem self).

Definition set_local_problem (self : Scheduler) (p : option LocalProblem)
  : Scheduler :=
  mk_Scheduler (environment self) (vehicle self) (n_current_block self)
    (curr_state self) (goal_state self) (update_times self) (n_segments self)
    (segments self) (cnt self) (motion_times self) (init_guess self) p.

(** [hasattr(self, 'local_problem') and
    hasattr(self.local_problem.father, '_var_result')] *)
Definition has_previous_solution (self : Scheduler) : bool :=
  match local_problem self with
  | Some lp => match var_result lp with Some _ => true | None => false end
  | None => false
  end.

(** The three calls that pass the guess and the boundary conditions on to
    the tool, at the end of [get_init_guess] (lines 367-375). *)
Definition pass_on_to_vehicle (self : Scheduler) (init_splines : list matrix)
  : result Vehicle :=
  let v := vehicle self in
  initial <-
    match veh_signals v with
    | Some signals =>
        input <- py_index (sig_input signals) (-1) ;;
        Ok (curr_state self, Some input)
    | None => Ok (curr_state self, None)
    end ;;
  last <- py_index (segments self) (-1) ;;
  Ok (mk_Vehicle (veh_tolerance v) (veh_shapes v) (veh_poseT v) (veh_basis v)
        (veh_vmax v) (veh_vxmax v) (veh_vymax v) (veh_vzmax v)
        (veh_prediction_state v) (veh_signals v)
        (Some (init_splines, n_segments self))
        (Some initial)
        (Some (seg_end last))).

(** [get_init_guess] (lines 330-381) *)
Definition get_init_guess (self : Scheduler)
  : result (Scheduler * (list matrix * list R)) :=
  let N := n_segments self in
  '(guesses, guess_idx) <-
    (if has_previous_solution self then
       first <-
         (if (1 <? N)%nat then
            '(init_spl, motion_time) <- get_init_guess_combined_segment self ;;
            Ok ([init_spl], [motion_time])
          else Ok ([], [])) ;;
       kept <-
         (if (2 <? N)%nat then
            for_each
              (fun acc k =>
                 vr <- get_variables self ;;
                 spl <- key (vr_coeffs vr) k ;;
                 vr <- get_variables self ;;
                 T <- key (vr_T vr) k ;;
                 Ok (fst acc ++ [spl], snd acc ++ [T]))
              (seq 2 (N - 2)) first
          else Ok first) ;;
       Ok (kept, [(Z.of_nat N - 1)%Z])
     else Ok (([], []), map Z.of_nat (seq 0 N))) ;;
  '(init_splines, motion_times) <-
    for_each
      (fun acc k =>
         segment <- py_index (segments self) k ;;
         '(init_spl, motion_time) <- get_init_guess_new_segment self segment ;;
         Ok (fst acc ++ [init_spl], snd acc ++ [motion_time]))
      guess_idx guesses ;;
  v <- pass_on_to_vehicle self init_splines ;;
  Ok (set_vehicle self v, (init_splines, motion_times)).

(** [generate_problem] (lines 317-328) *)
Definition generate_problem (self : Scheduler) : LocalProblem :=
  let local_rooms :=
    py_slice (environment self) (n_current_block self)
             (n_current_block self + n_segments self) in
  GCodeProblem (vehicle self) local_rooms (segments self) (n_segments self).

(** [reinitialize] (lines 74-100) *)
Definition reinitialize (self : Scheduler) : result Scheduler :=
  let self := set_segments self [] in
  let next_blocks :=
    py_slice (environment self) (n_current_block self)
             (n_current_block self + n_segments self) in
  self <- for_each
            (fun self block =>
               segment <- create_segment (n_current_block self) block ;;
               Ok (set_segments self (segments self ++ [segment])))
            next_blocks self ;;
  let self := set_cnt self (List.length (environment self)) in
  '(self, (init_guess, motion_times)) <- get_init_guess self ;;
  let self := set_motion_times self motion_times in
  let lp := generate_problem self in
  Ok (set_local_problem self (Some (reset_init_guess lp init_guess))).

(** [check_segments] (lines 285-301) *)
Definition check_segments (self : Scheduler) : result bool :=
  seg0 <- py_index (segments self) 0 ;;
  if np_any_ne (curr_state self) (seg_end seg0) then Ok true else Ok false.

(** [update_segments] (lines 303-315) *)
Definition update_segments (self : Scheduler) : result Scheduler :=
  let self := set_segments self (tl (segments self)) in
  room <- py_index (environment self)
            (Z.of_nat (n_current_block self)
             + (Z.of_nat (n_segments self) - 1))%Z ;;
  new_segment <- create_segment (n_current_block self) room ;;
  let self := set_segments self (segments self ++ [new_segment]) in
  '(self, (init_guess, motion_times)) <- get_init_guess self ;;
  Ok (set_motion_times (set_init_guess self init_guess) motion_times).

(** The loop of the no-advance branch of [solve] (lines 119-121):
    [self.motion_times[k] = T_k] for [k] in [range(n_segments)]. *)
Definition refresh_motion_times (self : Scheduler) : result Scheduler :=
  for_each
    (fun self k =>
       vr <- get_variables self ;;
       T <- key (vr_T vr) k ;;
       m <- py_set_item (motion_times self) (Z.of_nat k) T ;;
       Ok (set_motion_times self m))
    (seq 0 (n_segments self)) self.

(** [solve] (lines 102-135) *)
Definition solve (self : Scheduler) (current_time update_time : R)
  : result Scheduler :=
  segments_valid <- check_segments self ;;
  self <-
    (if negb segments_valid then
       let self := set_n_current_block self (n_current_block self + 1) in
       self <- update_segments self ;;
       let lp := generate_problem self in
       Ok (set_local_problem self
             (Some (reset_init_guess lp (init_guess self))))
     else refresh_motion_times self) ;;
  lp <- attr (local_problem self) ;;
  '(lp, v) <- problem_solve lp (vehicle self) current_time update_time ;;
  let self := set_vehicle (set_local_problem self (Some lp)) v in
  last_update <- py_index (problem_update_times lp) (-1) ;;
  let self := set_update_times self (update_times self ++ [last_update]) in
  match veh_signals (vehicle self) with
  | None =>
      Ok (set_curr_state self (veh_prediction_state (vehicle self)))
  | Some signals =>
      x <- py_index (sig_state signals) (-1) ;;
      Ok (set_curr_state self x)
  end.

(** [stop_criterium] (lines 164-171): [Some true] is Python's [True], [Some false] is
    [False] and [None] is the [None] of a function that ends without a
    [return]. *)
Definition stop_criterium (self : Scheduler) (current_time update_time : R)
  : result (option bool) :=
  last <- py_index (segments self) (-1) ;;
  if list_eqb (seg_end last) (goal_state self) then
    lp <- attr (local_problem self) ;;
    if problem_stop_criterium lp current_time update_time
    then Ok (Some true)
    else Ok None
  else Ok (Some false).

(** [__init__] (lines 38-65): [n_segments] is the keyword argument, when
    given. *)
Definition init_scheduler (tool : Vehicle) (GCode : list Block)
           (n_segments : option nat) : result Scheduler :=
  let environment := get_environment GCode (veh_tolerance tool) in
  shape <- py_index (veh_shapes tool) 0 ;;
  match shape with
  | Circle _ =>
      Ok (mk_Scheduler environment tool 0 (veh_prediction_state tool)
            (veh_poseT tool) []
            (match n_segments with Some n => n | None => 1%nat end)
            [] 0 [] [] None)
  | OtherShape =>
      Error (RuntimeError
        "Vehicle shape can only be a Circle when solving a GCodeSchedulerProblem")
  end.

(** The scheduler states a run can reach: construction and
    [reinitialize], then calls of [solve]; between two calls the
    simulation ([store], [simulate]) updates the tool and the local
    problem. *)
Inductive reachable (tool : Vehicle) (GCode : list Block)
          (n : option nat) : Scheduler -> Prop :=
| reach_reinitialize : forall s0 s,
    init_scheduler tool GCode n = Ok s0 ->
    reinitialize s0 = Ok s ->
    reachable tool GCode n s
| reach_solve : forall s current_time update_time s',
    reachable tool GCode n s ->
    solve s current_time update_time = Ok s' ->
    reachable tool GCode n s'
| reach_simulate : forall s v,
    reachable tool GCode n s ->
    reachable tool GCode n (set_vehicle s v)
| reach_store : forall s lp lp',
    reachable tool GCode n s ->
    local_problem s = Some lp ->
    reachable tool GCode n (set_local_problem s (Some lp')).

(** The window as a slice of the program: slot [i] holds the corridor at
    position [n_current_block + i], with the number the counter had when
    the segment was created. *)
Definition window_inv (self : Scheduler) : Prop :=
  let c := n_current_block self in
  let N := n_segments self in
  List.length (segments self) = N /\
  (c + N <= List.length (environment self))%nat /\
  forall i seg,
    nth_error (segments self) i = Some seg ->
    exists room,
      nth_error (environment self) (c + i) = Some room /\
      create_segment (c + i - (N - 1)) room = Ok seg.

(** Total Euclidean length of the sampled centerline: the sum of the
    distances between consecutive samples. *)
Fixpoint path_length (x y z : list R) : R :=
  match x, y, z with
  | a :: ((a' :: _) as x'), b :: ((b' :: _) as y'), c :: ((c' :: _) as z') =>
      sqrt ((a' - a) ^ 2 + (b' - b) ^ 2 + (c' - c) ^ 2)
      + path_length x' y' z'
  | _, _, _ => 0
  end.

End Scheduler.

(* ================================================================== *)
(** ** Sample collaborators

    Concrete collaborators, to run the scheduler on sample programs: linear
    interpolation and Gaussian elimination for scipy, B-splines given by
    the Cox-de Boor recursion, and an optimiser that answers every solve
    with one given solution. The general results below hold for every
    collaborator. *)

Fixpoint insert_point (p : R * R) (l : list (R * R)) : list (R * R) :=
  match l with
  | [] => [p]
  | q :: l' =>
      if Rle_dec (fst p) (fst q) then p :: l else q :: insert_point p l'
  end.

(** Stable sort of the sample points by abscissa. *)
Definition sort_points (l : list (R * R)) : list (R * R) :=
  fold_right insert_point [] l.

(** Number of leading abscissae below [v]. *)
Fixpoint searchsorted (xs : list R) (v : R) : nat :=
  match xs with
  | [] => 0
  | x :: xs' => if Rlt_dec x v then S (searchsorted xs' v) else 0
  end.

(** Piecewise-linear interpolation, [fill] outside the sampled range. *)
Definition linear_interp (xs ys : list R) (fill v : R) : R :=
  let pts := sort_points (combine xs ys) in
  let sx := map fst pts in
  let sy := map snd pts in
  if Rlt_dec v (hd 0 sx) then fill
  else if Rlt_dec (last sx 0) v then fill
  else
    let hi := Nat.min (Nat.max (searchsorted sx v) 1) (List.length sx - 1) in
    let lo := (hi - 1)%nat in
    let slope := (nth hi sy 0 - nth lo sy 0) / (nth hi sx 0 - nth lo sx 0) in
    slope * (v - nth lo sx 0) + nth lo sy 0.

(** First row with a non-zero head, and the other rows in order. *)
Fixpoint find_pivot (rows : matrix) : option (list R * matrix) :=
  match rows with
  | [] => None
  | r :: rows' =>
      if Req_dec_T (hd 0 r) 0
      then match find_pivot rows' with
           | Some (p, others) => Some (p, r :: others)
           | None => None
           end
      else Some (r, rows')
  end.

Fixpoint dot (a b : list R) : R :=
  match a, b with
  | x :: a', y :: b' => x * y + dot a' b'
  | _, _ => 0
  end.

(** Gaussian elimination on the augmented rows [a_i1 ... a_in | b_i];
    [n] is the number of unknowns left. *)
Fixpoint gauss (n : nat) (rows : matrix) : result (list R) :=
  match n with
  | O => Ok []
  | S n' =>
      match find_pivot rows with
      | None => Error LinAlgError
      | Some (p, others) =>
          let a := hd 0 p in
          let reduce r :=
            map (fun uv => fst uv - hd 0 r / a * snd uv)
                (combine (tl r) (tl p)) in
          xs <- gauss n' (map reduce others) ;;
          let coefs := firstn n' (tl p) in
          let rhs := last p 0 in
          Ok ((rhs - dot coefs xs) / a :: xs)
      end
  end.

Definition gauss_solve (a : matrix) (b : list R) : result (list R) :=
  gauss (List.length a) (map (fun rb => fst rb ++ [snd rb]) (combine a b)).

Definition sample_scipy : SciPy :=
  {| interp1d := linear_interp; la_solve := gauss_solve |}.

(** B-spline [i] of degree [p] on [knots] (Cox-de Boor). *)
Fixpoint bspline (knots : list R) (p i : nat) (x : R) : R :=
  let t j := nth j knots 0 in
  match p with
  | O =>
      if Rle_dec (t i) x then (if Rlt_dec x (t (S i)) then 1 else 0) else 0
  | S p' =>
      (if Req_dec_T (t (i + p)%nat - t i) 0 then 0
       else (x - t i) / (t (i + p)%nat - t i) * bspline knots p' i x)
      + (if Req_dec_T (t (S (i + p)) - t (S i)) 0 then 0
         else (t (S (i + p)) - x) / (t (S (i + p)) - t (S i))
              * bspline knots p' (S i) x)
  end.

Definition knot_basis : Type := (list R * nat)%type.

Definition knot_basis_size (b : knot_basis) : nat :=
  (List.length (fst b) - snd b - 1)%nat.

Definition knot_greville (b : knot_basis) : list R :=
  map (fun i =>
         fold_right Rplus 0 (firstn (snd b) (skipn (S i) (fst b)))
         / INR (snd b))
      (seq 0 (knot_basis_size b)).

Definition knot_basis_call (b : knot_basis) (points : list R) : matrix :=
  map (fun x => map (fun i => bspline (fst b) (snd b) i x)
                    (seq 0 (knot_basis_size b)))
      points.

(** A spline is its basis and the function it represents. *)
Definition knot_spline : Type := (knot_basis * (R -> R))%type.

(** Two splines on [[0, 1]], run one after the other in [t1] and [t2]. *)
Definition knot_concat (segs : list (list knot_spline)) (times : list R)
  : list knot_spline :=
  match segs, times with
  | [spl1; spl2], [t1; t2] =>
      map (fun ab =>
             let '(a, b) := ab in
             ((map (fun k => k * t1) (fst (fst a))
               ++ map (fun k => t1 + k * t2) (fst (fst b)),
               snd (fst a)),
              fun tau => if Rle_dec tau t1 then snd a (tau / t1)
                         else snd b ((tau - t1) / t2)))
          (combine spl1 spl2)
  | _, _ => []
  end.

Definition sample_splines : SplineLib :=
  {| Basis := knot_basis;
     Spline := knot_spline;
     BSplineBasis := fun knots degree => (knots, degree);
     basis_knots := fst;
     basis_degree := snd;
     greville := knot_greville;
     basis_call := knot_basis_call;
     spline_basis := fst;
     spline_call := fun s points => map (snd s) points;
     concat_splines := knot_concat |}.

(** The local problem of the sample optimiser. *)
Record SampleProblem : Type := mk_SampleProblem {
  sp_var_result : option (@VarResult sample_splines);
  sp_update_times : list R;
  sp_init_guess : list matrix
}.

(** An optimiser whose new problems hold [fresh], that answers every
    solve with [answer], and whose stop criterion is [stop]. *)
Definition sample_optimizer (fresh : option (@VarResult sample_splines))
           (answer : @VarResult sample_splines) (stop : bool)
  : @OptiLayer sample_splines :=
  {| LocalProblem := SampleProblem;
     GCodeProblem := fun _ _ _ _ => mk_SampleProblem fresh [] [];
     reset_init_guess := fun p g =>
       mk_SampleProblem (sp_var_result p) (sp_update_times p) g;
     problem_solve := fun p v _ update_time =>
       Ok (mk_SampleProblem (Some answer)
             (sp_update_times p ++ [update_time]) (sp_init_guess p), v);
     problem_stop_criterium := fun _ _ _ => stop;
     var_result := sp_var_result;
     problem_update_times := sp_update_times |}.

(** A tool at [position]: a disk, cubic splines on one knot interval, top
    speed 2. *)
Definition sample_tool (position goal : vec3) : @Vehicle sample_splines :=
  @mk_Vehicle sample_splines 0.1 [Circle 0.5] goal
    ([0; 0; 0; 0; 1; 1; 1; 1], 3%nat) (Some 2) None None None
    position None None None None.

Definition origin : vec3 := mk_vec3 0 0 0.

(** [G01] from [(0,0,0)] to [(10,0,0)], then to [(10,10,0)], then to
    [(0,10,0)]. *)
Definition line1 : Block :=
  mk_Block G01 (mk_vec3 0 0 0) (mk_vec3 10 0 0) origin 0.
Definition line2 : Block :=
  mk_Block G01 (mk_vec3 10 0 0) (mk_vec3 10 10 0) origin 0.
Definition line3 : Block :=
  mk_Block G01 (mk_vec3 10 10 0) (mk_vec3 0 10 0) origin 0.

(** [G03]: three quarters of the unit circle around the origin, counter
    clockwise from [(1,0,0)] to [(0,-1,0)]. *)
Definition arc1 : Block :=
  mk_Block G03 (mk_vec3 1 0 0) (mk_vec3 0 (-1) 0) origin 1.

(** The optimiser's values in the middle of the first segment: 3 time
    units are left. *)
Definition sample_answer : @VarResult sample_splines :=
  @mk_VarResult sample_splines [] [] [3].

Definition steady_optimizer : @OptiLayer sample_splines :=
  sample_optimizer (Some sample_answer) sample_answer false.

(** The segment of [line1]. *)
Definition line1_segment : Segment :=
  mk_Segment
    (mk_Border (Rectangle 10 0.1 0) [5; 0; 0; 0; 0; 0] 0
               (Some [0; -0.05; 10; 0.05]))
    0 (mk_vec3 0 0 0) (mk_vec3 10 0 0).

(** The scheduler of the program [line1; line2] with look-ahead 1, the
    tool on its way along [line1]. *)
Definition mid_run : @Scheduler sample_splines steady_optimizer :=
  @mk_Scheduler sample_splines steady_optimizer (get_environment [line1; line2] 0.1)
    (sample_tool (mk_vec3 4.5 0 0) (mk_vec3 10 10 0))
    0 (mk_vec3 4 0 0) (mk_vec3 10 10 0) [0.01] 1 [line1_segment] 2 [10] []
    (Some (mk_SampleProblem (Some sample_answer) [0.01] [])).

(** [mid_run] one iteration later. *)
Definition mid_run_next : @Scheduler sample_splines steady_optimizer :=
  @mk_Scheduler sample_splines steady_optimizer (get_environment [line1; line2] 0.1)
    (sample_tool (mk_vec3 4.5 0 0) (mk_vec3 10 10 0))
    0 (mk_vec3 4.5 0 0) (mk_vec3 10 10 0) [0.01; 0.02] 1 [line1_segment]
    2 [3] []
    (Some (mk_SampleProblem (Some sample_answer) [0.01; 0.02] [])).

(** The scheduler as [__init__] leaves it for the program [GCode], the
    tool at the origin and look-ahead [n]. *)
Definition fresh_scheduler (opti : @OptiLayer sample_splines)
           (GCode : list Block) (goal : vec3) (n : nat)
  : @Scheduler sample_splines opti :=
  @mk_Scheduler sample_splines opti (get_environment GCode 0.1)
    (sample_tool origin goal) 0 origin goal [] n [] 0 [] [] None.

(** A straight ramp as a spline of degree 1 on one knot interval. *)
Definition ramp : knot_spline := (([0; 0; 1; 1], 1%nat), fun t => t).

(** The optimiser's values when no time is left on the first two
    segments: both time variables are zero. *)
Definition collapsed_answer : @VarResult sample_splines :=
  @mk_VarResult sample_splines
    [[ramp; ramp; ramp]; [ramp; ramp; ramp]] [] [0; 0].

Definition stalled_optimizer : @OptiLayer sample_splines :=
  sample_optimizer (Some collapsed_answer) collapsed_answer false.

(** The segment of [line2]. *)
Definition line2_segment : Segment :=
  mk_Segment
    (mk_Border (Rectangle 10 0.1 (PI / 2)) [10; 5; 0; PI / 2; 0; 0] 0
               (Some [5; 4.95; 15; 5.05]))
    0 (mk_vec3 10 0 0) (mk_vec3 10 10 0).

(** The scheduler of the program [line1; line2; line3] with look-ahead 2,
    its local problem solved, no time left on the window. *)
Definition stalled_run : @Scheduler sample_splines stalled_optimizer :=
  @mk_Scheduler sample_splines stalled_optimizer
    (get_environment [line1; line2; line3] 0.1)
    (sample_tool (mk_vec3 10 0 0) (mk_vec3 0 10 0))
    0 (mk_vec3 10 0 0) (mk_vec3 0 10 0) [0.01] 2
    [line1_segment; line2_segment] 3 [0; 0] []
    (Some (mk_SampleProblem (Some collapsed_answer) [0.01] [])).

(** [mid_run] with the tool at the exit point of [line1]. *)
Definition at_exit : @Scheduler sample_splines steady_optimizer :=
  set_curr_state mid_run (mk_vec3 10 0 0).

(** The scheduler of the program [line1; line2; line3] with look-ahead 2
    on its last window, the tool at the exit point of [line2]. *)
Definition tail_run : @Scheduler sample_splines steady_optimizer :=
  @mk_Scheduler sample_splines steady_optimizer
    (get_environment [line1; line2; line3] 0.1)
    (sample_tool (mk_vec3 10 10 0) (mk_vec3 0 10 0))
    1 (mk_vec3 10 10 0) (mk_vec3 0 10 0) [0.01; 0.02] 2
    [line2_segment;
     mk_Segment
       (mk_Border (Rectangle 10 0.1 PI) [5; 10; 0; PI; 0; 0] 0
                  (Some [0; 9.95; 10; 10.05]))
       1 (mk_vec3 10 10 0) (mk_vec3 0 10 0)]
    3 [3; 3] []
    (Some (mk_SampleProblem (Some sample_answer) [0.01; 0.02] [])).

(** A segment whose entry point is its exit point. *)
Definition still_segment : Segment :=
  mk_Segment
    (mk_Border (Rectangle 0 0.1 0) [0; 0; 0; 0; 0; 0] 0
               (Some [0; -0.05; 0; 0.05]))
    0 origin origin.

(** The segment of [arc1]. *)
Definition arc1_segment : Segment :=
  mk_Segment
    (mk_Border (Ring 0.9 1.1 (mk_vec3 1 0 0) (mk_vec3 0 (-1) 0) CCW)
               [0; 0; 0; 0; 0; 0] 0 None)
    0 (mk_vec3 1 0 0) (mk_vec3 0 (-1) 0).

(** Total variation of one axis: the sum of the absolute steps between
    consecutive samples. *)
Fixpoint abs_steps (p : list R) : R :=
  match p with
  | a :: ((b :: _) as t) => Rabs (b - a) + abs_steps t
  | _ => 0
  end.

(** The segment of [line3]. *)
Definition line3_segment : Segment :=
  mk_Segment
    (mk_Border (Rectangle 10 0.1 PI) [5; 10; 0; PI; 0; 0] 0
               (Some [0; 9.95; 10; 10.05]))
    0 (mk_vec3 10 10 0) (mk_vec3 0 10 0).

(** The optimiser's values for a window of three segments: ramps on the
    three axes of the first two segments, 1, 1 and 6 time units, and the
    coefficients of the third segment. *)
Definition warm_answer : @VarResult sample_splines :=
  @mk_VarResult sample_splines
    [[ramp; ramp; ramp]; [ramp; ramp; ramp]] [[]; []; [[7; 8; 9]]] [1; 1; 6].

Definition warm_optimizer : @OptiLayer sample_splines :=
  sample_optimizer (Some warm_answer) warm_answer false.

(** The scheduler of the program [line1; line2; line3] with look-ahead 3,
    its local problem solved. *)
Definition warm_run : @Scheduler sample_splines warm_optimizer :=
  @mk_Scheduler sample_splines warm_optimizer
    (get_environment [line1; line2; line3] 0.1)
    (sample_tool (mk_vec3 1 0 0) (mk_vec3 0 10 0))
    0 (mk_vec3 1 0 0) (mk_vec3 0 10 0) [0.01] 3
    [line1_segment; line2_segment; line3_segment] 3 [10; 10; 10] []
    (Some (mk_SampleProblem (Some warm_answer) [0.01] [])).

(* ================================================================== *)
(** * Properties *)

(** ** Python lists *)

Section PyListFacts.
Context {A : Type}.
Implicit Types (l : list A) (a v : A).

Lemma py_index_nat l (k : nat) :
  py_index l (Z.of_nat k) = of_option IndexError (nth_error l k).
Proof.
  unfold py_index, py_pos.
  destruct (Z.leb_spec 0 (Z.of_nat k)); [| lia].
  destruct (Z.ltb_spec (Z.of_nat k) (Z.of_nat (List.length l))).
  - now rewrite Nat2Z.id.
  - destruct (nth_error l k) eqn:E; [| reflexivity].
    assert (k < List.length l)%nat by (apply nth_error_Some; congruence).
    lia.
Qed.

Lemma py_index_neg l (j : nat) :
  (0 < j)%nat ->
  py_index l (- Z.of_nat j) =
  if (j <=? List.length l)%nat
  then of_option IndexError (nth_error l (List.length l - j))
  else Error IndexError.
Proof.
  intros Hj. unfold py_index, py_pos.
  destruct (Z.leb_spec 0 (- Z.of_nat j)); [lia |].
  destruct (Nat.leb_spec j (List.length l)).
  - destruct (Z.leb_spec 0 (- Z.of_nat j + Z.of_nat (List.length l)));
      [| lia].
    replace (Z.to_nat (- Z.of_nat j + Z.of_nat (List.length l)))
      with (List.length l - j)%nat by lia.
    reflexivity.
  - destruct (Z.leb_spec 0 (- Z.of_nat j + Z.of_nat (List.length l)));
      [lia | reflexivity].
Qed.

Lemma py_set_item_neg l (j : nat) v :
  (0 < j)%nat ->
  py_set_item l (- Z.of_nat j) v =
  if (j <=? List.length l)%nat
  then Ok (set_nth l (List.length l - j) v)
  else Error IndexError.
Proof.
  intros Hj. unfold py_set_item, py_pos.
  destruct (Z.leb_spec 0 (- Z.of_nat j)); [lia |].
  destruct (Nat.leb_spec j (List.length l)).
  - destruct (Z.leb_spec 0 (- Z.of_nat j + Z.of_nat (List.length l)));
      [| lia].
    replace (Z.to_nat (- Z.of_nat j + Z.of_nat (List.length l)))
      with (List.length l - j)%nat by lia.
    reflexivity.
  - destruct (Z.leb_spec 0 (- Z.of_nat j + Z.of_nat (List.length l)));
      [lia | reflexivity].
Qed.

Lemma py_index_nil (i : Z) : py_index (@nil A) i = Error IndexError.
Proof.
  unfold py_index, py_pos. simpl.
  destruct (Z.leb_spec 0 i).
  - destruct (Z.ltb_spec i 0); [lia | reflexivity].
  - destruct (Z.leb_spec 0 (i + 0)); [lia | reflexivity].
Qed.

Lemma py_index_last l a : py_index (l ++ [a]) (-1) = Ok a.
Proof.
  change (-1)%Z with (- Z.of_nat 1)%Z.
  rewrite py_index_neg by lia.
  rewrite length_app. cbn [List.length].
  destruct (Nat.leb_spec 1 (List.length l + 1)); [| lia].
  replace (List.length l + 1 - 1)%nat with (List.length l) by lia.
  rewrite nth_error_app2 by lia. now rewrite Nat.sub_diag.
Qed.

Lemma length_set_nth l k v : List.length (set_nth l k v) = List.length l.
Proof.
  revert k; induction l as [| h t IH]; intros [| k]; simpl; auto.
Qed.

Lemma nth_error_set_nth_eq l k v :
  (k < List.length l)%nat -> nth_error (set_nth l k v) k = Some v.
Proof.
  revert k; induction l as [| h t IH]; intros [| k] H; simpl in *;
    try lia; auto.
  apply IH. lia.
Qed.

Lemma nth_error_set_nth_neq l k k' v :
  k <> k' -> nth_error (set_nth l k v) k' = nth_error l k'.
Proof.
  revert k k'; induction l as [| h t IH]; intros [| k] [| k'] H; simpl;
    try congruence; auto.
Qed.

Lemma last_default l d d' : l <> [] -> last l d = last l d'.
Proof.
  induction l as [| a [| b l] IH]; intros H; [congruence | reflexivity |].
  change (last (a :: b :: l) d) with (last (b :: l) d).
  change (last (a :: b :: l) d') with (last (b :: l) d').
  apply IH. discriminate.
Qed.

Lemma last_In l d : l <> [] -> In (last l d) l.
Proof.
  intros H. rewrite (app_removelast_last d H) at 2.
  apply in_or_app. right. now left.
Qed.

Lemma last_cons_nonempty l a b d :
  last (a :: b :: l) d = last (b :: l) a.
Proof.
  change (last (a :: b :: l) d) with (last (b :: l) d).
  apply last_default. discriminate.
Qed.
End PyListFacts.


(* ================================================================== *)
(** ** The centerline guess generator *)

Lemma total_length_last (p : list R) (a acc : R) :
  total_length acc (a :: p) = acc + (last p a - a).
Proof.
  revert a acc; induction p as [| b p IH]; intros a acc.
  - simpl. lra.
  - change (total_length acc (a :: b :: p))
      with (total_length (acc + (b - a)) (b :: p)).
    rewrite IH.
    replace (last (b :: p) a) with (last p b).
    + lra.
    + destruct p as [| c p]; [reflexivity |].
      symmetry. apply last_cons_nonempty.
Qed.

Lemma snap_to_one_0 : snap_to_one 0 = 0.
Proof. unfold snap_to_one. destruct (Rlt_dec (1 - 0) 1e-5); [lra | reflexivity]. Qed.

Lemma snap_to_one_1 : snap_to_one 1 = 1.
Proof. unfold snap_to_one. destruct (Rlt_dec (1 - 1) 1e-5); reflexivity. Qed.

Lemma time_steps_zero (prev : R) (p : list R) :
  Forall (fun t => t = 0) (time_steps 0 prev p).
Proof.
  revert prev; induction p as [| a [| b p] IH]; intros prev;
    try (constructor; fail).
  change (time_steps 0 prev (a :: b :: p))
    with ((if Req_dec_T 0 0 then 0 else prev + (b - a) / 0)
          :: time_steps 0 (if Req_dec_T 0 0 then 0 else prev + (b - a) / 0)
               (b :: p)).
  constructor; [| apply IH].
  destruct (Req_dec_T 0 0); [reflexivity | congruence].
Qed.

Lemma time_steps_last (l prev a d : R) (p : list R) :
  l <> 0 -> p <> [] ->
  last (time_steps l prev (a :: p)) d = prev + (last p a - a) / l.
Proof.
  intros Hl. revert prev a d; induction p as [| b p IH]; intros prev a d Hp;
    [congruence |].
  change (time_steps l prev (a :: b :: p))
    with ((if Req_dec_T l 0 then 0 else prev + (b - a) / l)
          :: time_steps l (if Req_dec_T l 0 then 0 else prev + (b - a) / l)
               (b :: p)).
  destruct (Req_dec_T l 0) as [E | _]; [congruence |].
  destruct p as [| c p].
  - simpl. reflexivity.
  - set (ts := time_steps l (prev + (b - a) / l) (b :: c :: p)).
    assert (Hts : ts <> []) by (subst ts; simpl; discriminate).
    replace (last ((prev + (b - a) / l) :: ts) d)
      with (last ts d) by (destruct ts; [congruence | reflexivity]).
    subst ts. rewrite IH by discriminate.
    rewrite (last_cons_nonempty p b c a).
    unfold Rdiv. lra.
Qed.

Lemma all_zero_Forall (time : list R) :
  all_zero time = true <-> Forall (fun t => t = 0) time.
Proof.
  unfold all_zero. rewrite forallb_forall, Forall_forall.
  split; intros H t Ht; specialize (H t Ht);
    destruct (Req_dec_T t 0); congruence.
Qed.

(** The time vector of an axis is all zero exactly when the axis has no
    net displacement. *)
Lemma all_zero_axis_time (p : list R) :
  all_zero (axis_time p) = true <-> total_length 0 p = 0.
Proof.
  unfold axis_time. split.
  - intros H. destruct (Req_dec_T (total_length 0 p) 0) as [E | N]; [exact E |].
    exfalso. apply all_zero_Forall in H.
    destruct p as [| a p]; [simpl in N; congruence |].
    destruct p as [| b p]; [simpl in N; congruence |].
    set (l := total_length 0 (a :: b :: p)) in *.
    assert (Hlast : last (time_steps l 0 (a :: b :: p)) 0 = 1).
    { rewrite time_steps_last by (auto; discriminate).
      assert (Hl : l = last (b :: p) a - a)
        by (subst l; rewrite total_length_last; lra).
      rewrite <- Hl. field. exact N. }
    assert (Hin : In 1 (time_steps l 0 (a :: b :: p))).
    { rewrite <- Hlast. apply last_In. simpl.
      destruct (Req_dec_T l 0); discriminate. }
    rewrite Forall_forall in H.
    specialize (H (snap_to_one 1)).
    rewrite snap_to_one_1 in H.
    assert (1 = 0); [| lra].
    apply H. apply in_map_iff. exists 1. split; [apply snap_to_one_1 |].
    right. exact Hin.
  - intros E. rewrite E. apply all_zero_Forall.
    apply Forall_forall. intros t Ht.
    apply in_map_iff in Ht. destruct Ht as [u [Hu Hin]].
    assert (u = 0).
    { destruct Hin as [<- | Hin]; [reflexivity |].
      pose proof (time_steps_zero 0 p) as F.
      rewrite Forall_forall in F. now apply F. }
    subst u. rewrite <- Hu. apply snap_to_one_0.
Qed.

Lemma interpolation_times_degenerate (x y z : list R) :
  total_length 0 x = 0 -> total_length 0 y = 0 -> total_length 0 z = 0 ->
  interpolation_times (axis_time x) (axis_time y) (axis_time z)
  = Error goal_is_current.
Proof.
  intros Hx Hy Hz. unfold interpolation_times.
  apply all_zero_axis_time in Hx, Hy, Hz.
  now rewrite Hx, Hy, Hz.
Qed.

Lemma interpolation_times_moving (x y z : list R) :
  total_length 0 x <> 0 \/ total_length 0 y <> 0 \/ total_length 0 z <> 0 ->
  exists t, interpolation_times (axis_time x) (axis_time y) (axis_time z)
            = Ok t.
Proof.
  intros H. unfold interpolation_times.
  destruct (all_zero (axis_time x) && all_zero (axis_time y)
            && all_zero (axis_time z)) eqn:E; [| eexists; reflexivity].
  apply andb_true_iff in E. destruct E as [E Ez].
  apply andb_true_iff in E. destruct E as [Ex Ey].
  apply all_zero_axis_time in Ex, Ey, Ez. tauto.
Qed.

Lemma np_c3_map {A : Type} (f g h : A -> R) (l : list A) :
  np_c3 (map f l) (map g l) (map h l) = map (fun t => [f t; g t; h t]) l.
Proof.
  unfold np_c3. induction l as [| a l IH]; simpl; [reflexivity |].
  now f_equal.
Qed.

Lemma repeat_final_row_inv (g0 g : matrix) :
  repeat_final_row g0 = Ok g ->
  (4 <= List.length g0)%nat /\
  List.length g = List.length g0 /\
  exists last,
    nth_error g0 (List.length g0 - 1) = Some last /\
    nth_error g (List.length g0 - 1) = Some last /\
    nth_error g (List.length g0 - 3) = Some last /\
    nth_error g (List.length g0 - 4) = Some last /\
    nth_error g (List.length g0 - 2) = nth_error g0 (List.length g0 - 2).
Proof.
  unfold repeat_final_row.
  change (-1)%Z with (- Z.of_nat 1)%Z.
  change (-3)%Z with (- Z.of_nat 3)%Z.
  change (-4)%Z with (- Z.of_nat 4)%Z.
  set (n := List.length g0).
  rewrite py_index_neg by lia. fold n.
  destruct (Nat.leb_spec 1 n) as [H1 | H1]; [| discriminate].
  destruct (nth_error g0 (n - 1)) as [last |] eqn:Hlast; [| discriminate].
  cbn [of_option bind].
  rewrite py_set_item_neg by lia. fold n.
  destruct (Nat.leb_spec 3 n) as [H3 | H3]; [| discriminate].
  cbn [bind].
  rewrite py_index_neg by lia. rewrite length_set_nth. fold n.
  destruct (Nat.leb_spec 1 n) as [_ | ?]; [| lia].
  rewrite nth_error_set_nth_neq by lia. rewrite Hlast.
  cbn [of_option bind].
  rewrite py_set_item_neg by lia. rewrite length_set_nth. fold n.
  destruct (Nat.leb_spec 4 n) as [H4 | H4]; [| discriminate].
  intros E. injection E as <-.
  split; [exact H4 |]. split; [now rewrite !length_set_nth |].
  exists last. repeat split.
  - rewrite !nth_error_set_nth_neq by lia. exact Hlast.
  - rewrite nth_error_set_nth_neq by lia.
    apply nth_error_set_nth_eq. fold n. lia.
  - apply nth_error_set_nth_eq. rewrite length_set_nth. fold n. lia.
  - now rewrite !nth_error_set_nth_neq by lia.
Qed.

Lemma repeat_final_row_total (g0 : matrix) :
  (4 <= List.length g0)%nat -> exists g, repeat_final_row g0 = Ok g.
Proof.
  intros H4. unfold repeat_final_row.
  change (-1)%Z with (- Z.of_nat 1)%Z.
  change (-3)%Z with (- Z.of_nat 3)%Z.
  change (-4)%Z with (- Z.of_nat 4)%Z.
  set (n := List.length g0) in *.
  rewrite py_index_neg by lia. fold n.
  destruct (Nat.leb_spec 1 n) as [H1 | H1]; [| lia].
  destruct (nth_error g0 (n - 1)) as [last |] eqn:Hlast.
  2:{ apply nth_error_None in Hlast. fold n in Hlast. lia. }
  cbn [of_option bind].
  rewrite py_set_item_neg by lia. fold n.
  destruct (Nat.leb_spec 3 n) as [H3 | H3]; [| lia].
  cbn [bind].
  rewrite py_index_neg by lia. rewrite length_set_nth. fold n.
  destruct (Nat.leb_spec 1 n) as [_ | ?]; [| lia].
  rewrite nth_error_set_nth_neq by lia. rewrite Hlast.
  cbn [of_option bind].
  rewrite py_set_item_neg by lia. rewrite length_set_nth. fold n.
  destruct (Nat.leb_spec 4 n) as [_ | ?]; [| lia].
  eexists; reflexivity.
Qed.

Section GuessFacts.
Context {scipy : SciPy} {splines : SplineLib} {opti : OptiLayer}.

(** What a successful call of the generator computed. *)
Lemma get_init_guess_new_segment_inv self segment g T :
  get_init_guess_new_segment self segment = Ok (g, T) ->
  exists x y z tx ty tz mv,
    centerline segment = Ok (x, y, z) /\
    interpolation_times (axis_time x) (axis_time y) (axis_time z)
    = Ok (tx, ty, tz) /\
    max_vel (vehicle self) = Ok mv /\
    T = sqrt (total_length 0 x ^ 2 + total_length 0 y ^ 2
              + total_length 0 z ^ 2) / (mv * 0.5) /\
    repeat_final_row
      (map (fun t => [interp1d tx x 1 t; interp1d ty y 1 t;
                      interp1d tz z 1 t])
           (greville (veh_basis (vehicle self)))) = Ok g.
Proof.
  unfold get_init_guess_new_segment.
  destruct (centerline segment) as [[[x y] z] | e]; [| discriminate].
  cbn [bind].
  destruct (interpolation_times (axis_time x) (axis_time y) (axis_time z))
    as [[[tx ty] tz] | e] eqn:Ht; [| discriminate].
  cbn [bind].
  destruct (max_vel (vehicle self)) as [mv | e] eqn:Hv; [| discriminate].
  cbn [bind]. rewrite np_c3_map.
  destruct (repeat_final_row _) as [g' | e] eqn:Hg; [| discriminate].
  cbn [bind]. intros E. injection E as <- <-.
  exists x, y, z, tx, ty, tz, mv. repeat split; auto.
Qed.

(** The generator returns for every segment that moves along some axis,
    provided the basis has four Greville points and the tool a speed
    limit. *)
Lemma get_init_guess_new_segment_total self segment x y z mv :
  centerline segment = Ok (x, y, z) ->
  total_length 0 x <> 0 \/ total_length 0 y <> 0 \/ total_length 0 z <> 0 ->
  max_vel (vehicle self) = Ok mv ->
  (4 <= List.length (greville (veh_basis (vehicle self))))%nat ->
  exists g,
    get_init_guess_new_segment self segment
    = Ok (g, sqrt (total_length 0 x ^ 2 + total_length 0 y ^ 2
                   + total_length 0 z ^ 2) / (mv * 0.5)).
Proof.
  intros Hc Hmove Hv Hgrev. unfold get_init_guess_new_segment.
  rewrite Hc. cbn [bind].
  destruct (interpolation_times_moving x y z Hmove) as [[[tx ty] tz] Ht].
  rewrite Ht. cbn [bind]. rewrite Hv. cbn [bind]. rewrite np_c3_map.
  destruct (repeat_final_row_total
              (map (fun t => [interp1d tx x 1 t; interp1d ty y 1 t;
                              interp1d tz z 1 t])
                   (greville (veh_basis (vehicle self))))) as [g Hg].
  { now rewrite length_map. }
  rewrite Hg. cbn [bind]. now exists g.
Qed.

End GuessFacts.

(** ** The sampled centerline *)

Lemma total_length_net (p : list R) : total_length 0 p = net_displacement p.
Proof.
  unfold net_displacement. destruct p as [| a p]; [simpl; lra |].
  rewrite total_length_last.
  destruct p as [| b p]; [simpl; lra |].
  rewrite (last_cons_nonempty p a b 0). simpl hd. lra.
Qed.

Lemma net_displacement_snoc (a b : R) (l : list R) :
  net_displacement ((a :: l) ++ [b]) = b - a.
Proof. unfold net_displacement. rewrite last_last. reflexivity. Qed.

Lemma linspace_50 (a b : R) :
  linspace a b 50
  = (INR 0 * ((b - a) / INR 49) + a
     :: map (fun i => INR i * ((b - a) / INR 49) + a) (seq 1 48)) ++ [b].
Proof. reflexivity. Qed.

Lemma centerline_rectangle segment w h o :
  border_shape (seg_border segment) = Rectangle w h o ->
  centerline segment
  = Ok ([vx (seg_start segment); vx (seg_end segment)],
        [vy (seg_start segment); vy (seg_end segment)],
        [vz (seg_start segment); vz (seg_end segment)]).
Proof. intros H. unfold centerline. now rewrite H. Qed.

(** The centerline of an arc: its net displacement is the chord between
    the points at the two unwrapped angles. *)
Lemma centerline_ring segment rin rout rs re dir p0 p1 sa ea :
  border_shape (seg_border segment) = Ring rin rout rs re dir ->
  py_index (border_pose (seg_border segment)) 0 = Ok p0 ->
  py_index (border_pose (seg_border segment)) 1 = Ok p1 ->
  sweep_angles dir
    (arctan2 (vy (seg_start segment) - p1) (vx (seg_start segment) - p0))
    (arctan2 (vy (seg_end segment) - p1) (vx (seg_end segment) - p0))
  = (sa, ea) ->
  let radius := (rin + rout) * 0.5 in
  let angles := linspace sa ea 50 in
  centerline segment
  = Ok (map (fun a => p0 + radius * cos a) angles,
        map (fun a => p1 + radius * sin a) angles,
        map (fun x => 0 * x) (map (fun a => p0 + radius * cos a) angles))
  /\ net_displacement (map (fun a => p0 + radius * cos a) angles)
     = radius * cos ea - radius * cos sa
  /\ net_displacement (map (fun a => p1 + radius * sin a) angles)
     = radius * sin ea - radius * sin sa
  /\ net_displacement
       (map (fun x => 0 * x) (map (fun a => p0 + radius * cos a) angles))
     = 0.
Proof.
  intros Hs H0 H1 Hsw radius angles.
  split.
  { unfold centerline. rewrite Hs, H1. cbn [bind]. rewrite H0. cbn [bind].
    rewrite Hsw. reflexivity. }
  subst angles. rewrite linspace_50.
  rewrite !map_app. cbn [map].
  rewrite !net_displacement_snoc.
  replace (INR 0 * ((ea - sa) / INR 49) + sa) with sa by (simpl; lra).
  repeat split; lra.
Qed.

Lemma py_index_map {A B : Type} (f : A -> B) (l : list A) (i : Z) :
  py_index (map f l) i = (t <- py_index l i ;; Ok (f t)).
Proof.
  unfold py_index, py_pos. rewrite length_map.
  destruct ((0 <=? i)%Z).
  - destruct ((i <? Z.of_nat (List.length l))%Z); [| reflexivity].
    rewrite nth_error_map. now destruct (nth_error l (Z.to_nat i)).
  - destruct ((0 <=? i + Z.of_nat (List.length l))%Z); [| reflexivity].
    rewrite nth_error_map.
    now destruct (nth_error l (Z.to_nat (i + Z.of_nat (List.length l)))).
Qed.

Lemma sweep_angles_same (dir : Direction) (a : R) :
  sweep_angles dir a a = (a, a).
Proof.
  unfold sweep_angles. destruct dir.
  - destruct (Rlt_dec a a); [lra | reflexivity].
  - destruct (Rgt_dec a a); [lra | reflexivity].
Qed.

Section GuessTheorems.
Context {scipy : SciPy} {splines : SplineLib} {opti : OptiLayer}.

Lemma centerline_degenerate segment x y z :
  seg_start segment = seg_end segment ->
  centerline segment = Ok (x, y, z) ->
  net_displacement x = 0 /\ net_displacement y = 0 /\ net_displacement z = 0.
Proof.
  intros Heq Hc.
  destruct (border_shape (seg_border segment))
    as [w h o | rin rout rs re dir] eqn:Hs.
  - rewrite (centerline_rectangle _ Hs) in Hc. injection Hc as <- <- <-.
    rewrite Heq. unfold net_displacement. simpl. repeat split; lra.
  - pose proof Hc as Hc'. unfold centerline in Hc'. rewrite Hs in Hc'.
    destruct (py_index (border_pose (seg_border segment)) 1)
      as [p1 |] eqn:H1; [| discriminate].
    destruct (py_index (border_pose (seg_border segment)) 0)
      as [p0 |] eqn:H0; [| discriminate].
    clear Hc'.
    assert (Hsw : sweep_angles dir
              (arctan2 (vy (seg_start segment) - p1)
                       (vx (seg_start segment) - p0))
              (arctan2 (vy (seg_end segment) - p1)
                       (vx (seg_end segment) - p0))
            = (arctan2 (vy (seg_end segment) - p1)
                       (vx (seg_end segment) - p0),
               arctan2 (vy (seg_end segment) - p1)
                       (vx (seg_end segment) - p0)))
      by (rewrite Heq; apply sweep_angles_same).
    destruct (centerline_ring segment Hs H0 H1 Hsw)
      as [Hc2 [Hx [Hy Hz]]].
    rewrite Hc2 in Hc.
    match type of Hc with
    | Ok (?a, ?b, ?c) = _ =>
        assert (E : x = a /\ y = b /\ z = c) by (repeat split; congruence)
    end.
    destruct E as (-> & -> & ->).
    rewrite Hx, Hy, Hz. repeat split; lra.
Qed.

(** C5. A segment whose entry point equals its exit point, and more
    generally a segment whose sampled centerline has zero net displacement
    on every axis, makes the centerline guess generator raise an error: it
    never returns a guess. *)
Theorem C5_degenerate_segment_raises (self : Scheduler) (segment : Segment) :
  (seg_start segment = seg_end segment ->
   is_error (get_init_guess_new_segment self segment)) /\
  (forall x y z,
     centerline segment = Ok (x, y, z) ->
     net_displacement x = 0 ->
     net_displacement y = 0 ->
     net_displacement z = 0 ->
     get_init_guess_new_segment self segment = Error goal_is_current).
Proof.
  assert (General : forall x y z,
     centerline segment = Ok (x, y, z) ->
     net_displacement x = 0 ->
     net_displacement y = 0 ->
     net_displacement z = 0 ->
     get_init_guess_new_segment self segment = Error goal_is_current).
  { intros x y z Hc Hx Hy Hz. unfold get_init_guess_new_segment.
    rewrite Hc. cbn [bind].
    rewrite interpolation_times_degenerate;
      [reflexivity | | |]; now rewrite total_length_net. }
  split; [| exact General].
  intros Heq.
  destruct (centerline segment) as [[[x y] z] | e] eqn:Hc.
  - destruct (centerline_degenerate segment Heq Hc) as (Hx & Hy & Hz).
    eexists. eapply General; eauto.
  - exists e. unfold get_init_guess_new_segment. now rewrite Hc.
Qed.

(** The last two rows of a returned guess are the interpolated values at
    the last two Greville points. *)
Lemma guess_interpolated_rows (self : Scheduler) (segment : Segment)
      (g : matrix) (T : R) :
  get_init_guess_new_segment self segment = Ok (g, T) ->
  let grev := greville (veh_basis (vehicle self)) in
  exists x y z tx ty tz,
    centerline segment = Ok (x, y, z) /\
    interpolation_times (axis_time x) (axis_time y) (axis_time z)
    = Ok (tx, ty, tz) /\
    let row t := [interp1d tx x 1 t; interp1d ty y 1 t; interp1d tz z 1 t] in
    py_index g (-1) = (t <- py_index grev (-1) ;; Ok (row t)) /\
    py_index g (-2) = (t <- py_index grev (-2) ;; Ok (row t)).
Proof.
  intros H grev.
  destruct (get_init_guess_new_segment_inv _ _ H)
    as (x & y & z & tx & ty & tz & mv & Hc & Ht & _ & _ & Hg).
  fold grev in Hg.
  set (row := fun t => [interp1d tx x 1 t; interp1d ty y 1 t;
                        interp1d tz z 1 t]) in *.
  destruct (repeat_final_row_inv _ Hg)
    as (H4 & Hlen & last & Hl0 & Hl1 & _ & _ & Hl2).
  rewrite length_map in *.
  set (n := List.length grev) in *.
  exists x, y, z, tx, ty, tz. split; [exact Hc |]. split; [exact Ht |].
  cbv zeta. fold row.
  rewrite <- !(py_index_map row).
  change (-1)%Z with (- Z.of_nat 1)%Z.
  change (-2)%Z with (- Z.of_nat 2)%Z.
  rewrite !py_index_neg by lia. rewrite Hlen, !length_map. fold n.
  destruct (Nat.leb_spec 1 n); [| lia].
  destruct (Nat.leb_spec 2 n); [| lia].
  rewrite Hl0, Hl1, Hl2. split; reflexivity.
Qed.

(** The rows the generator assigns (lines 489-490): in a returned guess
    the rows at positions -3 and -4 (all axes) are equal to the final row,
    and the final row is the interpolated centerline at the last Greville
    point.  The row at position -2 is not assigned. *)
Lemma rows_3_and_4_forced_to_final (self : Scheduler) (segment : Segment)
        (g : matrix) (T : R) :
  get_init_guess_new_segment self segment = Ok (g, T) ->
  let grev := greville (veh_basis (vehicle self)) in
  (4 <= List.length g)%nat /\
  List.length g = List.length grev /\
  py_index g (-3) = py_index g (-1) /\
  py_index g (-4) = py_index g (-1) /\
  exists x y z tx ty tz,
    centerline segment = Ok (x, y, z) /\
    interpolation_times (axis_time x) (axis_time y) (axis_time z)
    = Ok (tx, ty, tz) /\
    py_index g (-1)
    = (t <- py_index grev (-1) ;;
       Ok [interp1d tx x 1 t; interp1d ty y 1 t; interp1d tz z 1 t]).
Proof.
  intros H grev.
  destruct (get_init_guess_new_segment_inv _ _ H)
    as (x & y & z & tx & ty & tz & mv & _ & _ & _ & _ & Hg).
  destruct (repeat_final_row_inv _ Hg)
    as (H4 & Hlen & last & _ & Hl1 & Hl3 & Hl4 & _).
  rewrite length_map in *. fold grev in Hlen, H4, Hl1, Hl3, Hl4.
  set (n := List.length grev) in *.
  assert (P : forall j : nat, (0 < j <= n)%nat ->
            py_index g (- Z.of_nat j)
            = of_option IndexError (nth_error g (n - j))).
  { intros j Hj. rewrite py_index_neg by lia. rewrite Hlen.
    destruct (Nat.leb_spec j n); [reflexivity | lia]. }
  split; [lia |]. split; [exact Hlen |].
  split; [| split].
  3:{ destruct (guess_interpolated_rows _ _ H)
        as (x' & y' & z' & tx' & ty' & tz' & Hc & Ht & H1 & _).
      exists x', y', z', tx', ty', tz'. auto. }
  - change (-1)%Z with (- Z.of_nat 1)%Z.
    change (-3)%Z with (- Z.of_nat 3)%Z.
    rewrite !P by lia. now rewrite Hl1, Hl3.
  - change (-1)%Z with (- Z.of_nat 1)%Z.
    change (-4)%Z with (- Z.of_nat 4)%Z.
    rewrite !P by lia. now rewrite Hl1, Hl4.
Qed.

(** The motion time of a returned guess: the chord of the sampled
    centerline over half of the maximum speed. *)
Lemma guess_motion_time (self : Scheduler) (segment : Segment)
      (g : matrix) (T : R) (x y z : list R) (mv : R) :
  get_init_guess_new_segment self segment = Ok (g, T) ->
  centerline segment = Ok (x, y, z) ->
  max_vel (vehicle self) = Ok mv ->
  T = sqrt (net_displacement x ^ 2 + net_displacement y ^ 2
            + net_displacement z ^ 2) / (mv * 0.5).
Proof.
  intros H Hc Hv.
  destruct (get_init_guess_new_segment_inv _ _ H)
    as (x' & y' & z' & tx & ty & tz & mv' & Hc' & _ & Hv' & HT & _).
  rewrite Hc in Hc'. rewrite Hv in Hv'.
  assert (E : x' = x /\ y' = y /\ z' = z /\ mv' = mv)
    by (repeat split; congruence).
  destruct E as (-> & -> & -> & ->).
  now rewrite !total_length_net in HT.
Qed.

(** The length the generator divides by half of the maximum speed is the
    Euclidean norm of the net displacement of the sampled centerline (the
    straight-line distance between its first and last sample); for a LINE
    segment this is the total Euclidean path length. *)
Lemma motion_time_of_net_displacement (self : Scheduler) (segment : Segment)
        (g : matrix) (T : R) (x y z : list R) (mv : R) :
  get_init_guess_new_segment self segment = Ok (g, T) ->
  centerline segment = Ok (x, y, z) ->
  max_vel (vehicle self) = Ok mv ->
  T = sqrt (net_displacement x ^ 2 + net_displacement y ^ 2
            + net_displacement z ^ 2) / (mv * 0.5) /\
  (forall w h o,
     border_shape (seg_border segment) = Rectangle w h o ->
     T = path_length x y z / (mv * 0.5)).
Proof.
  intros H Hc Hv.
  pose proof (guess_motion_time _ _ H Hc Hv) as HT.
  split; [exact HT |].
  intros w h o Hs. rewrite HT.
  rewrite (centerline_rectangle _ Hs) in Hc.
  assert (E : x = [vx (seg_start segment); vx (seg_end segment)]
              /\ y = [vy (seg_start segment); vy (seg_end segment)]
              /\ z = [vz (seg_start segment); vz (seg_end segment)])
    by (repeat split; congruence).
  destruct E as (-> & -> & ->).
  unfold net_displacement. cbn [path_length last hd].
  now rewrite Rplus_0_r.
Qed.

(** C9. The centerline guess generator is a function of the segment, the
    tool's basis and the tool's speed limit only: in two scheduler states
    with the same basis, two calls with the same segment return the same
    coefficient array, and with the same speed limit the same result
    altogether, whatever the rest of the scheduler state. *)
Theorem C9_generator_deterministic (s1 s2 : Scheduler) (segment : Segment) :
  veh_basis (vehicle s1) = veh_basis (vehicle s2) ->
  (forall g1 T1 g2 T2,
     get_init_guess_new_segment s1 segment = Ok (g1, T1) ->
     get_init_guess_new_segment s2 segment = Ok (g2, T2) ->
     g1 = g2) /\
  (max_vel (vehicle s1) = max_vel (vehicle s2) ->
   get_init_guess_new_segment s1 segment
   = get_init_guess_new_segment s2 segment).
Proof.
  intros Hb. split.
  - intros g1 T1 g2 T2 H1 H2.
    destruct (get_init_guess_new_segment_inv _ _ H1)
      as (x & y & z & tx & ty & tz & mv & Hc & Ht & _ & _ & Hg).
    destruct (get_init_guess_new_segment_inv _ _ H2)
      as (x' & y' & z' & tx' & ty' & tz' & mv' & Hc' & Ht' & _ & _ & Hg').
    rewrite Hc in Hc'.
    assert (E : x' = x /\ y' = y /\ z' = z) by (repeat split; congruence).
    destruct E as (-> & -> & ->).
    rewrite Ht in Ht'.
    assert (E : tx' = tx /\ ty' = ty /\ tz' = tz)
      by (repeat split; congruence).
    destruct E as (-> & -> & ->).
    rewrite <- Hb in Hg'. congruence.
  - intros Hv. unfold get_init_guess_new_segment. now rewrite Hb, Hv.
Qed.

End GuessTheorems.

(* ================================================================== *)
(** ** The corridor builder *)

(** C8. The room built for an ARC block ([G02] or [G03], whatever the
    direction) is a ring centred at the block's centre, with inner radius
    [radius - tolerance] and outer radius [radius + tolerance]; the two
    differ by twice the tolerance. *)
Theorem C8_arc_annulus (GCode : list Block) (tolerance : R) (i : nat)
        (block : Block) :
  nth_error GCode i = Some block ->
  block_type block = G02 \/ block_type block = G03 ->
  exists room radius_in radius_out start end_ direction,
    nth_error (get_environment GCode tolerance) i = Some room /\
    room_shape room = Ring radius_in radius_out start end_ direction /\
    radius_in = block_radius block - tolerance /\
    radius_out = block_radius block + tolerance /\
    radius_out - radius_in = 2 * tolerance /\
    direction = (match block_type block with G02 => CW | _ => CCW end) /\
    room_pose room
    = [vx (block_center block); vy (block_center block);
       vz (block_center block); 0; 0; 0] /\
    room_position room
    = [vx (block_center block); vy (block_center block)].
Proof.
  intros Hi Harc.
  exists (room_of_block tolerance block),
         (block_radius block - tolerance), (block_radius block + tolerance),
         (vec3_sub (block_start block) (block_center block)),
         (vec3_sub (block_end block) (block_center block)),
         (match block_type block with G02 => CW | _ => CCW end).
  split.
  { unfold get_environment. rewrite nth_error_map, Hi. reflexivity. }
  unfold room_of_block.
  destruct Harc as [E | E]; rewrite E; cbn; repeat split; lra.
Qed.

(* ================================================================== *)
(** ** The scheduler *)

Lemma np_any_ne_false (a b : vec3) : np_any_ne a b = false <-> a = b.
Proof.
  unfold np_any_ne. destruct a as [ax ay az], b as [bx b_y bz]. cbn.
  destruct (Req_dec_T ax bx), (Req_dec_T ay b_y), (Req_dec_T az bz); cbn;
    split; intros H; try discriminate; try congruence.
Qed.

Lemma list_eqb_true (a b : vec3) : list_eqb a b = true <-> a = b.
Proof.
  unfold list_eqb. destruct (vec3_eq_dec a b); split; intros;
    congruence || discriminate.
Qed.

Section SchedulerTheorems.
Context {scipy : SciPy} {splines : SplineLib} {opti : OptiLayer}.

(** C10. The stop criterion of the scheduler returns [True] when the end
    of the last windowed segment equals the goal state and the local
    problem's stop criterion holds, [False] when that end differs from the
    goal state, and [None] (no boolean) when the end equals the goal state
    and the local problem's stop criterion does not hold. *)
Theorem C10_stop_criterium_three_valued (self : Scheduler)
        (current_time update_time : R) (last : Segment) :
  py_index (segments self) (-1) = Ok last ->
  (seg_end last <> goal_state self ->
   stop_criterium self current_time update_time = Ok (Some false)) /\
  (forall lp,
     local_problem self = Some lp ->
     seg_end last = goal_state self ->
     (problem_stop_criterium lp current_time update_time = true ->
      stop_criterium self current_time update_time = Ok (Some true)) /\
     (problem_stop_criterium lp current_time update_time = false ->
      stop_criterium self current_time update_time = Ok None)).
Proof.
  intros Hlast. unfold stop_criterium. rewrite Hlast. cbn [bind].
  split.
  - intros Hne.
    destruct (list_eqb (seg_end last) (goal_state self)) eqn:E;
      [| reflexivity].
    apply list_eqb_true in E. contradiction.
  - intros lp Hlp Heq.
    apply list_eqb_true in Heq. rewrite Heq, Hlp. cbn [attr of_option bind].
    split; intros ->; reflexivity.
Qed.


(** *** What the methods change *)

Lemma get_init_guess_frame self s2 r :
  get_init_guess self = Ok (s2, r) -> exists v, s2 = set_vehicle self v.
Proof.
  unfold get_init_guess.
  destruct (if has_previous_solution self then _ else _)
    as [[guesses guess_idx] | e]; [| discriminate].
  cbn [bind].
  destruct (for_each _ guess_idx guesses) as [[a b] | e]; [| discriminate].
  cbn [bind].
  destruct (pass_on_to_vehicle self a) as [v | e]; [| discriminate].
  cbn [bind]. intros E. injection E as <- _. now exists v.
Qed.

Lemma for_each_ok_each {A S : Type} (f : S -> A -> result S) xs acc r x :
  for_each f xs acc = Ok r -> In x xs -> exists acc' r', f acc' x = Ok r'.
Proof.
  revert acc; induction xs as [| y xs IH]; intros acc H Hin; [easy |].
  cbn [for_each] in H.
  destruct (f acc y) as [acc1 |] eqn:E; [| discriminate].
  cbn [bind] in H. destruct Hin as [-> | Hin]; eauto.
Qed.

(** Without a previous solution every one of the [n_segments] window
    slots is read: [get_init_guess] raises on a shorter window. *)
Lemma get_init_guess_fresh_length self r :
  has_previous_solution self = false ->
  get_init_guess self = Ok r ->
  (n_segments self <= List.length (segments self))%nat.
Proof.
  intros Hfresh. unfold get_init_guess. rewrite Hfresh. cbn [bind].
  destruct (for_each _ _ _) as [[a b] | e] eqn:E; [| discriminate].
  intros _.
  destruct (n_segments self) as [| k] eqn:HN; [lia |].
  destruct (for_each_ok_each _ _ _ (Z.of_nat k) E) as (acc' & r' & Hk).
  { apply in_map. apply in_seq. lia. }
  rewrite py_index_nat in Hk.
  destruct (nth_error (segments self) k) eqn:Hn; [| discriminate].
  assert (k < List.length (segments self))%nat
    by (apply nth_error_Some; congruence).
  lia.
Qed.

(** [get_init_guess] reads the last segment of the window: it raises on
    an empty window. *)
Lemma get_init_guess_nonempty self r :
  get_init_guess self = Ok r -> segments self <> [].
Proof.
  unfold get_init_guess.
  destruct (if has_previous_solution self then _ else _)
    as [[guesses guess_idx] | e]; [| discriminate].
  cbn [bind].
  destruct (for_each _ guess_idx guesses) as [[a b] | e]; [| discriminate].
  cbn [bind]. unfold pass_on_to_vehicle.
  destruct (match veh_signals (vehicle self) with
            | Some _ => _ | None => _ end) as [initial |];
    [| discriminate].
  cbn [bind]. intros H E. rewrite E, py_index_nil in H. discriminate.
Qed.

Lemma create_segments_loop (c : nat) blocks (self s' : Scheduler) :
  for_each
    (fun self block =>
       segment <- create_segment (n_current_block self) block ;;
       Ok (set_segments self (segments self ++ [segment])))
    blocks self = Ok s' ->
  n_current_block self = c ->
  exists segs,
    s' = set_segments self (segments self ++ segs) /\
    Forall2 (fun block seg => create_segment c block = Ok seg) blocks segs.
Proof.
  revert self; induction blocks as [| b blocks IH]; intros self H Hc.
  - cbn in H. injection H as <-. exists []. rewrite app_nil_r.
    split; [now destruct self | constructor].
  - cbn [for_each] in H. rewrite Hc in H.
    destruct (create_segment c b) as [seg |] eqn:Hb; [| discriminate].
    cbn [bind] in H.
    destruct (IH _ H) as (segs & -> & HF); [exact Hc |].
    exists (seg :: segs). split; [| now constructor].
    cbn. now rewrite <- app_assoc.
Qed.

Lemma Forall2_nth_error_r {A B : Type} (P : A -> B -> Prop) la lb i b :
  Forall2 P la lb -> nth_error lb i = Some b ->
  exists a, nth_error la i = Some a /\ P a b.
Proof.
  intros HF; revert i; induction HF as [| a0 b0 la lb HP HF IH];
    intros [| i] H; try discriminate.
  - injection H as E. subst. exists a0. split; [reflexivity | assumption].
  - now apply IH.
Qed.

Lemma Forall2_length_eq {A B : Type} (P : A -> B -> Prop) la lb :
  Forall2 P la lb -> List.length la = List.length lb.
Proof. induction 1; cbn; auto. Qed.

Lemma nth_error_py_slice {A : Type} (l : list A) (lo n i : nat) a :
  nth_error (py_slice l lo (lo + n)) i = Some a ->
  nth_error l (lo + i) = Some a.
Proof.
  unfold py_slice. replace (lo + n - lo)%nat with n by lia.
  intros H.
  assert (i < n)%nat.
  { assert (i < List.length (firstn n (skipn lo l)))%nat
      by (apply nth_error_Some; congruence).
    rewrite length_firstn in *. lia. }
  rewrite nth_error_firstn in H.
  destruct (Nat.ltb_spec i n); [| lia].
  now rewrite nth_error_skipn in H.
Qed.

Lemma length_py_slice {A : Type} (l : list A) (lo n : nat) :
  List.length (py_slice l lo (lo + n)) = Nat.min n (List.length l - lo).
Proof.
  unfold py_slice. replace (lo + n - lo)%nat with n by lia.
  now rewrite length_firstn, length_skipn.
Qed.


Lemma py_set_item_nat {A : Type} (l : list A) (k : nat) (v : A) :
  py_set_item l (Z.of_nat k) v =
  if (k <? List.length l)%nat then Ok (set_nth l k v) else Error IndexError.
Proof.
  unfold py_set_item, py_pos.
  destruct (Z.leb_spec 0 (Z.of_nat k)); [| lia].
  destruct (Z.ltb_spec (Z.of_nat k) (Z.of_nat (List.length l)));
    destruct (Nat.ltb_spec k (List.length l)); try lia; [| reflexivity].
  now rewrite Nat2Z.id.
Qed.

Lemma refresh_loop (n a : nat) (self s1 : Scheduler) :
  for_each
    (fun self k =>
       vr <- get_variables self ;;
       T <- key (vr_T vr) k ;;
       m <- py_set_item (motion_times self) (Z.of_nat k) T ;;
       Ok (set_motion_times self m))
    (seq a n) self = Ok s1 ->
  exists m,
    s1 = set_motion_times self m /\
    List.length m = List.length (motion_times self) /\
    (forall k, (a <= k < a + n)%nat ->
       exists vr T, get_variables self = Ok vr /\
                    nth_error (vr_T vr) k = Some T /\
                    nth_error m k = Some T) /\
    (forall k, (k < a \/ a + n <= k)%nat ->
       nth_error m k = nth_error (motion_times self) k).
Proof.
  revert a self s1; induction n as [| n IH]; intros a self s1 H.
  - cbn in H. injection H as <-. exists (motion_times self).
    repeat split; [now destruct self | intros; lia].
  - cbn [seq for_each] in H.
    destruct (get_variables self) as [vr |] eqn:Hvr; [| discriminate].
    cbn [bind] in H. unfold key in H.
    destruct (nth_error (vr_T vr) a) as [T |] eqn:HT; [| discriminate].
    cbn [of_option bind] in H.
    rewrite py_set_item_nat in H.
    destruct (Nat.ltb_spec a (List.length (motion_times self))) as [Ha | Ha];
      [| discriminate].
    cbn [bind] in H.
    destruct (IH _ _ _ H) as (m & -> & Hlen & Hin & Hout).
    change (motion_times (set_motion_times self
                            (set_nth (motion_times self) a T)))
      with (set_nth (motion_times self) a T) in Hlen, Hout.
    rewrite length_set_nth in Hlen.
    exists m. split; [reflexivity |]. split; [exact Hlen |]. split.
    + intros k Hk. destruct (Nat.eq_dec k a) as [-> | Hne].
      * exists vr, T. split; [reflexivity |]. split; [exact HT |].
        rewrite Hout by lia. now apply nth_error_set_nth_eq.
      * destruct (Hin k) as (vr' & T' & Hv' & HT' & Hm'); [lia |].
        exists vr', T'.
        change (get_variables self = Ok vr') in Hv'. rewrite Hvr in Hv'.
        split; [exact Hv' |]. split; [exact HT' | exact Hm'].
    + intros k Hk. rewrite Hout by lia.
      apply nth_error_set_nth_neq. lia.
Qed.

(** The no-advance branch only rewrites the first [n_segments] motion
    times, with the optimiser's values of the time variables. *)
Lemma refresh_motion_times_inv (self s1 : Scheduler) :
  refresh_motion_times self = Ok s1 ->
  exists m,
    s1 = set_motion_times self m /\
    List.length m = List.length (motion_times self) /\
    (forall k, (k < n_segments self)%nat ->
       exists vr T, get_variables self = Ok vr /\
                    nth_error (vr_T vr) k = Some T /\
                    nth_error m k = Some T) /\
    (forall k, (n_segments self <= k)%nat ->
       nth_error m k = nth_error (motion_times self) k).
Proof.
  intros H. destruct (refresh_loop _ _ _ H) as (m & E & Hlen & Hin & Hout).
  exists m. split; [exact E |]. split; [exact Hlen |]. split.
  - intros k Hk. apply Hin. lia.
  - intros k Hk. apply Hout. lia.
Qed.

Lemma update_segments_inv (self s2 : Scheduler) :
  update_segments self = Ok s2 ->
  exists room new_segment v guess times,
    py_index (environment self)
      (Z.of_nat (n_current_block self)
       + (Z.of_nat (n_segments self) - 1))%Z = Ok room /\
    create_segment (n_current_block self) room = Ok new_segment /\
    s2 = set_motion_times
           (set_init_guess
              (set_vehicle
                 (set_segments self (tl (segments self) ++ [new_segment])) v)
              guess)
           times.
Proof.
  unfold update_segments. cbn.
  destruct (py_index (environment self) _) as [room |] eqn:Hroom;
    [| discriminate].
  cbn [bind].
  destruct (create_segment (n_current_block self) room) as [new |] eqn:Hnew;
    [| discriminate].
  cbn [bind].
  destruct (get_init_guess _) as [[s [guess times]] |] eqn:Hg;
    [| discriminate].
  cbn [bind]. intros E. injection E as <-.
  destruct (get_init_guess_frame _ Hg) as [v ->].
  exists room, new, v, guess, times. repeat split; auto.
Qed.

(** One call of [solve]: the segment check, one of the two branches, the
    local solve and the update of the current state. *)
Lemma solve_inv (self s' : Scheduler) (current_time update_time : R) :
  solve self current_time update_time = Ok s' ->
  exists valid s1,
    check_segments self = Ok valid /\
    (if negb valid
     then exists s2,
         update_segments
           (set_n_current_block self (n_current_block self + 1)) = Ok s2 /\
         s1 = set_local_problem s2
                (Some (reset_init_guess (generate_problem s2)
                                        (init_guess s2)))
     else refresh_motion_times self = Ok s1) /\
    exists lp lp' v u x,
      local_problem s1 = Some lp /\
      problem_solve lp (vehicle s1) current_time update_time = Ok (lp', v) /\
      s' = set_curr_state
             (set_update_times
                (set_vehicle (set_local_problem s1 (Some lp')) v)
                (update_times s1 ++ [u]))
             x.
Proof.
  unfold solve.
  destruct (check_segments self) as [valid |] eqn:Hcheck; [| discriminate].
  cbn [bind].
  destruct (if negb valid then _ else _) as [s1 |] eqn:Hbranch;
    [| discriminate].
  cbn [bind].
  destruct (local_problem s1) as [lp |] eqn:Hlp; [| discriminate].
  cbn [attr of_option bind].
  destruct (problem_solve lp (vehicle s1) current_time update_time)
    as [[lp' v] |] eqn:Hsolve; [| discriminate].
  cbn [bind].
  destruct (py_index (problem_update_times lp') (-1)) as [u |] eqn:Hu;
    [| discriminate].
  cbn.
  intros H. exists valid, s1. split; [reflexivity |]. split.
  - destruct (negb valid); [| exact Hbranch].
    destruct (update_segments _) as [s2 |] eqn:Hup; [| discriminate].
    cbn [bind] in Hbranch. injection Hbranch as <-. now exists s2.
  - destruct (veh_signals v) as [signals |].
    + destruct (py_index (sig_state signals) (-1)) as [x |]; [| discriminate].
      cbn [bind] in H. injection H as <-.
      exists lp, lp', v, u, x. repeat split; auto.
    + injection H as <-.
      exists lp, lp', v, u, (veh_prediction_state v). repeat split; auto.
Qed.


Lemma check_segments_cons (self : Scheduler) seg0 rest :
  segments self = seg0 :: rest ->
  check_segments self = Ok (np_any_ne (curr_state self) (seg_end seg0)).
Proof.
  intros H. unfold check_segments. rewrite H.
  change 0%Z with (Z.of_nat 0). rewrite py_index_nat. cbn.
  now destruct (np_any_ne _ _).
Qed.

(** *** The advance policy *)

(** The two branches of [solve], by the position of the tool. *)
Lemma solve_branches (self s' : Scheduler) (current_time update_time : R)
      (seg0 : Segment) (rest : list Segment) :
  solve self current_time update_time = Ok s' ->
  segments self = seg0 :: rest ->
  environment s' = environment self /\
  n_segments s' = n_segments self /\
  (curr_state self = seg_end seg0 ->
   n_current_block s' = (n_current_block self + 1)%nat /\
   exists room new_segment,
     py_index (environment self)
       (Z.of_nat (n_current_block self + 1)
        + (Z.of_nat (n_segments self) - 1))%Z = Ok room /\
     create_segment (n_current_block self + 1) room = Ok new_segment /\
     segments s' = rest ++ [new_segment]) /\
  (curr_state self <> seg_end seg0 ->
   n_current_block s' = n_current_block self /\
   segments s' = segments self /\
   init_guess s' = init_guess self /\
   List.length (motion_times s') = List.length (motion_times self) /\
   (forall k, (k < n_segments self)%nat ->
      exists vr T, get_variables self = Ok vr /\
                   nth_error (vr_T vr) k = Some T /\
                   nth_error (motion_times s') k = Some T) /\
   (forall k, (n_segments self <= k)%nat ->
      nth_error (motion_times s') k = nth_error (motion_times self) k)).
Proof.
  intros H Hseg.
  destruct (solve_inv _ _ _ H)
    as (valid & s1 & Hcheck & Hbranch & lp & lp' & v & u & x & _ & _ & ->).
  rewrite (check_segments_cons _ Hseg) in Hcheck.
  injection Hcheck as Hvalid.
  destruct valid; cbn [negb] in Hbranch.
  - (* the tool is not at the exit point: no advance *)
    destruct (refresh_motion_times_inv _ Hbranch)
      as (m & -> & Hlen & Hin & Hout).
    cbn. split; [reflexivity |]. split; [reflexivity |]. split.
    + intros Heq. apply np_any_ne_false in Heq. congruence.
    + intros _. repeat split; auto.
  - (* the tool is at the exit point: advance *)
    destruct Hbranch as (s2 & Hup & ->).
    destruct (update_segments_inv _ Hup)
      as (room & new & v' & guess & times & Hroom & Hnew & ->).
    cbn in Hroom, Hnew |- *. rewrite Hseg. cbn [tl].
    split; [reflexivity |]. split; [reflexivity |]. split.
    + intros _. split; [reflexivity |]. exists room, new. auto.
    + intros Hne. apply np_any_ne_false in Hvalid. contradiction.
Qed.

(** C1 (amended). In an iteration of the scheduler the window is advanced
    (window[0] is dropped, the segment of the next corridor is appended
    and the next-block counter is incremented by one) exactly when the
    tool state is equal, component by component, to the exit point of
    window[0]; when the tool state differs from that exit point the
    window and the counter are left unchanged and only the motion times
    of the window slots are refreshed from the optimiser's time
    variables. *)
Theorem C1_advance_when_state_at_exit (self s' : Scheduler)
        (current_time update_time : R) (seg0 : Segment)
        (rest : list Segment) :
  solve self current_time update_time = Ok s' ->
  segments self = seg0 :: rest ->
  (curr_state self = seg_end seg0 ->
   n_current_block s' = (n_current_block self + 1)%nat /\
   exists room new_segment,
     py_index (environment self)
       (Z.of_nat (n_current_block self + 1)
        + (Z.of_nat (n_segments self) - 1))%Z = Ok room /\
     create_segment (n_current_block self + 1) room = Ok new_segment /\
     segments s' = rest ++ [new_segment]) /\
  (curr_state self <> seg_end seg0 ->
   n_current_block s' = n_current_block self /\
   segments s' = segments self /\
   init_guess s' = init_guess self /\
   List.length (motion_times s') = List.length (motion_times self) /\
   (forall k, (k < n_segments self)%nat ->
      exists vr T, get_variables self = Ok vr /\
                   nth_error (vr_T vr) k = Some T /\
                   nth_error (motion_times s') k = Some T) /\
   (forall k, (n_segments self <= k)%nat ->
      nth_error (motion_times s') k = nth_error (motion_times self) k)).
Proof.
  intros H Hseg. now destruct (solve_branches _ _ _ H Hseg) as (_ & _ & ?).
Qed.


(** *** The window invariant *)

Lemma create_segment_number (c : nat) (room : Room) (seg : Segment) :
  create_segment c room = Ok seg ->
  seg_number seg = c /\ seg_start seg = room_start room /\
  seg_end seg = room_end room /\
  border_shape (seg_border seg) = room_shape room /\
  border_pose (seg_border seg) = room_pose room.
Proof.
  unfold create_segment.
  destruct (match room_shape room with
            | Rectangle _ _ _ => _ | Ring _ _ _ _ _ => _ end)
    as [limits |]; [| discriminate].
  cbn [bind]. intros E. injection E as <-. cbn. auto.
Qed.

Lemma has_previous_solution_fresh (self : Scheduler) :
  local_problem self = None -> has_previous_solution self = false.
Proof. unfold has_previous_solution. now intros ->. Qed.

(** What a successful [reinitialize] of a scheduler without local problem
    leaves: a full window on the corridors [rooms[c : c + N]], every
    segment numbered with the counter. *)
Lemma reinitialize_inv (s0 s : Scheduler) :
  reinitialize s0 = Ok s ->
  local_problem s0 = None ->
  environment s = environment s0 /\
  n_segments s = n_segments s0 /\
  n_current_block s = n_current_block s0 /\
  List.length (segments s) = n_segments s0 /\
  (n_current_block s0 + n_segments s0 <= List.length (environment s0))%nat /\
  forall i seg,
    nth_error (segments s) i = Some seg ->
    exists room,
      nth_error (environment s0) (n_current_block s0 + i) = Some room /\
      create_segment (n_current_block s0) room = Ok seg.
Proof.
  unfold reinitialize. intros H Hfresh.
  destruct (for_each _ _ _) as [sa |] eqn:Hloop; [| discriminate].
  cbn [bind] in H.
  apply create_segments_loop with (c := n_current_block s0) in Hloop;
    [| reflexivity].
  destruct Hloop as (segs & -> & HF).
  change (environment (set_segments s0 [])) with (environment s0) in HF.
  change (n_current_block (set_segments s0 [])) with (n_current_block s0)
    in HF.
  change (n_segments (set_segments s0 [])) with (n_segments s0) in HF.
  destruct (get_init_guess _) as [[sb [guess times]] |] eqn:Hg;
    [| discriminate].
  cbn [bind] in H. injection H as <-.
  pose proof Hg as Hlen.
  apply get_init_guess_fresh_length in Hlen;
    [| apply has_previous_solution_fresh; exact Hfresh].
  pose proof (get_init_guess_nonempty _ Hg) as Hne.
  apply get_init_guess_frame in Hg. destruct Hg as [v ->].
  cbn in Hlen, Hne |- *.
  assert (1 <= List.length segs)%nat
    by (destruct segs; [congruence | cbn; lia]).
  pose proof (Forall2_length_eq HF) as HL.
  rewrite length_py_slice in HL.
  assert (List.length segs <= n_segments s0)%nat
    by (rewrite <- HL; apply Nat.le_min_l).
  assert (List.length segs
          <= List.length (environment s0) - n_current_block s0)%nat
    by (rewrite <- HL; apply Nat.le_min_r).
  split; [reflexivity |]. split; [reflexivity |]. split; [reflexivity |].
  split; [lia |]. split; [lia |].
  intros i seg Hi.
  destruct (Forall2_nth_error_r _ HF Hi) as (room & Hroom & Hc).
  exists room. split; [| exact Hc].
  now apply nth_error_py_slice in Hroom.
Qed.

Lemma solve_nonempty (self s' : Scheduler) (current_time update_time : R) :
  solve self current_time update_time = Ok s' ->
  exists seg0 rest, segments self = seg0 :: rest.
Proof.
  intros H. destruct (segments self) as [| seg0 rest] eqn:E; [| eauto].
  unfold solve, check_segments in H. rewrite E, py_index_nil in H.
  discriminate.
Qed.

Lemma reinitialize_window (s0 s : Scheduler) :
  reinitialize s0 = Ok s ->
  local_problem s0 = None ->
  n_current_block s0 = 0%nat ->
  window_inv s /\ environment s = environment s0.
Proof.
  intros H Hfresh Hc.
  destruct (reinitialize_inv _ H Hfresh)
    as (Henv & HN & Hc' & Hlen & Hroom & Hseg).
  split; [| exact Henv].
  unfold window_inv. rewrite Henv, HN, Hc', Hc in *. cbn in *.
  split; [exact Hlen |]. split; [exact Hroom |].
  intros i seg Hi. destruct (Hseg i seg Hi) as (room & Hr & Hcr).
  exists room. split; [exact Hr |].
  assert (i < n_segments s0)%nat
    by (rewrite <- Hlen; apply nth_error_Some; congruence).
  now replace (i - (n_segments s0 - 1))%nat with 0%nat by lia.
Qed.

Lemma solve_window (s s' : Scheduler) (current_time update_time : R) :
  window_inv s ->
  solve s current_time update_time = Ok s' ->
  window_inv s' /\ environment s' = environment s.
Proof.
  intros (Hlen & Hroom & Hseg) H.
  destruct (solve_nonempty _ _ _ H) as (seg0 & rest & E).
  destruct (solve_branches _ _ _ H E) as (Henv & HN & Hadv & Hkeep).
  split; [| exact Henv].
  unfold window_inv. rewrite Henv, HN.
  destruct (vec3_eq_dec (curr_state s) (seg_end seg0)) as [Heq | Hne].
  - destruct (Hadv Heq) as (Hc & room & new & Hr & Hnew & Hs').
    rewrite Hc, Hs'. rewrite E in Hlen, Hseg. cbn in Hlen.
    replace (Z.of_nat (n_current_block s + 1)
             + (Z.of_nat (n_segments s) - 1))%Z
      with (Z.of_nat (n_current_block s + n_segments s)) in Hr by lia.
    rewrite py_index_nat in Hr.
    destruct (nth_error (environment s) (n_current_block s + n_segments s))
      as [room' |] eqn:Hn; [| discriminate].
    injection Hr as ->.
    assert (n_current_block s + n_segments s < List.length (environment s))%nat
      by (apply nth_error_Some; congruence).
    split; [rewrite length_app; cbn; lia |]. split; [lia |].
    intros i seg Hi.
    destruct (Nat.lt_ge_cases i (List.length rest)) as [Hlt | Hge].
    + rewrite nth_error_app1 in Hi by exact Hlt.
      destruct (Hseg (S i) seg Hi) as (r & Hr & Hcr).
      exists r.
      replace (n_current_block s + 1 + i)%nat
        with (n_current_block s + S i)%nat by lia.
      auto.
    + rewrite nth_error_app2 in Hi by exact Hge.
      destruct (i - List.length rest)%nat as [| j] eqn:Hj.
      2:{ cbn in Hi. now destruct j. }
      cbn in Hi. injection Hi as <-.
      exists room.
      replace (n_current_block s + 1 + i)%nat
        with (n_current_block s + n_segments s)%nat by lia.
      split; [exact Hn |].
      now replace (n_current_block s + n_segments s - (n_segments s - 1))%nat
        with (n_current_block s + 1)%nat by lia.
  - destruct (Hkeep Hne) as (Hc & Hs' & _).
    rewrite Hc, Hs'. auto.
Qed.

Lemma reachable_window tool GCode n (s : Scheduler) :
  reachable tool GCode n s ->
  window_inv s /\
  environment s = get_environment GCode (veh_tolerance tool).
Proof.
  induction 1 as [s0 s Hinit Hre | s ct ut s' _ IH Hsolve
                  | s v _ IH | s lp lp' _ IH _].
  - unfold init_scheduler in Hinit.
    destruct (py_index (veh_shapes tool) 0) as [[r |] |];
      try discriminate.
    cbn [bind] in Hinit. injection Hinit as <-.
    destruct (reinitialize_window _ Hre) as (Hw & Henv); [reflexivity .. |].
    split; [exact Hw | exact Henv].
  - destruct IH as (Hw & Henv).
    destruct (solve_window _ _ Hw Hsolve) as (Hw' & Henv').
    split; [exact Hw' | congruence].
  - exact IH.
  - exact IH.
Qed.

(** C2 (amended). In every reachable scheduler state the window is a
    contiguous slice of the global corridor sequence: slot [i] holds the
    segment of the corridor at position [n_current_block + i]. The stored
    number of a segment is the value of the next-block counter when the
    segment was created, that is its corridor's position minus
    [n_segments - 1] (truncated at zero); it equals the position of the
    corridor when the look-ahead [n_segments] is 1. *)
Theorem C2_window_contiguous_numbers tool GCode n (s : Scheduler) :
  reachable tool GCode n s ->
  environment s = get_environment GCode (veh_tolerance tool) /\
  List.length (segments s) = n_segments s /\
  (n_current_block s + n_segments s <= List.length (environment s))%nat /\
  forall i seg,
    nth_error (segments s) i = Some seg ->
    let position := (n_current_block s + i)%nat in
    exists room,
      nth_error (environment s) position = Some room /\
      seg_start seg = room_start room /\
      seg_end seg = room_end room /\
      border_shape (seg_border seg) = room_shape room /\
      border_pose (seg_border seg) = room_pose room /\
      seg_number seg = (position - (n_segments s - 1))%nat /\
      (n_segments s = 1%nat -> seg_number seg = position).
Proof.
  intros Hr. destruct (reachable_window Hr) as ((Hlen & Hroom & Hseg) & Henv).
  split; [exact Henv |]. split; [exact Hlen |]. split; [exact Hroom |].
  intros i seg Hi position.
  destruct (Hseg i seg Hi) as (room & Hn & Hc).
  destruct (create_segment_number _ _ Hc) as (Hnum & Hst & Hen & Hsh & Hpo).
  exists room. repeat split; auto.
  intros H1. rewrite Hnum. subst position. lia.
Qed.

(** An advance at the tail of the program raises [IndexError]. *)
Lemma tail_advance_raises (self : Scheduler) (current_time update_time : R)
      (seg0 : Segment) (rest : list Segment) :
  segments self = seg0 :: rest ->
  curr_state self = seg_end seg0 ->
  (1 <= n_segments self)%nat ->
  (List.length (environment self)
   <= n_current_block self + n_segments self)%nat ->
  solve self current_time update_time = Error IndexError.
Proof.
  intros Hseg Heq HN Htail. unfold solve.
  rewrite (check_segments_cons _ Hseg).
  apply np_any_ne_false in Heq. rewrite Heq. cbn [bind negb].
  unfold update_segments. cbn.
  replace (Z.of_nat (n_current_block self + 1)
           + (Z.of_nat (n_segments self) - 1))%Z
    with (Z.of_nat (n_current_block self + n_segments self)) by lia.
  rewrite py_index_nat.
  destruct (nth_error (environment self)
              (n_current_block self + n_segments self)) eqn:Hn;
    [| reflexivity].
  assert (n_current_block self + n_segments self
          < List.length (environment self))%nat
    by (apply nth_error_Some; congruence).
  lia.
Qed.


(** *** The solution stitcher *)

Lemma for_each_first_error {A S : Type} (f : S -> A -> result S)
      (xs ys : list A) (x : A) (e : PyError) (acc : S) :
  (forall x', In x' xs -> forall acc', exists r, f acc' x' = Ok r) ->
  (forall acc', f acc' x = Error e) ->
  for_each f (xs ++ x :: ys) acc = Error e.
Proof.
  revert acc; induction xs as [| y xs IH]; intros acc Hok Herr.
  - cbn. now rewrite Herr.
  - cbn. destruct (Hok y (or_introl eq_refl) acc) as [r ->]. cbn [bind].
    apply IH; [| exact Herr]. intros x' Hx'. apply Hok. now right.
Qed.

Lemma nth_error_combine_seq {A : Type} (l : list A) (a j : nat) :
  nth_error (combine (seq a (List.length l)) l) j
  = option_map (fun x => ((a + j)%nat, x)) (nth_error l j).
Proof.
  revert a j; induction l as [| x l IH]; intros a [| j]; cbn;
    try reflexivity.
  - now rewrite Nat.add_0_r.
  - rewrite IH. now replace (S a + j)%nat with (a + S j)%nat by lia.
Qed.

Lemma nth_error_split_at {A : Type} (l : list A) (j : nat) (x : A) :
  nth_error l j = Some x -> l = firstn j l ++ x :: skipn (S j) l.
Proof.
  revert j; induction l as [| y l IH]; intros [| j] H; try discriminate.
  - cbn in *. congruence.
  - cbn in *. f_equal. now apply IH.
Qed.

Lemma In_firstn_nth_error {A : Type} (l : list A) (k : nat) (x : A) :
  In x (firstn k l) -> exists j, (j < k)%nat /\ nth_error l j = Some x.
Proof.
  revert k; induction l as [| y l IH]; intros [| k] H; cbn in H;
    try contradiction.
  destruct H as [-> | H].
  - exists 0%nat. split; [lia | reflexivity].
  - destruct (IH _ H) as (j & Hj & Hn). exists (S j). split; [lia | exact Hn].
Qed.

(** The error of the first axis whose system cannot be solved leaves
    [get_init_guess_combined_segment] and [get_init_guess]. *)
Lemma stitch_error_propagates (self : Scheduler) (vr : VarResult)
      (spl1 spl2 : list Spline) (time1 time2 : R) (l : nat) (s : Spline)
      (e : PyError) :
  (1 < n_segments self)%nat ->
  get_variables self = Ok vr ->
  key (vr_splines vr) 0 = Ok spl1 ->
  key (vr_splines vr) 1 = Ok spl2 ->
  key (vr_T vr) 0 = Ok time1 ->
  key (vr_T vr) 1 = Ok time2 ->
  nth_error spl1 l = Some s ->
  stitch_axis (time1 + time2) (concat_splines [spl1; spl2] [time1; time2])
              l s = Error e ->
  (forall l' s',
     (l' < l)%nat -> nth_error spl1 l' = Some s' ->
     exists c, stitch_axis (time1 + time2)
                 (concat_splines [spl1; spl2] [time1; time2]) l' s' = Ok c) ->
  get_init_guess_combined_segment self = Error e /\
  get_init_guess self = Error e.
Proof.
  intros HN Hvr H1 H2 HT1 HT2 Hl Hsing Hbefore.
  assert (Hc : get_init_guess_combined_segment self = Error e).
  { unfold get_init_guess_combined_segment.
    rewrite Hvr. cbn [bind]. rewrite H1. cbn [bind]. rewrite H2. cbn [bind].
    rewrite HT1. cbn [bind]. rewrite HT2. cbn [bind].
    assert (Hnth : nth_error (combine (seq 0 (List.length spl1)) spl1) l
                   = Some (l, s))
      by (rewrite nth_error_combine_seq, Hl; reflexivity).
    rewrite (nth_error_split_at _ _ Hnth).
    rewrite for_each_first_error with (e := e); [reflexivity | |].
    - intros [l' s'] Hin acc'.
      apply In_firstn_nth_error in Hin. destruct Hin as (j & Hj & Hn).
      rewrite nth_error_combine_seq in Hn.
      destruct (nth_error spl1 j) as [sj |] eqn:Ej; [| discriminate].
      cbn in Hn. injection Hn as <- <-.
      destruct (Hbefore j sj Hj Ej) as [c Hc]. cbn. rewrite Hc. cbn. eauto.
    - intros acc'. cbn. now rewrite Hsing. }
  split; [exact Hc |].
  unfold get_init_guess.
  assert (Hprev : has_previous_solution self = true).
  { unfold get_variables in Hvr. unfold has_previous_solution.
    destruct (local_problem self) as [lp |]; [| discriminate].
    cbn in Hvr. now destruct (var_result lp). }
  rewrite Hprev. destruct (Nat.ltb_spec 1 (n_segments self)); [| lia].
  now rewrite Hc.
Qed.

(** C4 (amended). When the linear system of the solution stitcher is
    singular ([scipy.linalg.solve] raises [LinAlgError]), the stitcher
    returns no coefficients: the error leaves
    [get_init_guess_combined_segment] and [get_init_guess] unhandled, and
    no centerline guess is substituted. *)
Theorem C4_singular_system_raises (self : Scheduler) (vr : VarResult)
        (spl1 spl2 : list Spline) (time1 time2 : R) (l : nat) (s : Spline) :
  (1 < n_segments self)%nat ->
  get_variables self = Ok vr ->
  key (vr_splines vr) 0 = Ok spl1 ->
  key (vr_splines vr) 1 = Ok spl2 ->
  key (vr_T vr) 0 = Ok time1 ->
  key (vr_T vr) 1 = Ok time2 ->
  nth_error spl1 l = Some s ->
  stitch_axis (time1 + time2) (concat_splines [spl1; spl2] [time1; time2])
              l s = Error LinAlgError ->
  (forall l' s',
     (l' < l)%nat -> nth_error spl1 l' = Some s' ->
     exists c, stitch_axis (time1 + time2)
                 (concat_splines [spl1; spl2] [time1; time2]) l' s' = Ok c) ->
  get_init_guess_combined_segment self = Error LinAlgError /\
  get_init_guess self = Error LinAlgError.
Proof. apply stitch_error_propagates. Qed.

End SchedulerTheorems.

(* ================================================================== *)
(** ** When [reinitialize] returns *)

Lemma for_each_total {A S : Type} (f : S -> A -> result S) xs acc :
  (forall x, In x xs -> forall acc', exists r, f acc' x = Ok r) ->
  exists r, for_each f xs acc = Ok r.
Proof.
  revert acc; induction xs as [| x xs IH]; intros acc H; cbn; [eauto |].
  destruct (H x (or_introl eq_refl) acc) as [r ->]. cbn [bind].
  apply IH. intros x' Hx'. apply H. now right.
Qed.

Section Reinitialize.
Context {scipy : SciPy} {splines : SplineLib} {opti : OptiLayer}.

Lemma create_segments_loop_total (c : nat) blocks segs (self : Scheduler) :
  n_current_block self = c ->
  Forall2 (fun block seg => create_segment c block = Ok seg) blocks segs ->
  for_each
    (fun self block =>
       segment <- create_segment (n_current_block self) block ;;
       Ok (set_segments self (segments self ++ [segment])))
    blocks self
  = Ok (set_segments self (segments self ++ segs)).
Proof.
  intros Hc HF. revert self Hc.
  induction HF as [| b seg blocks segs Hb HF IH]; intros self Hc.
  - cbn. rewrite app_nil_r. now destruct self.
  - cbn [for_each]. rewrite Hc, Hb. cbn [bind].
    rewrite IH by exact Hc. cbn. now rewrite <- app_assoc.
Qed.

(** The guesses of the first local problem: one centerline guess per
    window slot. *)
Lemma guess_loop_fresh (self : Scheduler) (ks : list Z) acc :
  (forall k, In k ks ->
     exists seg r, py_index (segments self) k = Ok seg /\
                   get_init_guess_new_segment self seg = Ok r) ->
  exists r,
    for_each
      (fun acc k =>
         segment <- py_index (segments self) k ;;
         '(init_spl, motion_time) <- get_init_guess_new_segment self segment ;;
         Ok (fst acc ++ [init_spl], snd acc ++ [motion_time]))
      ks acc = Ok r.
Proof.
  intros H. apply for_each_total. intros k Hk acc'.
  destruct (H k Hk) as (seg & [g T] & Hs & Hg).
  rewrite Hs. cbn [bind]. rewrite Hg. cbn. eauto.
Qed.

(** The generator returns for every LINE segment whose entry and exit
    differ. *)
Lemma line_guess_total (self : Scheduler) (seg : Segment) (w h o mv : R) :
  border_shape (seg_border seg) = Rectangle w h o ->
  seg_start seg <> seg_end seg ->
  max_vel (vehicle self) = Ok mv ->
  (4 <= List.length (greville (veh_basis (vehicle self))))%nat ->
  exists g T, get_init_guess_new_segment self seg = Ok (g, T).
Proof.
  intros Hs Hne Hv Hg.
  pose proof (get_init_guess_new_segment_total self seg (mv := mv)
                (centerline_rectangle seg Hs)) as Htotal.
  rewrite !total_length_net in Htotal. unfold net_displacement in Htotal.
  cbn [last hd] in Htotal.
  destruct Htotal as [g Hgen]; [| exact Hv | exact Hg | eauto].
  destruct (seg_start seg) as [a b c], (seg_end seg) as [a' b' c']. cbn.
  destruct (Req_dec_T a' a) as [-> | ?]; [| left; lra].
  destruct (Req_dec_T b' b) as [-> | ?]; [| right; left; lra].
  destruct (Req_dec_T c' c) as [-> | ?]; [| right; right; lra].
  congruence.
Qed.

Lemma reinitialize_total (s0 : Scheduler) (segs : list Segment) :
  local_problem s0 = None ->
  veh_signals (vehicle s0) = None ->
  Forall2 (fun block seg => create_segment (n_current_block s0) block = Ok seg)
          (py_slice (environment s0) (n_current_block s0)
                    (n_current_block s0 + n_segments s0))
          segs ->
  List.length segs = n_segments s0 ->
  (1 <= n_segments s0)%nat ->
  (forall seg, In seg segs ->
     exists r, get_init_guess_new_segment s0 seg = Ok r) ->
  exists s, reinitialize s0 = Ok s.
Proof.
  intros Hfresh Hsig HF Hlen HN Hgen. unfold reinitialize.
  rewrite (create_segments_loop_total (c := n_current_block s0)
             (segs := segs)); [| reflexivity | exact HF].
  cbn [bind]. cbn [segments set_segments app].
  set (sa := set_cnt _ _).
  assert (Hg : exists r, get_init_guess sa = Ok r).
  { unfold get_init_guess.
    rewrite has_previous_solution_fresh by exact Hfresh. cbn [bind].
    destruct (guess_loop_fresh sa (map Z.of_nat (seq 0 (n_segments sa)))
                ([], [])) as [[a b] ->].
    { intros k Hk. apply in_map_iff in Hk. destruct Hk as (j & <- & Hj).
      apply in_seq in Hj. rewrite py_index_nat.
      destruct (nth_error (segments sa) j) as [seg |] eqn:Ej.
      - destruct (Hgen seg) as [r Hr]; [eapply nth_error_In; exact Ej |].
        exists seg, r. split; [reflexivity | exact Hr].
      - apply nth_error_None in Ej. subst sa. cbn in Ej, Hj. lia. }
    cbn [bind]. unfold pass_on_to_vehicle.
    change (veh_signals (vehicle sa)) with (veh_signals (vehicle s0)).
    rewrite Hsig. cbn [bind].
    destruct (py_index (segments sa) (-1)) as [last |] eqn:El.
    - cbn [bind]. eauto.
    - exfalso. subst sa. cbn in El.
      destruct segs as [| x segs] using rev_ind; [cbn in Hlen; lia |].
      rewrite py_index_last in El. discriminate. }
  destruct Hg as [[sb [guess times]] ->]. cbn [bind]. eauto.
Qed.

(** When fewer corridors than [n_segments] are left, [reinitialize]
    selects them and then raises [IndexError]: the guess of the first
    missing window slot reads past the end of the window. *)
Lemma reinitialize_short_raises (s0 : Scheduler) (segs : list Segment) :
  local_problem s0 = None ->
  Forall2 (fun block seg => create_segment (n_current_block s0) block = Ok seg)
          (py_slice (environment s0) (n_current_block s0)
                    (n_current_block s0 + n_segments s0))
          segs ->
  (List.length segs < n_segments s0)%nat ->
  (forall seg, In seg segs ->
     exists r, get_init_guess_new_segment s0 seg = Ok r) ->
  reinitialize s0 = Error IndexError.
Proof.
  intros Hfresh HF Hlen Hgen. unfold reinitialize.
  rewrite (create_segments_loop_total (c := n_current_block s0)
             (segs := segs)); [| reflexivity | exact HF].
  cbn [bind]. cbn [segments set_segments app].
  set (sa := set_cnt _ _).
  assert (Hg : get_init_guess sa = Error IndexError).
  { unfold get_init_guess.
    rewrite has_previous_solution_fresh by exact Hfresh. cbn [bind].
    change (n_segments sa) with (n_segments s0).
    change (segments sa) with segs.
    replace (n_segments s0)
      with (List.length segs + S (n_segments s0 - List.length segs - 1))%nat
      by lia.
    rewrite seq_app, map_app. cbn [seq map].
    rewrite for_each_first_error with (e := IndexError); [reflexivity | |].
    - intros k Hk acc'. apply in_map_iff in Hk. destruct Hk as (j & <- & Hj).
      apply in_seq in Hj. rewrite py_index_nat.
      destruct (nth_error segs j) as [seg |] eqn:Ej.
      + destruct (Hgen seg) as [[g T] Hr]; [eapply nth_error_In; exact Ej |].
        cbn [of_option bind].
        change (get_init_guess_new_segment sa seg)
          with (get_init_guess_new_segment s0 seg).
        rewrite Hr. cbn. eauto.
      + apply nth_error_None in Ej. lia.
    - intros acc'. cbn [Nat.add]. rewrite py_index_nat.
      destruct (nth_error segs (List.length segs)) eqn:E; [| reflexivity].
      assert (List.length segs < List.length segs)%nat
        by (apply nth_error_Some; congruence).
      lia. }
  now rewrite Hg.
Qed.

End Reinitialize.

(* ================================================================== *)
(** ** Sample runs *)

Lemma np_any_ne_true (a b : vec3) : a <> b -> np_any_ne a b = true.
Proof.
  intros H. destruct (np_any_ne a b) eqn:E; [reflexivity |].
  apply np_any_ne_false in E. contradiction.
Qed.

Lemma mid_run_not_at_exit : curr_state mid_run <> seg_end line1_segment.
Proof. cbn. intros H. injection H as H. lra. Qed.

Lemma solve_mid_run :
  solve (scipy := sample_scipy) mid_run 0 0.02 = Ok mid_run_next.
Proof.
  unfold solve.
  rewrite (check_segments_cons mid_run (seg0 := line1_segment) (rest := []))
    by reflexivity.
  rewrite (np_any_ne_true mid_run_not_at_exit).
  reflexivity.
Qed.

Lemma init_fresh_scheduler (opti : @OptiLayer sample_splines) GCode goal n :
  init_scheduler (sample_tool origin goal) GCode (Some n)
  = Ok (fresh_scheduler opti GCode goal n).
Proof. reflexivity. Qed.



(** *** A singular system of the stitcher *)

Lemma bspline_collapsed (knots : list R) (p i : nat) (x : R) :
  (forall j, nth j knots 0 = 0) -> bspline knots p i x = 0.
Proof.
  intros H. revert i; induction p as [| p IH]; intros i.
  - cbn. rewrite !H.
    destruct (Rle_dec 0 x); [| reflexivity].
    destruct (Rlt_dec x 0); [lra | reflexivity].
  - cbn [bspline]. rewrite !H.
    destruct (Req_dec_T (0 - 0) 0) as [_ | N]; [lra | exfalso; lra].
Qed.

Lemma find_pivot_zero_heads (rows : matrix) :
  Forall (fun r => hd 0 r = 0) rows -> find_pivot rows = None.
Proof.
  induction 1 as [| r rows Hr _ IH]; [reflexivity |].
  cbn. destruct (Req_dec_T (hd 0 r) 0); [| contradiction].
  now rewrite IH.
Qed.

Lemma collapsed_system_singular :
  stitch_axis (scipy := sample_scipy) (splines := sample_splines) (0 + 0)
    (knot_concat [[ramp; ramp; ramp]; [ramp; ramp; ramp]] [0; 0])
    0 ramp
  = Error LinAlgError.
Proof.
  unfold stitch_axis. cbn -[bspline Rplus Rmult Rminus Rdiv INR Pos.to_nat].
  change (Pos.to_nat 1) with 1%nat. cbn [nth_error of_option bind set_nth].
  unfold gauss_solve.
  cbn [map List.length combine fst snd app gauss].
  rewrite find_pivot_zero_heads; [reflexivity |].
  assert (K : forall j, nth j [0 * (0 + 0); 0 * (0 + 0); 1 * (0 + 0);
                               1 * (0 + 0)] 0 = 0).
  { intros [| [| [| [| [| j]]]]]; cbn; lra. }
  repeat constructor; cbn [hd]; now apply bspline_collapsed.
Qed.

(** C4, counterexample. With the optimiser's values [collapsed_answer]
    the system of the first axis is singular; [get_init_guess] does not
    substitute a centerline guess, it raises [LinAlgError]. *)
Lemma C4_counterexample_no_recovery :
  stitch_axis (scipy := sample_scipy) (splines := sample_splines) (0 + 0)
    (knot_concat [[ramp; ramp; ramp]; [ramp; ramp; ramp]] [0; 0]) 0 ramp
  = Error LinAlgError /\
  get_init_guess_combined_segment (scipy := sample_scipy) stalled_run
  = Error LinAlgError /\
  get_init_guess (scipy := sample_scipy) stalled_run = Error LinAlgError /\
  ~ (exists guess, get_init_guess (scipy := sample_scipy) stalled_run
                   = Ok guess).
Proof.
  split; [exact collapsed_system_singular |].
  destruct (stitch_error_propagates (scipy := sample_scipy) stalled_run
              (vr := collapsed_answer) (spl1 := [ramp; ramp; ramp])
              (spl2 := [ramp; ramp; ramp]) (time1 := 0) (time2 := 0)
              (l := 0) (s := ramp) (e := LinAlgError))
    as [Hc Hg];
    try reflexivity.
  - cbn. lia.
  - exact collapsed_system_singular.
  - intros l' s' Hl'. lia.
  - split; [exact Hc |]. split; [exact Hg |].
    intros [guess H]. rewrite Hg in H. discriminate.
Qed.

Lemma C4_witness :
  get_init_guess_combined_segment (scipy := sample_scipy) stalled_run
  = Error LinAlgError /\
  get_init_guess (scipy := sample_scipy) stalled_run = Error LinAlgError.
Proof.
  apply (C4_singular_system_raises (scipy := sample_scipy) stalled_run
           (vr := collapsed_answer) (spl1 := [ramp; ramp; ramp])
           (spl2 := [ramp; ramp; ramp]) (time1 := 0) (time2 := 0)
           (l := 0) (s := ramp)).
  - cbn. lia.
  - reflexivity.
  - reflexivity.
  - reflexivity.
  - reflexivity.
  - reflexivity.
  - reflexivity.
  - exact collapsed_system_singular.
  - intros l' s' Hl'. lia.
Defined.

(** *** The advance policy on a sample state *)

(** C1, counterexample. In [mid_run] the tool state differs from the exit
    point of window[0], and the iteration does not advance the window:
    segments and counter are unchanged. *)
Lemma C1_counterexample_no_advance_off_exit :
  curr_state mid_run <> seg_end line1_segment /\
  segments mid_run = [line1_segment] /\
  solve (scipy := sample_scipy) mid_run 0 0.02 = Ok mid_run_next /\
  segments mid_run_next = segments mid_run /\
  n_current_block mid_run_next = n_current_block mid_run /\
  n_current_block mid_run_next <> (n_current_block mid_run + 1)%nat.
Proof.
  split; [exact mid_run_not_at_exit |]. split; [reflexivity |].
  split; [exact solve_mid_run |]. split; [reflexivity |].
  split; [reflexivity |]. cbn. lia.
Qed.

Lemma line_room_segment (c : nat) (b : Block) :
  block_type b = G00 \/ block_type b = G01 ->
  exists seg,
    create_segment c (room_of_block 0.1 b) = Ok seg /\
    (exists w h o, border_shape (seg_border seg) = Rectangle w h o) /\
    seg_start seg = block_start b /\ seg_end seg = block_end b.
Proof.
  intros Hb. unfold room_of_block.
  destruct Hb as [-> | ->]; (eexists; split; [reflexivity |]); cbn;
    (split; [eauto | split; reflexivity]).
Qed.

Lemma solve_at_exit :
  exists s', solve (scipy := sample_scipy) at_exit 0 0.02 = Ok s'.
Proof.
  unfold solve.
  rewrite (check_segments_cons at_exit (seg0 := line1_segment) (rest := []))
    by reflexivity.
  assert (E : np_any_ne (curr_state at_exit) (seg_end line1_segment) = false)
    by (apply np_any_ne_false; reflexivity).
  rewrite E. cbn [negb bind].
  destruct (line_room_segment 1 line2) as (seg & Hseg & (w & h & o & Hs)
                                           & Hst & Hen); [now right |].
  assert (Hup : exists s2 guess times v,
             update_segments (scipy := sample_scipy)
               (set_n_current_block at_exit (n_current_block at_exit + 1))
             = Ok s2 /\
             s2 = set_motion_times
                    (set_init_guess
                       (set_vehicle
                          (set_segments
                             (set_n_current_block at_exit 1) [seg]) v)
                       guess) times /\
             veh_signals v = None).
  { unfold update_segments.
    change (Z.of_nat (n_current_block
                        (set_segments
                           (set_n_current_block at_exit
                              (n_current_block at_exit + 1))
                           (tl (segments
                                  (set_n_current_block at_exit
                                     (n_current_block at_exit + 1))))))
            + (Z.of_nat (n_segments
                           (set_segments
                              (set_n_current_block at_exit
                                 (n_current_block at_exit + 1))
                              (tl (segments
                                     (set_n_current_block at_exit
                                        (n_current_block at_exit + 1))))))
               - 1))%Z
      with (Z.of_nat 1).
    rewrite py_index_nat.
    change (of_option IndexError (nth_error _ 1))
      with (Ok (room_of_block 0.1 line2)).
    cbn [bind].
    change (n_current_block _) with 1%nat at 1.
    rewrite Hseg. cbn [bind].
    set (sa := set_segments _ _).
    destruct (line_guess_total (scipy := sample_scipy) sa seg (mv := 2) Hs)
      as (g & T & Hgen); [| reflexivity | cbn; lia |].
    { rewrite Hst, Hen. cbn. intros H. injection H as H. lra. }
    unfold get_init_guess.
    change (has_previous_solution sa) with true. cbn [bind].
    change ((1 <? n_segments sa)%nat) with false.
    change ((2 <? n_segments sa)%nat) with false.
    cbn [bind for_each].
    change (Z.of_nat (n_segments sa) - 1)%Z with (Z.of_nat 0).
    rewrite py_index_nat.
    change (nth_error (segments sa) 0) with (Some seg).
    cbn [of_option bind]. rewrite Hgen. cbn [bind fst snd app].
    unfold pass_on_to_vehicle.
    change (veh_signals (vehicle sa)) with (@None Signals).
    cbn [bind].
    change (segments sa) with ([] ++ [seg]). rewrite py_index_last.
    cbn [bind]. do 4 eexists. repeat split; reflexivity. }
  destruct Hup as (s2 & guess & times & v & -> & -> & Hsig).
  cbn. rewrite Hsig. eexists. reflexivity.
Qed.

Lemma C1_witness :
  (n_current_block mid_run_next = n_current_block mid_run /\
   segments mid_run_next = segments mid_run) /\
  (exists s' new_segment,
     solve (scipy := sample_scipy) at_exit 0 0.02 = Ok s' /\
     n_current_block s' = 1%nat /\ segments s' = [new_segment]).
Proof.
  split.
  - destruct (C1_advance_when_state_at_exit (scipy := sample_scipy) mid_run
                0 0.02 (seg0 := line1_segment) (rest := [])
                solve_mid_run eq_refl) as [_ Hkeep].
    destruct (Hkeep mid_run_not_at_exit) as (Hc & Hs & _).
    split; [exact Hc | exact Hs].
  - destruct solve_at_exit as [s' H].
    destruct (C1_advance_when_state_at_exit (scipy := sample_scipy) at_exit
                0 0.02 (seg0 := line1_segment) (rest := [])
                H eq_refl) as [Hadv _].
    destruct (Hadv eq_refl) as (Hc & room & new & _ & _ & Hs).
    exists s', new. split; [exact H |]. split; [exact Hc | exact Hs].
Defined.

(** *** The first window of a sample program *)

Lemma two_line_start :
  exists s,
    reinitialize (scipy := sample_scipy)
      (fresh_scheduler steady_optimizer [line1; line2] (mk_vec3 10 10 0) 2)
    = Ok s.
Proof.
  destruct (line_room_segment 0 line1) as (seg1 & Hc1 & (w1 & h1 & o1 & Hs1)
                                           & Hst1 & Hen1); [now right |].
  destruct (line_room_segment 0 line2) as (seg2 & Hc2 & (w2 & h2 & o2 & Hs2)
                                           & Hst2 & Hen2); [now right |].
  apply reinitialize_total with (segs := [seg1; seg2]);
    try reflexivity.
  - cbn. repeat constructor; assumption.
  - cbn. lia.
  - intros seg [<- | [<- | []]].
    + destruct (line_guess_total (scipy := sample_scipy)
                  (fresh_scheduler steady_optimizer [line1; line2]
                     (mk_vec3 10 10 0) 2) seg1 (mv := 2) Hs1)
        as (g & T & H); [| reflexivity | cbn; lia | eauto].
      rewrite Hst1, Hen1. cbn. intros H. injection H as H. lra.
    + destruct (line_guess_total (scipy := sample_scipy)
                  (fresh_scheduler steady_optimizer [line1; line2]
                     (mk_vec3 10 10 0) 2) seg2 (mv := 2) Hs2)
        as (g & T & H); [| reflexivity | cbn; lia | eauto].
      rewrite Hst2, Hen2. cbn. intros H. injection H as H. lra.
Qed.

Lemma two_line_reachable :
  exists s,
    reachable (scipy := sample_scipy) (opti := steady_optimizer)
      (sample_tool origin (mk_vec3 10 10 0)) [line1; line2] (Some 2%nat) s /\
    n_current_block s = 0%nat /\ n_segments s = 2%nat.
Proof.
  destruct two_line_start as [s H]. exists s.
  destruct (reinitialize_inv (scipy := sample_scipy) _ H eq_refl)
    as (_ & HN & Hc & _).
  split; [| split; assumption].
  eapply reach_reinitialize; [apply init_fresh_scheduler | exact H].
Qed.

(** C2, counterexample. After [reinitialize] on the program
    [line1; line2] with look-ahead 2, the segment in window slot 1 is the
    segment of the corridor at position 1 of the program, and its stored
    number is 0. *)
Lemma C2_counterexample_number_is_not_position :
  exists s seg room,
    reachable (scipy := sample_scipy) (opti := steady_optimizer)
      (sample_tool origin (mk_vec3 10 10 0)) [line1; line2] (Some 2%nat) s /\
    nth_error (segments s) 1 = Some seg /\
    nth_error (environment s) 1 = Some room /\
    seg_start seg = room_start room /\
    seg_end seg = room_end room /\
    border_shape (seg_border seg) = room_shape room /\
    seg_number seg = 0%nat /\
    seg_number seg <> 1%nat.
Proof.
  destruct two_line_reachable as (s & Hr & Hc & HN).
  destruct (reachable_window Hr) as ((Hlen & _ & Hseg) & _).
  rewrite HN in Hlen.
  destruct (segments s) as [| seg0 [| seg1 rest]] eqn:E;
    try (cbn in Hlen; lia).
  destruct (Hseg 1%nat seg1) as (room & Hroom & Hcr); [reflexivity |].
  rewrite Hc in Hroom. rewrite Hc, HN in Hcr. cbn in Hroom, Hcr.
  destruct (create_segment_number _ _ Hcr) as (Hnum & Hst & Hen & Hsh & _).
  exists s, seg1, room. rewrite E. cbn [nth_error].
  repeat split; auto. rewrite Hnum. lia.
Qed.

Lemma C2_witness :
  exists s,
    reachable (scipy := sample_scipy) (opti := steady_optimizer)
      (sample_tool origin (mk_vec3 10 10 0)) [line1; line2] (Some 2%nat) s /\
    List.length (segments s) = n_segments s /\
    (n_current_block s + n_segments s <= List.length (environment s))%nat.
Proof.
  destruct two_line_reachable as (s & Hr & _).
  exists s. split; [exact Hr |].
  destruct (C2_window_contiguous_numbers Hr) as (_ & Hlen & Hroom & _).
  split; [exact Hlen | exact Hroom].
Defined.

(** *** The tail of the program *)

(** C3, at the failing inputs. On the program [line1] with look-ahead 2,
    [reinitialize] selects the single remaining corridor and raises
    [IndexError]; on the last window of [line1; line2; line3] with
    look-ahead 2, the advance raises [IndexError]. The window does not
    shrink to the remaining corridors. *)
Theorem C3_tail_raises_IndexError :
  reinitialize (scipy := sample_scipy)
    (fresh_scheduler steady_optimizer [line1] (mk_vec3 10 0 0) 2)
  = Error IndexError /\
  solve (scipy := sample_scipy) tail_run 0 0.03 = Error IndexError.
Proof.
  split.
  - destruct (line_room_segment 0 line1)
      as (seg1 & Hc1 & (w1 & h1 & o1 & Hs1) & Hst1 & Hen1); [now right |].
    apply reinitialize_short_raises with (segs := [seg1]).
    + reflexivity.
    + cbn. repeat constructor; assumption.
    + cbn. lia.
    + intros seg [<- | []].
      destruct (line_guess_total (scipy := sample_scipy)
                  (fresh_scheduler steady_optimizer [line1]
                     (mk_vec3 10 0 0) 2) seg1 (mv := 2) Hs1)
        as (g & T & H); [| reflexivity | cbn; lia | eauto].
      rewrite Hst1, Hen1. cbn. intros H. injection H as H. lra.
  - eapply tail_advance_raises.
    + reflexivity.
    + reflexivity.
    + cbn. lia.
    + cbn. lia.
Qed.

(** *** Guesses for sample segments *)

Lemma linear_interp_unit (a b fill t : R) :
  0 <= t <= 1 ->
  linear_interp [0; 1] [a; b] fill t = (b - a) / (1 - 0) * (t - 0) + a.
Proof.
  intros [H0 H1]. unfold linear_interp.
  cbn [combine sort_points fold_right insert_point fst].
  destruct (Rle_dec 0 1) as [_ | N]; [| exfalso; lra].
  cbn [map fst snd hd last List.length searchsorted].
  destruct (Rlt_dec t 0) as [? | _]; [lra |].
  destruct (Rlt_dec 1 t) as [? | _]; [lra |].
  destruct (Rlt_dec 0 t); reflexivity.
Qed.

Lemma axis_time_moving (a b : R) : a <> b -> axis_time [a; b] = [0; 1].
Proof.
  intros H. unfold axis_time, time_vector. cbn [total_length time_steps map].
  destruct (Req_dec_T (0 + (b - a)) 0) as [E | _]; [lra |].
  rewrite snap_to_one_0. f_equal. f_equal.
  replace (0 + (b - a) / (0 + (b - a))) with 1 by (field; lra).
  apply snap_to_one_1.
Qed.

Lemma axis_time_still (a : R) : axis_time [a; a] = [0; 0].
Proof.
  unfold axis_time, time_vector. cbn [total_length time_steps map].
  destruct (Req_dec_T (0 + (a - a)) 0) as [_ | N]; [| lra].
  now rewrite snap_to_one_0.
Qed.

Lemma all_zero_01 : all_zero [0; 1] = false.
Proof.
  cbn. destruct (Req_dec_T 0 0) as [_ | N]; [| lra].
  destruct (Req_dec_T 1 0) as [E | _]; [lra | reflexivity].
Qed.

Lemma all_zero_00 : all_zero [0; 0] = true.
Proof. cbn. destruct (Req_dec_T 0 0) as [_ | N]; [reflexivity | lra]. Qed.

Lemma interpolation_times_x_only :
  interpolation_times [0; 1] [0; 0] [0; 0] = Ok ([0; 1], [0; 1], [0; 1]).
Proof.
  unfold interpolation_times.
  rewrite !all_zero_01, !all_zero_00. reflexivity.
Qed.

Lemma line1_guess_exists :
  exists g T,
    get_init_guess_new_segment (scipy := sample_scipy) mid_run line1_segment
    = Ok (g, T).
Proof.
  apply (line_guess_total (scipy := sample_scipy) mid_run line1_segment
           (w := 10) (h := 0.1) (o := 0) (mv := 2)).
  - reflexivity.
  - cbn. intros H. injection H as H. lra.
  - reflexivity.
  - cbn. lia.
Qed.

(** C6, at the failing input. In the guess for [line1] with the sample
    tool (Greville points 0, 1/3, 2/3, 1) the rows at positions -3 and -4
    are equal to the final row, but the second-to-last row differs from
    it: the last two coefficients are not both forced to the final
    coefficient. *)
Theorem C6_penultimate_row_not_forced :
  exists g T r2 r1,
    get_init_guess_new_segment (scipy := sample_scipy) mid_run line1_segment
    = Ok (g, T) /\
    py_index g (-3) = Ok r1 /\
    py_index g (-4) = Ok r1 /\
    py_index g (-2) = Ok r2 /\
    py_index g (-1) = Ok r1 /\
    r2 <> r1.
Proof.
  destruct line1_guess_exists as (g & T & H).
  destruct (rows_3_and_4_forced_to_final _ _ H) as (_ & _ & H3 & H4 & _).
  destruct (guess_interpolated_rows _ _ H)
    as (x & y & z & tx & ty & tz & Hc & Ht & H1 & H2).
  cbn in Hc. injection Hc as <- <- <-.
  rewrite (axis_time_moving (a := 0) (b := 10)) in Ht by lra.
  rewrite (axis_time_still 0) in Ht.
  rewrite interpolation_times_x_only in Ht.
  injection Ht as <- <- <-.
  change (py_index (greville (veh_basis (vehicle mid_run))) (-1))
    with (Ok ((1 + (1 + (1 + 0))) / INR 3)) in H1.
  change (py_index (greville (veh_basis (vehicle mid_run))) (-2))
    with (Ok ((0 + (1 + (1 + 0))) / INR 3)) in H2.
  cbn [bind] in H1, H2.
  eexists g, T, _, _. split; [exact H |].
  split; [rewrite H3; exact H1 |]. split; [rewrite H4; exact H1 |].
  split; [exact H2 |]. split; [exact H1 |].
  change (@interp1d sample_scipy) with linear_interp.
  rewrite !linear_interp_unit by (cbn [INR]; lra).
  intros E. injection E as E. cbn [INR] in E. lra.
Qed.

(** *** The motion time of an arc *)

Lemma abs_steps_bound (a b : R) (l : list R) :
  Rabs (b - a) <= abs_steps (a :: l ++ [b]).
Proof.
  revert a; induction l as [| c l IH]; intros a.
  - cbn. lra.
  - change (abs_steps (a :: (c :: l) ++ [b]))
      with (Rabs (c - a) + abs_steps (c :: l ++ [b])).
    specialize (IH c).
    replace (b - a) with ((b - c) + (c - a)) by lra.
    pose proof (Rabs_triang (b - c) (c - a)). lra.
Qed.

Lemma abs_steps_split (a m : R) (l1 rest : list R) :
  abs_steps ((a :: l1) ++ m :: rest)
  = abs_steps (a :: l1 ++ [m]) + abs_steps (m :: rest).
Proof.
  revert a; induction l1 as [| c l1 IH]; intros a.
  - cbn [app]. destruct rest; cbn; lra.
  - change (abs_steps ((a :: c :: l1) ++ m :: rest))
      with (Rabs (c - a) + abs_steps ((c :: l1) ++ m :: rest)).
    change (abs_steps (a :: (c :: l1) ++ [m]))
      with (Rabs (c - a) + abs_steps (c :: l1 ++ [m])).
    rewrite IH. lra.
Qed.

(** A path that passes through [m] is at least as long as the way to [m]
    and on to the end. *)
Lemma abs_steps_through (a m b : R) (l1 l2 : list R) :
  Rabs (m - a) + Rabs (b - m) <= abs_steps ((a :: l1) ++ m :: l2 ++ [b]).
Proof.
  rewrite abs_steps_split.
  pose proof (abs_steps_bound a m l1).
  pose proof (abs_steps_bound m b l2). lra.
Qed.

Lemma path_length_abs_steps (x y z : list R) :
  List.length y = List.length x -> List.length z = List.length x ->
  abs_steps x <= path_length x y z.
Proof.
  revert y z; induction x as [| a x IH]; intros y z Hy Hz; [cbn; lra |].
  destruct y as [| b y]; [discriminate |].
  destruct z as [| c z]; [discriminate |].
  destruct x as [| a' x]; [cbn; lra |].
  destruct y as [| b' y]; [discriminate |].
  destruct z as [| c' z]; [discriminate |].
  change (abs_steps (a :: a' :: x))
    with (Rabs (a' - a) + abs_steps (a' :: x)).
  change (path_length (a :: a' :: x) (b :: b' :: y) (c :: c' :: z))
    with (sqrt ((a' - a) ^ 2 + (b' - b) ^ 2 + (c' - c) ^ 2)
          + path_length (a' :: x) (b' :: y) (c' :: z)).
  specialize (IH (b' :: y) (c' :: z)).
  assert (Rabs (a' - a)
          <= sqrt ((a' - a) ^ 2 + (b' - b) ^ 2 + (c' - c) ^ 2)).
  { rewrite <- sqrt_Rsqr_abs. apply sqrt_le_1_alt. rewrite Rsqr_pow2.
    pose proof (pow2_ge_0 (b' - b)). pose proof (pow2_ge_0 (c' - c)). lra. }
  cbn in Hy, Hz. cbn [List.length] in IH.
  assert (abs_steps (a' :: x)
          <= path_length (a' :: x) (b' :: y) (c' :: z))
    by (apply IH; lia).
  lra.
Qed.

Lemma arctan2_east : arctan2 (0 - 0) (1 - 0) = 0.
Proof.
  unfold arctan2. destruct (Rlt_dec 0 (1 - 0)) as [_ | N]; [| lra].
  replace ((0 - 0) / (1 - 0)) with 0 by lra. apply atan_0.
Qed.

Lemma arctan2_south : arctan2 (-1 - 0) (0 - 0) = - (PI / 2).
Proof.
  unfold arctan2.
  destruct (Rlt_dec 0 (0 - 0)) as [? | _]; [lra |].
  destruct (Rlt_dec (0 - 0) 0) as [? | _]; [lra |].
  destruct (Rlt_dec 0 (-1 - 0)) as [? | _]; [lra |].
  destruct (Rlt_dec (-1 - 0) 0) as [_ | N]; [reflexivity | lra].
Qed.

Lemma arc1_sweep :
  sweep_angles CCW
    (arctan2 (vy (seg_start arc1_segment) - 0)
             (vx (seg_start arc1_segment) - 0))
    (arctan2 (vy (seg_end arc1_segment) - 0)
             (vx (seg_end arc1_segment) - 0))
  = (0, - (PI / 2) + 2 * PI).
Proof.
  cbn [arc1_segment seg_start seg_end vx vy].
  rewrite arctan2_east, arctan2_south. unfold sweep_angles.
  pose proof PI_RGT_0.
  destruct (Rgt_dec 0 (- (PI / 2))) as [_ | N]; [reflexivity | lra].
Qed.

Lemma linspace_50_through (a b : R) :
  let g := fun i => INR i * ((b - a) / INR 49) + a in
  linspace a b 50
  = (g 0%nat :: map g (seq 1 31)) ++ g 32%nat :: map g (seq 33 16) ++ [b].
Proof. reflexivity. Qed.

Lemma map_through {A B : Type} (f : A -> B) a m b l1 l2 :
  map f ((a :: l1) ++ m :: l2 ++ [b])
  = (f a :: map f l1) ++ f m :: map f l2 ++ [f b].
Proof. now rewrite map_app, map_cons, map_cons, map_app. Qed.

Lemma sqrt_2_lt_2 : sqrt 2 < 2.
Proof.
  replace 2 with (sqrt (2 * 2)) at 2 by (apply sqrt_square; lra).
  apply sqrt_lt_1_alt. lra.
Qed.

(** The centerline of [arc1]: its chord has length [sqrt 2], its sampled
    path is at least 2 long. *)
Lemma arc1_centerline :
  exists x y z,
    centerline arc1_segment = Ok (x, y, z) /\
    net_displacement x = -1 /\
    net_displacement y = -1 /\
    net_displacement z = 0 /\
    2 <= path_length x y z.
Proof.
  destruct (centerline_ring arc1_segment (rin := 0.9) (rout := 1.1)
              (rs := mk_vec3 1 0 0) (re := mk_vec3 0 (-1) 0) (dir := CCW)
              (p0 := 0) (p1 := 0) (sa := 0) (ea := - (PI / 2) + 2 * PI)
              eq_refl eq_refl eq_refl arc1_sweep)
    as (Hc & Hx & Hy & Hz).
  cbv zeta in Hc, Hx, Hy, Hz.
  set (r := (0.9 + 1.1) * 0.5) in *.
  set (ea := - (PI / 2) + 2 * PI) in *.
  set (angles := linspace 0 ea 50) in *.
  assert (Hr : r = 1) by (subst r; lra).
  assert (Hea : ea = 3 * (PI / 2)) by (subst ea; lra).
  do 3 eexists. split; [exact Hc |].
  rewrite Hx, Hy, Hz, Hea, cos_3PI2, sin_3PI2, cos_0, sin_0, Hr.
  split; [lra |]. split; [lra |]. split; [reflexivity |].
  eapply Rle_trans; [| apply path_length_abs_steps;
                       now rewrite !length_map].
  subst angles. rewrite linspace_50_through. cbv zeta.
  rewrite map_through.
  eapply Rle_trans; [| apply abs_steps_through].
  rewrite !INR_IZR_INZ. cbn [Z.of_nat Pos.of_succ_nat Pos.succ].
  replace (0 * ((ea - 0) / 49) + 0) with 0 by lra.
  rewrite cos_0, Hea, cos_3PI2.
  assert (Hm : cos (32 * ((3 * (PI / 2) - 0) / 49) + 0) <= -1 / 2).
  { rewrite <- cos_2PI3. pose proof PI_RGT_0.
    apply cos_decr_1; lra. }
  set (m := cos (32 * ((3 * (PI / 2) - 0) / 49) + 0)) in *.
  pose proof (Rle_abs (0 + 1 * 1 - (0 + 1 * m))) as A1.
  rewrite Rabs_minus_sym in A1.
  pose proof (Rle_abs (0 + 1 * 0 - (0 + 1 * m))) as A2.
  lra.
Qed.

(** C7, at the failing input. For [arc1] (three quarters of the unit
    circle) the estimate is [sqrt 2], the chord, divided by half of the
    maximum speed: less than the total path length of the sampled
    centerline divided by half of the maximum speed.  For [line1] the
    estimate is the total path length divided by half of the maximum
    speed. *)
Theorem C7_arc_motion_time_is_chord :
  (exists g T x y z,
     get_init_guess_new_segment (scipy := sample_scipy) mid_run arc1_segment
     = Ok (g, T) /\
     centerline arc1_segment = Ok (x, y, z) /\
     max_vel (vehicle mid_run) = Ok 2 /\
     T = sqrt 2 / (2 * 0.5) /\
     T < path_length x y z / (2 * 0.5) /\
     T <> path_length x y z / (2 * 0.5)) /\
  (exists g T,
     get_init_guess_new_segment (scipy := sample_scipy) mid_run line1_segment
     = Ok (g, T) /\
     T = path_length [0; 10] [0; 0] [0; 0] / (2 * 0.5)).
Proof.
  split.
  - destruct arc1_centerline as (x & y & z & Hc & Hx & Hy & Hz & Hlen).
    destruct (get_init_guess_new_segment_total (scipy := sample_scipy)
                mid_run arc1_segment (mv := 2) Hc) as [g Hg].
    { left. rewrite total_length_net, Hx. lra. }
    { reflexivity. }
    { cbn. lia. }
    rewrite !total_length_net, Hx, Hy, Hz in Hg.
    replace ((-1) ^ 2 + (-1) ^ 2 + 0 ^ 2) with 2 in Hg by lra.
    exists g, (sqrt 2 / (2 * 0.5)), x, y, z.
    split; [exact Hg |]. split; [exact Hc |]. split; [reflexivity |].
    split; [reflexivity |].
    pose proof sqrt_2_lt_2.
    assert (sqrt 2 / (2 * 0.5) < path_length x y z / (2 * 0.5)).
    { apply Rmult_lt_compat_r; [| lra].
      apply Rinv_0_lt_compat. lra. }
    split; lra.
  - destruct line1_guess_exists as (g & T & H).
    exists g, T. split; [exact H |].
    destruct (motion_time_of_net_displacement (scipy := sample_scipy) mid_run
                line1_segment (x := [0; 10]) (y := [0; 0]) (z := [0; 0])
                (mv := 2) H eq_refl eq_refl) as [_ Hline].
    exact (Hline 10 0.1 0 eq_refl).
Qed.

(** *** Further sample calls *)

Lemma C5_witness :
  is_error (get_init_guess_new_segment (scipy := sample_scipy) mid_run
              still_segment) /\
  get_init_guess_new_segment (scipy := sample_scipy) mid_run still_segment
  = Error goal_is_current.
Proof.
  destruct (C5_degenerate_segment_raises (scipy := sample_scipy) mid_run
              still_segment) as [Hsame Hnet].
  split.
  - apply Hsame. reflexivity.
  - apply (Hnet [0; 0] [0; 0] [0; 0]).
    + reflexivity.
    + unfold net_displacement. cbn [last hd]. lra.
    + unfold net_displacement. cbn [last hd]. lra.
    + unfold net_displacement. cbn [last hd]. lra.
Defined.

Lemma C8_witness :
  exists room radius_in radius_out start end_ direction,
    nth_error (get_environment [line1; arc1] 0.1) 1 = Some room /\
    room_shape room = Ring radius_in radius_out start end_ direction /\
    radius_out - radius_in = 2 * 0.1 /\
    direction = CCW /\
    room_pose room = [0; 0; 0; 0; 0; 0].
Proof.
  destruct (C8_arc_annulus [line1; arc1] 0.1 1 (block := arc1) eq_refl
              (or_intror eq_refl))
    as (room & rin & rout & st & en & dir & Hn & Hs & _ & _ & Hd & Hdir
        & Hp & _).
  exists room, rin, rout, st, en, dir.
  split; [exact Hn |]. split; [exact Hs |]. split; [exact Hd |].
  split; [exact Hdir | exact Hp].
Defined.

Lemma C9_witness :
  get_init_guess_new_segment (scipy := sample_scipy) mid_run line1_segment
  = get_init_guess_new_segment (scipy := sample_scipy) at_exit line1_segment.
Proof.
  destruct (C9_generator_deterministic (scipy := sample_scipy) mid_run
              at_exit line1_segment eq_refl) as [_ H].
  apply H. reflexivity.
Defined.

Lemma C10_witness :
  stop_criterium mid_run 0 0.02 = Ok (Some false) /\
  stop_criterium tail_run 0 0.03 = Ok None.
Proof.
  split.
  - destruct (C10_stop_criterium_three_valued
                mid_run 0 0.02 (last := line1_segment) eq_refl)
      as [Hfalse _].
    apply Hfalse. cbn. intros H. injection H as H. lra.
  - destruct (C10_stop_criterium_three_valued
                tail_run 0 0.03 eq_refl) as [_ Hgoal].
    destruct (Hgoal _ eq_refl eq_refl) as [_ Hnone].
    apply Hnone. reflexivity.
Defined.

(** *** The sample segments are the segments [create_segment] builds *)

Lemma sqrt_100 : sqrt 100 = 10.
Proof. replace 100 with (10 * 10) by lra. apply sqrt_square. lra. Qed.

Lemma line1_segment_created :
  create_segment 0 (room_of_block 0.1 line1) = Ok line1_segment.
Proof.
  unfold create_segment, room_of_block, line1_segment, line1,
    distance_between_points.
  cbn [block_type block_start block_end vx vy vz room_shape room_pose
       room_orientation room_start room_end].
  replace ((0 - 10) ^ 2 + (0 - 0) ^ 2 + (0 - 0) ^ 2) with 100 by lra.
  rewrite sqrt_100.
  replace (arctan2 (0 - 0) (10 - 0)) with 0.
  2:{ unfold arctan2. destruct (Rlt_dec 0 (10 - 0)) as [_ | N]; [| lra].
      replace ((0 - 0) / (10 - 0)) with 0 by lra. now rewrite atan_0. }
  change (py_index ?l 0) with (py_index l (Z.of_nat 0)).
  change (py_index ?l 1) with (py_index l (Z.of_nat 1)).
  rewrite !py_index_nat. cbn [nth_error of_option bind].
  repeat f_equal; lra.
Qed.

Lemma line2_segment_created :
  create_segment 0 (room_of_block 0.1 line2) = Ok line2_segment.
Proof.
  unfold create_segment, room_of_block, line2_segment, line2,
    distance_between_points.
  cbn [block_type block_start block_end vx vy vz room_shape room_pose
       room_orientation room_start room_end].
  replace ((10 - 10) ^ 2 + (0 - 10) ^ 2 + (0 - 0) ^ 2) with 100 by lra.
  rewrite sqrt_100.
  replace (arctan2 (10 - 0) (10 - 10)) with (PI / 2).
  2:{ unfold arctan2.
      destruct (Rlt_dec 0 (10 - 10)) as [? | _]; [lra |].
      destruct (Rlt_dec (10 - 10) 0) as [? | _]; [lra |].
      destruct (Rlt_dec 0 (10 - 0)) as [_ | N]; [reflexivity | lra]. }
  change (py_index ?l 0) with (py_index l (Z.of_nat 0)).
  change (py_index ?l 1) with (py_index l (Z.of_nat 1)).
  rewrite !py_index_nat. cbn [nth_error of_option bind].
  repeat f_equal; lra.
Qed.

Lemma arc1_segment_created :
  create_segment 0 (room_of_block 0.1 arc1) = Ok arc1_segment.
Proof.
  unfold create_segment, room_of_block, arc1_segment, arc1, vec3_sub, origin.
  cbn [block_type block_start block_end block_center block_radius vx vy vz
       room_shape room_pose room_orientation room_start room_end bind app].
  repeat f_equal; lra.
Qed.

Lemma line3_segment_created :
  of_option IndexError (nth_error (segments tail_run) 1)
  = create_segment 1 (room_of_block 0.1 line3).
Proof.
  unfold create_segment, room_of_block, tail_run, line3,
    distance_between_points.
  cbn [block_type block_start block_end vx vy vz room_shape room_pose
       room_orientation room_start room_end segments nth_error of_option].
  replace ((10 - 0) ^ 2 + (10 - 10) ^ 2 + (0 - 0) ^ 2) with 100 by lra.
  rewrite sqrt_100.
  replace (arctan2 (10 - 10) (0 - 10)) with PI.
  2:{ unfold arctan2.
      destruct (Rlt_dec 0 (0 - 10)) as [? | _]; [lra |].
      destruct (Rlt_dec (0 - 10) 0) as [_ | N]; [| lra].
      destruct (Rle_dec 0 (10 - 10)) as [_ | N]; [| lra].
      replace ((10 - 10) / (0 - 10)) with 0 by lra. rewrite atan_0. lra. }
  change (py_index ?l 0) with (py_index l (Z.of_nat 0)).
  change (py_index ?l 1) with (py_index l (Z.of_nat 1)).
  rewrite !py_index_nat. cbn [nth_error of_option bind].
  repeat f_equal; lra.
Qed.

(* ================================================================== *)
(** * Further properties of the scheduler *)

(** ** The corridor builder and [create_segment] *)

Lemma room_of_block_pose (tolerance : R) (block : Block) :
  List.length (room_pose (room_of_block tolerance block)) = 6%nat /\
  room_position (room_of_block tolerance block)
  = firstn 2 (room_pose (room_of_block tolerance block)) /\
  room_start (room_of_block tolerance block) = block_start block /\
  room_end (room_of_block tolerance block) = block_end block /\
  room_draw (room_of_block tolerance block) = true /\
  room_orientation (room_of_block tolerance block) = None.
Proof. unfold room_of_block. destruct (block_type block); cbn; auto 10. Qed.

(** X1. [get_environment] builds one room per block, in program order:
    the room at position [i] keeps the start and the end of block [i], its
    pose has six entries and its position is the first two of them. *)
Theorem X1_environment_in_program_order (GCode : list Block) (tolerance : R) :
  List.length (get_environment GCode tolerance) = List.length GCode /\
  forall i block,
    nth_error GCode i = Some block ->
    exists room,
      nth_error (get_environment GCode tolerance) i = Some room /\
      room_start room = block_start block /\
      room_end room = block_end block /\
      List.length (room_pose room) = 6%nat /\
      room_position room = firstn 2 (room_pose room).
Proof.
  unfold get_environment. split; [apply length_map |].
  intros i block Hi. exists (room_of_block tolerance block).
  rewrite nth_error_map, Hi.
  destruct (room_of_block_pose tolerance block) as (Hl & Hp & Hs & He & _).
  auto 10.
Qed.

Lemma arctan2_range (y x : R) : - PI < arctan2 y x <= PI.
Proof.
  pose proof PI_RGT_0 as Hpi. unfold arctan2.
  destruct (Rlt_dec 0 x) as [Hx | Hx].
  - pose proof (atan_bound (y / x)). lra.
  - destruct (Rlt_dec x 0) as [Hx' | Hx'].
    + pose proof (atan_bound (y / x)) as Hb.
      assert (Hinv : / x < 0) by (apply Rinv_lt_0_compat; exact Hx').
      destruct (Rle_dec 0 y) as [Hy | Hy].
      * assert (y / x <= 0) by (unfold Rdiv; nra).
        assert (atan (y / x) <= 0).
        { rewrite <- atan_0.
          destruct (Req_dec_T (y / x) 0) as [-> | ?]; [lra |].
          left. apply atan_increasing. lra. }
        lra.
      * assert (0 < y / x) by (unfold Rdiv; nra).
        assert (0 < atan (y / x))
          by (rewrite <- atan_0; now apply atan_increasing).
        lra.
    + destruct (Rlt_dec 0 y); [lra |].
      destruct (Rlt_dec y 0); lra.
Qed.

(** X2. The room of a LINE block ([G00], [G01]) is a rectangle whose
    height is the tolerance and whose orientation is the angle of the
    displacement, in the interval from [-pi] (excluded) to [pi]; its pose
    is the midpoint of the block on the three axes, followed by the
    orientation and two zeros. *)
Theorem X2_line_room (tolerance : R) (block : Block) :
  block_type block = G00 \/ block_type block = G01 ->
  exists width orientation mx my mz,
    room_shape (room_of_block tolerance block)
    = Rectangle width tolerance orientation /\
    orientation
    = arctan2 (vy (block_end block) - vy (block_start block))
              (vx (block_end block) - vx (block_start block)) /\
    - PI < orientation <= PI /\
    room_pose (room_of_block tolerance block)
    = [mx; my; mz; orientation; 0; 0] /\
    2 * mx = vx (block_start block) + vx (block_end block) /\
    2 * my = vy (block_start block) + vy (block_end block) /\
    2 * mz = vz (block_start block) + vz (block_end block).
Proof.
  intros H. unfold room_of_block.
  destruct H as [-> | ->]; cbn;
    (do 5 eexists; split; [reflexivity |]; split; [reflexivity |];
     split; [apply arctan2_range |]; split; [reflexivity |];
     repeat split; lra).
Qed.

Lemma X2_witness :
  exists width,
    room_shape (room_of_block 0.1 line1) = Rectangle width 0.1 0 /\
    room_pose (room_of_block 0.1 line1) = [5; 0; 0; 0; 0; 0].
Proof.
  destruct (X2_line_room 0.1 line1 (or_intror eq_refl))
    as (w & o & mx & my & mz & Hs & Ho & _ & Hp & Hx & Hy & Hz).
  cbn in Ho, Hx, Hy, Hz.
  assert (Eo : o = 0).
  { rewrite Ho. unfold arctan2.
    destruct (Rlt_dec 0 (10 - 0)) as [_ | N]; [| lra].
    replace ((0 - 0) / (10 - 0)) with 0 by lra. apply atan_0. }
  exists w. rewrite Hs, Hp, Eo. split; [reflexivity |].
  repeat f_equal; lra.
Defined.

Lemma X1_witness :
  exists room,
    nth_error (get_environment [line1; arc1] 0.1) 1 = Some room /\
    room_start room = mk_vec3 1 0 0 /\
    room_end room = mk_vec3 0 (-1) 0.
Proof.
  destruct (X1_environment_in_program_order [line1; arc1] 0.1) as [_ H].
  destruct (H 1%nat arc1 eq_refl) as (room & Hn & Hs & He & _).
  exists room. auto.
Defined.

(** X3. [create_segment] never raises on a room of [get_environment]: the
    segment carries the counter as number and the block's start and end.
    Its border orientation is 0 whatever the direction of the block (the
    rooms have no orientation entry), and the limits of a LINE room are
    the box around the midpoint with the room's width along x and the
    tolerance along y; an ARC room has no limits. *)
Theorem X3_segment_of_environment_room
    (c : nat) (tolerance : R) (block : Block) :
  exists seg,
    create_segment c (room_of_block tolerance block) = Ok seg /\
    seg_number seg = c /\
    seg_start seg = block_start block /\
    seg_end seg = block_end block /\
    border_orientation (seg_border seg) = 0 /\
    match room_shape (room_of_block tolerance block) with
    | Rectangle width _ _ =>
        exists xmin ymin xmax ymax,
          border_limits (seg_border seg) = Some [xmin; ymin; xmax; ymax] /\
          xmax - xmin = width /\ ymax - ymin = tolerance /\
          xmin + xmax = vx (block_start block) + vx (block_end block) /\
          ymin + ymax = vy (block_start block) + vy (block_end block)
    | Ring _ _ _ _ _ => border_limits (seg_border seg) = None
    end.
Proof.
  unfold room_of_block.
  destruct (block_type block); cbn;
    (eexists; split; [reflexivity |]; cbn;
     do 4 (split; [reflexivity |]));
    try reflexivity;
    (do 4 eexists; split; [reflexivity |]; repeat split; lra).
Qed.

(** X4. [create_segment] on an arbitrary room: a rectangle whose pose has
    fewer than two entries raises IndexError; otherwise the limits are the
    box centred on the first two pose entries, as wide as the rectangle
    along x and as high along y, whatever the rectangle's orientation; a
    ring never raises and has no limits.  The border orientation is the
    room's orientation entry, or 0 when the room has none. *)
Theorem X4_create_segment_limits (c : nat) (room : Room) :
  match room_shape room with
  | Rectangle width height _ =>
      ((List.length (room_pose room) < 2)%nat ->
       create_segment c room = Error IndexError) /\
      (forall p0 p1 rest,
         room_pose room = p0 :: p1 :: rest ->
         exists seg xmin ymin xmax ymax,
           create_segment c room = Ok seg /\
           border_limits (seg_border seg) = Some [xmin; ymin; xmax; ymax] /\
           xmax - xmin = width /\ ymax - ymin = height /\
           xmin + xmax = 2 * p0 /\ ymin + ymax = 2 * p1 /\
           border_orientation (seg_border seg)
           = match room_orientation room with Some o => o | None => 0 end)
  | Ring _ _ _ _ _ =>
      exists seg,
        create_segment c room = Ok seg /\
        border_limits (seg_border seg) = None /\
        border_orientation (seg_border seg)
        = match room_orientation room with Some o => o | None => 0 end
  end.
Proof.
  unfold create_segment.
  destruct (room_shape room) as [w h o | rin rout rs re dir].
  - split.
    + intros Hl. destruct (room_pose room) as [| p0 [| p1 rest]].
      * reflexivity.
      * reflexivity.
      * cbn in Hl. lia.
    + intros p0 p1 rest ->.
      change (py_index (p0 :: p1 :: rest) 0) with (Ok p0).
      assert (E1 : py_index (p0 :: p1 :: rest) 1 = Ok p1).
      { change 1%Z with (Z.of_nat 1). now rewrite py_index_nat. }
      rewrite E1. cbn [bind].
      do 5 eexists. split; [reflexivity |]. cbn.
      split; [reflexivity |]. repeat split; lra.
  - cbn [bind]. eexists. split; [reflexivity |]. cbn. auto.
Qed.

Lemma X4_witness :
  create_segment 0 (mk_Room (Rectangle 4 2 1) [7] [7] true origin origin None)
  = Error IndexError /\
  exists seg,
    create_segment 0
      (mk_Room (Rectangle 4 2 1) [7; 3] [7; 3] true origin origin (Some 1))
    = Ok seg /\
    border_limits (seg_border seg) = Some [5; 2; 9; 4] /\
    border_orientation (seg_border seg) = 1.
Proof.
  split.
  - pose proof (X4_create_segment_limits 0
      (mk_Room (Rectangle 4 2 1) [7] [7] true origin origin None)) as H.
    cbn [room_shape room_pose] in H. apply (proj1 H). cbn. lia.
  - pose proof (X4_create_segment_limits 0
      (mk_Room (Rectangle 4 2 1) [7; 3] [7; 3] true origin origin (Some 1)))
      as H.
    cbn [room_shape room_pose room_orientation] in H.
    destruct (proj2 H 7 3 [] eq_refl)
      as (seg & xmin & ymin & xmax & ymax & Hs & Hl & Hw & Hh & Hx & Hy & Ho).
    exists seg. split; [exact Hs |]. split; [| exact Ho].
    rewrite Hl. repeat f_equal; lra.
Defined.

(** ** The sampled centerline *)

(** X5. The two angles of an arc, after unwrapping, sweep in the commanded
    direction by less than a full turn: clockwise the start angle is at or
    above the end angle, counter-clockwise at or below, and each angle is
    the [arctan2] value or that value plus [2 pi]. *)
Theorem X5_arc_swept_in_direction (dir : Direction) (sy sx ey ex : R) :
  let start_angle := arctan2 sy sx in
  let end_angle := arctan2 ey ex in
  let sa := fst (sweep_angles dir start_angle end_angle) in
  let ea := snd (sweep_angles dir start_angle end_angle) in
  (sa = start_angle \/ sa = start_angle + 2 * PI) /\
  (ea = end_angle \/ ea = end_angle + 2 * PI) /\
  match dir with
  | CW => 0 <= sa - ea < 2 * PI
  | CCW => 0 <= ea - sa < 2 * PI
  end.
Proof.
  pose proof (arctan2_range sy sx) as Hs.
  pose proof (arctan2_range ey ex) as He.
  cbv zeta. unfold sweep_angles. destruct dir.
  - destruct (Rlt_dec (arctan2 sy sx) (arctan2 ey ex)); cbn [fst snd];
      (split; [auto |]; split; [auto |]; lra).
  - destruct (Rgt_dec (arctan2 sy sx) (arctan2 ey ex)); cbn [fst snd];
      (split; [auto |]; split; [auto |]; lra).
Qed.

Lemma length_linspace_50 (a b : R) : List.length (linspace a b 50) = 50%nat.
Proof.
  rewrite linspace_50. rewrite length_app. cbn [List.length].
  rewrite length_map, length_seq. reflexivity.
Qed.

(** X6. The centerline of an arc has 50 samples per axis; every sample
    lies in the plane [z = 0], on the circle around the first two pose
    entries whose radius is the mean of the inner and the outer radius.
    A pose with fewer than two entries raises IndexError. *)
Theorem X6_arc_centerline_on_circle
    (segment : Segment) (rin rout : R) (rs re : vec3) (dir : Direction) :
  border_shape (seg_border segment) = Ring rin rout rs re dir ->
  ((List.length (border_pose (seg_border segment)) < 2)%nat ->
   centerline segment = Error IndexError) /\
  forall p0 p1 rest,
    border_pose (seg_border segment) = p0 :: p1 :: rest ->
    exists x y z,
      centerline segment = Ok (x, y, z) /\
      List.length x = 50%nat /\ List.length y = 50%nat /\
      List.length z = 50%nat /\
      forall i xi yi zi,
        nth_error x i = Some xi -> nth_error y i = Some yi ->
        nth_error z i = Some zi ->
        (xi - p0) ^ 2 + (yi - p1) ^ 2 = ((rin + rout) * 0.5) ^ 2 /\ zi = 0.
Proof.
  intros Hshape. split.
  - intros Hl. unfold centerline. rewrite Hshape.
    destruct (border_pose (seg_border segment)) as [| p0 [| p1 rest]].
    + reflexivity.
    + reflexivity.
    + cbn in Hl. lia.
  - intros p0 p1 rest Hpose.
    assert (E0 : py_index (border_pose (seg_border segment)) 0 = Ok p0)
      by (rewrite Hpose; reflexivity).
    assert (E1 : py_index (border_pose (seg_border segment)) 1 = Ok p1).
    { rewrite Hpose. change 1%Z with (Z.of_nat 1).
      now rewrite py_index_nat. }
    destruct (sweep_angles dir
      (arctan2 (vy (seg_start segment) - p1) (vx (seg_start segment) - p0))
      (arctan2 (vy (seg_end segment) - p1) (vx (seg_end segment) - p0)))
      as [sa ea] eqn:Hsweep.
    pose proof (centerline_ring segment Hshape E0 E1 Hsweep) as Hc.
    cbv zeta in Hc. destruct Hc as [Hc _].
    do 3 eexists. split; [exact Hc |].
    rewrite !length_map, length_linspace_50.
    do 3 (split; [reflexivity |]).
    intros i xi yi zi Hx Hy Hz.
    rewrite nth_error_map in Hx, Hy, Hz. rewrite nth_error_map in Hz.
    destruct (nth_error (linspace sa ea 50) i) as [a |]; [| discriminate].
    cbn in Hx, Hy, Hz.
    injection Hx as <-. injection Hy as <-. injection Hz as <-.
    split; [| lra].
    pose proof (sin2_cos2 a) as Hsc. unfold Rsqr in Hsc.
    replace ((p0 + (rin + rout) * 0.5 * cos a - p0) ^ 2
             + (p1 + (rin + rout) * 0.5 * sin a - p1) ^ 2)
      with (((rin + rout) * 0.5) ^ 2 * (sin a * sin a + cos a * cos a))
      by ring.
    rewrite Hsc. ring.
Qed.

Lemma X6_witness :
  exists x y z,
    centerline arc1_segment = Ok (x, y, z) /\
    List.length x = 50%nat /\
    forall i xi yi zi,
      nth_error x i = Some xi -> nth_error y i = Some yi ->
      nth_error z i = Some zi ->
      (xi - 0) ^ 2 + (yi - 0) ^ 2 = ((0.9 + 1.1) * 0.5) ^ 2 /\ zi = 0.
Proof.
  destruct (X6_arc_centerline_on_circle arc1_segment
              (rin := 0.9) (rout := 1.1) (rs := mk_vec3 1 0 0)
              (re := mk_vec3 0 (-1) 0) (dir := CCW) eq_refl) as [_ H].
  destruct (H 0 0 [0; 0; 0; 0] eq_refl)
    as (x & y & z & Hc & Hx & _ & _ & Hall).
  exists x, y, z. auto.
Defined.

(** ** The time vector of one axis *)

Lemma length_time_steps (l prev a : R) (p : list R) :
  List.length (time_steps l prev (a :: p)) = List.length p.
Proof.
  revert prev a. induction p as [| b t IH]; intros prev a;
    [reflexivity |].
  change (time_steps l prev (a :: b :: t))
    with ((if Req_dec_T l 0 then 0 else prev + (b - a) / l)
          :: time_steps l (if Req_dec_T l 0 then 0 else prev + (b - a) / l)
               (b :: t)).
  cbn [List.length]. now rewrite IH.
Qed.

Lemma time_steps_nth (l prev a b : R) (p : list R) (j : nat) :
  l <> 0 -> nth_error p j = Some b ->
  nth_error (time_steps l prev (a :: p)) j = Some (prev + (b - a) / l).
Proof.
  intros Hl. revert prev a j.
  induction p as [| b0 t IH]; intros prev a j Hj.
  - destruct j; discriminate.
  - change (time_steps l prev (a :: b0 :: t))
      with ((if Req_dec_T l 0 then 0 else prev + (b0 - a) / l)
            :: time_steps l (if Req_dec_T l 0 then 0 else prev + (b0 - a) / l)
                 (b0 :: t)).
    destruct (Req_dec_T l 0) as [E | _]; [contradiction |].
    destruct j as [| j].
    + cbn in Hj. injection Hj as ->. reflexivity.
    + cbn [nth_error] in Hj |- *. rewrite (IH _ _ _ Hj).
      f_equal. field. exact Hl.
Qed.

(** X7. The time vector of an axis has one entry per sample.  On an axis
    whose last sample differs from its first, entry [k] is the signed
    fraction of the net displacement covered at sample [k], set to 1 when
    it is within [1e-5] below 1 or above it: the first entry is 0 and the
    last is 1.  On an axis all of whose samples are equal, every entry
    is 0. *)
Theorem X7_time_vector_fractions (a : R) (p : list R) :
  List.length (axis_time (a :: p)) = List.length (a :: p) /\
  (net_displacement (a :: p) <> 0 ->
   (forall k b,
      nth_error (a :: p) k = Some b ->
      nth_error (axis_time (a :: p)) k
      = Some (snap_to_one ((b - a) / net_displacement (a :: p)))) /\
   nth_error (axis_time (a :: p)) 0 = Some 0 /\
   last (axis_time (a :: p)) 0 = 1) /\
  (Forall (fun b => b = a) p ->
   Forall (fun t => t = 0) (axis_time (a :: p))).
Proof.
  split; [| split].
  - unfold axis_time, time_vector. rewrite length_map. cbn [List.length].
    now rewrite length_time_steps.
  - intros Hnet.
    assert (Hk : forall k b,
      nth_error (a :: p) k = Some b ->
      nth_error (axis_time (a :: p)) k
      = Some (snap_to_one ((b - a) / net_displacement (a :: p)))).
    { intros k b Hb. unfold axis_time, time_vector.
      rewrite nth_error_map, total_length_net.
      destruct k as [| k].
      - cbn in Hb. injection Hb as <-. cbn [nth_error option_map].
        f_equal. rewrite snap_to_one_0. unfold Rminus.
        rewrite Rplus_opp_r. unfold Rdiv. rewrite Rmult_0_l.
        now rewrite snap_to_one_0.
      - cbn [nth_error] in Hb |- *.
        rewrite (time_steps_nth 0 a (l := net_displacement (a :: p)) p k Hnet Hb).
        cbn [option_map]. f_equal. f_equal. lra. }
    split; [exact Hk |]. split.
    + unfold axis_time, time_vector. cbn [map nth_error].
      now rewrite snap_to_one_0.
    + destruct p as [| b t].
      { exfalso. apply Hnet. unfold net_displacement. cbn. lra. }
      assert (Hlen : nth_error (a :: b :: t) (List.length (b :: t))
                     = Some (last (b :: t) a)).
      { cbn [nth_error List.length].
        clear. revert b. induction t as [| c t IH]; intros b;
          [reflexivity |].
        cbn [List.length nth_error]. rewrite IH. reflexivity. }
      pose proof (Hk _ _ Hlen) as Hlast.
      assert (Efrac : (last (b :: t) a - a) / net_displacement (a :: b :: t)
                      = 1).
      { assert (Enet : net_displacement (a :: b :: t) = last (b :: t) a - a).
        { unfold net_displacement. cbn [hd].
          change (last (a :: b :: t) 0) with (last (b :: t) 0).
          now rewrite (last_default (l := b :: t) 0 a) by discriminate. }
        rewrite Enet in *. field. exact Hnet. }
      rewrite Efrac, snap_to_one_1 in Hlast.
      assert (Hl : List.length (axis_time (a :: b :: t))
                   = S (List.length (b :: t))).
      { unfold axis_time, time_vector. rewrite length_map.
        cbn [List.length]. now rewrite length_time_steps. }
      clear - Hlast Hl.
      revert Hlast Hl. generalize (axis_time (a :: b :: t)) as l.
      generalize (List.length (b :: t)) as n.
      intros n l. revert n. induction l as [| h l IH]; intros n Hn Hl.
      * discriminate.
      * destruct l as [| h' l'].
        -- cbn in Hl. assert (n = 0%nat) by lia. subst n.
           cbn in Hn. injection Hn as ->. reflexivity.
        -- rewrite last_cons_nonempty.
           rewrite (last_default (l := h' :: l') h 0) by discriminate.
           destruct n as [| n]; [cbn in Hl; lia |].
           apply (IH n); [exact Hn | cbn in Hl |- *; lia].
  - intros Hsame. apply all_zero_Forall. apply all_zero_axis_time.
    rewrite total_length_net. unfold net_displacement. cbn [hd].
    assert (Hlast : last (a :: p) 0 = a).
    { destruct (last_In (l := a :: p) 0) as [E | Hin]; [discriminate | |].
      - symmetry. exact E.
      - rewrite Forall_forall in Hsame. apply Hsame. exact Hin. }
    rewrite Hlast. lra.
Qed.

Lemma X7_witness :
  nth_error (axis_time [2; 3; 6]) 1 = Some (snap_to_one ((3 - 2) / 4)) /\
  last (axis_time [2; 3; 6]) 0 = 1 /\
  Forall (fun t => t = 0) (axis_time [2; 2; 2]).
Proof.
  destruct (X7_time_vector_fractions 2 [3; 6]) as (_ & Hm & _).
  assert (N1 : net_displacement [2; 3; 6] = 4)
    by (unfold net_displacement; cbn; lra).
  assert (N1' : net_displacement [2; 3; 6] <> 0) by (rewrite N1; lra).
  destruct (Hm N1') as (Hk & _ & Hl).
  pose proof (Hk 1%nat 3 eq_refl) as H1. rewrite N1 in H1.
  split; [exact H1 |]. split; [exact Hl |].
  destruct (X7_time_vector_fractions 2 [2; 2]) as (_ & _ & Hz).
  apply Hz. repeat constructor.
Defined.

(** ** Errors of the centerline guess generator *)

Lemma repeat_final_row_short (g0 : matrix) :
  (List.length g0 < 4)%nat -> repeat_final_row g0 = Error IndexError.
Proof.
  intros Hl. unfold repeat_final_row.
  destruct g0 as [| r0 [| r1 [| r2 [| r3 t]]]];
    [reflexivity | reflexivity | reflexivity | reflexivity
    | cbn in Hl; lia].
Qed.

Section GeneratorErrors.
Context {scipy : SciPy} {splines : SplineLib} {opti : OptiLayer}.

(** X8. On a segment whose centerline moves on some axis, the guess
    generator raises AttributeError when the tool has neither [vmax] nor
    all three axis limits, whatever its basis; with a speed limit, it
    raises IndexError when the tool's basis has fewer than 4 Greville
    points. *)
Theorem X8_generator_errors
    (self : Scheduler) (segment : Segment) (x y z : list R) :
  centerline segment = Ok (x, y, z) ->
  net_displacement x <> 0 \/ net_displacement y <> 0 \/
  net_displacement z <> 0 ->
  (veh_vmax (vehicle self) = None ->
   veh_vxmax (vehicle self) = None \/ veh_vymax (vehicle self) = None \/
   veh_vzmax (vehicle self) = None ->
   get_init_guess_new_segment self segment = Error AttributeError) /\
  (forall mv,
     max_vel (vehicle self) = Ok mv ->
     (List.length (greville (veh_basis (vehicle self))) < 4)%nat ->
     get_init_guess_new_segment self segment = Error IndexError).
Proof.
  intros Hc Hmove.
  rewrite <- !total_length_net in Hmove.
  destruct (interpolation_times_moving x y z Hmove) as [[[tx ty] tz] Ht].
  split.
  - intros Hv Hax. unfold get_init_guess_new_segment.
    rewrite Hc. cbn [bind]. rewrite Ht. cbn [bind].
    assert (E : max_vel (vehicle self) = Error AttributeError).
    { unfold max_vel. rewrite Hv.
      destruct (veh_vxmax (vehicle self)) as [vx' |]; [| reflexivity].
      destruct (veh_vymax (vehicle self)) as [vy' |]; [| reflexivity].
      destruct (veh_vzmax (vehicle self)) as [vz' |]; [| reflexivity].
      destruct Hax as [? | [? | ?]]; discriminate. }
    rewrite E. reflexivity.
  - intros mv Hmv Hl. unfold get_init_guess_new_segment.
    rewrite Hc. cbn [bind]. rewrite Ht. cbn [bind].
    rewrite Hmv. cbn [bind].
    rewrite repeat_final_row_short; [reflexivity |].
    unfold np_c3. rewrite length_map, !length_combine, !length_map.
    lia.
Qed.

End GeneratorErrors.

Lemma X8_witness :
  get_init_guess_new_segment (scipy := sample_scipy)
    (set_vehicle mid_run
       (@mk_Vehicle sample_splines 0.1 [Circle 0.5] origin
          ([0; 0; 0; 0; 1; 1; 1; 1], 3%nat) None (Some 1) None (Some 1)
          origin None None None None))
    line1_segment = Error AttributeError /\
  get_init_guess_new_segment (scipy := sample_scipy)
    (set_vehicle mid_run
       (@mk_Vehicle sample_splines 0.1 [Circle 0.5] origin
          ([0; 0; 1; 1], 1%nat) (Some 2) None None None
          origin None None None None))
    line1_segment = Error IndexError.
Proof.
  assert (Hc : centerline line1_segment = Ok ([0; 10], [0; 0], [0; 0]))
    by reflexivity.
  assert (Hm : net_displacement [0; 10] <> 0 \/ net_displacement [0; 0] <> 0
               \/ net_displacement [0; 0] <> 0).
  { left. unfold net_displacement. cbn. lra. }
  split.
  - apply (proj1 (X8_generator_errors (scipy := sample_scipy) _ line1_segment Hc Hm));
      [reflexivity | right; left; reflexivity].
  - apply (proj2 (X8_generator_errors (scipy := sample_scipy) _ line1_segment Hc Hm) 2);
      [reflexivity | cbn; lia].
Defined.

(** ** The guesses of a window: [get_init_guess] *)

Lemma accumulate_loop {K A B : Type} (h : K -> result (A * B))
      (f : list A * list B -> K -> result (list A * list B))
      (ks : list K) (acc res : list A * list B) :
  (forall acc k,
     f acc k = (r <- h k ;; Ok (fst acc ++ [fst r], snd acc ++ [snd r]))) ->
  for_each f ks acc = Ok res ->
  exists rs,
    Forall2 (fun k r => h k = Ok r) ks rs /\
    fst res = fst acc ++ map fst rs /\
    snd res = snd acc ++ map snd rs.
Proof.
  intros Hf. revert acc.
  induction ks as [| k ks IH]; intros acc Hloop.
  - cbn in Hloop. injection Hloop as <-. exists [].
    cbn. rewrite !app_nil_r. auto.
  - cbn [for_each] in Hloop. rewrite Hf in Hloop.
    destruct (h k) as [r | e] eqn:Hk; [| discriminate].
    cbn [bind] in Hloop.
    destruct (IH _ Hloop) as (rs & HF & H1 & H2).
    exists (r :: rs). split; [constructor; assumption |].
    cbn [fst snd map] in *. rewrite H1, H2, <- !app_assoc. auto.
Qed.

Section GuessWindow.
Context {scipy : SciPy} {splines : SplineLib} {opti : OptiLayer}.

Lemma get_init_guess_inv (self s' : Scheduler)
      (init_splines : list matrix) (times : list R) :
  get_init_guess self = Ok (s', (init_splines, times)) ->
  exists (guesses : list matrix * list R) (idx : list Z)
         (rs : list (matrix * R)) (v : Vehicle),
    (if has_previous_solution self then
       idx = [(Z.of_nat (n_segments self) - 1)%Z] /\
       exists (first : list matrix * list R) (kept : list (matrix * R)),
         (if (1 <? n_segments self)%nat then
            exists m T, get_init_guess_combined_segment self = Ok (m, T) /\
                        first = ([m], [T])
          else first = ([], [])) /\
         (if (2 <? n_segments self)%nat then
            Forall2
              (fun k r =>
                 exists vr, get_variables self = Ok vr /\
                            key (vr_coeffs vr) k = Ok (fst r) /\
                            key (vr_T vr) k = Ok (snd r))
              (seq 2 (n_segments self - 2)) kept
          else kept = []) /\
         guesses = (fst first ++ map fst kept, snd first ++ map snd kept)
     else guesses = ([], []) /\
          idx = map Z.of_nat (seq 0 (n_segments self))) /\
    Forall2
      (fun k r =>
         exists segment, py_index (segments self) k = Ok segment /\
                         get_init_guess_new_segment self segment = Ok r)
      idx rs /\
    init_splines = fst guesses ++ map fst rs /\
    times = snd guesses ++ map snd rs /\
    pass_on_to_vehicle self init_splines = Ok v /\
    s' = set_vehicle self v.
Proof.
  unfold get_init_guess. intros H.
  match type of H with
  | (bind ?m _) = _ => destruct m as [[guesses idx] |] eqn:Hpre;
                       [| discriminate]
  end.
  cbn [bind] in H.
  match type of H with
  | (bind ?m _) = _ => destruct m as [[spl tms] |] eqn:Hloop;
                       [| discriminate]
  end.
  cbn [bind] in H.
  destruct (pass_on_to_vehicle self spl) as [v |] eqn:Hv; [| discriminate].
  cbn [bind] in H.
  assert (Es : s' = set_vehicle self v) by congruence.
  assert (E1 : init_splines = spl) by congruence.
  assert (E2 : times = tms) by congruence.
  subst init_splines times. clear H.
  assert (Hbody : forall acc k,
    (segment <- py_index (segments self) k ;;
     '(init_spl, motion_time) <- get_init_guess_new_segment self segment ;;
     Ok (fst acc ++ [init_spl], snd acc ++ [motion_time]))
    = (r <- (segment <- py_index (segments self) k ;;
             get_init_guess_new_segment self segment) ;;
       Ok (fst acc ++ [fst r], snd acc ++ [snd r]))).
  { intros acc k. destruct (py_index (segments self) k) as [sg |];
      [| reflexivity].
    cbn [bind]. destruct (get_init_guess_new_segment self sg) as [[a b] |];
      reflexivity. }
  destruct (accumulate_loop _ _ _ _ Hbody Hloop) as (rs & HF & H1 & H2).
  cbn [fst snd] in H1, H2.
  exists guesses, idx, rs, v.
  split; [| split; [| split; [exact H1 | split; [exact H2 |
                                 split; [exact Hv | exact Es]]]]].
  - destruct (has_previous_solution self).
    + match type of Hpre with
      | (bind ?m _) = _ => destruct m as [first |] eqn:Hfirst;
                           [| discriminate]
      end.
      cbn [bind] in Hpre.
      match type of Hpre with
      | (bind ?m _) = _ => destruct m as [kept |] eqn:Hkept;
                           [| discriminate]
      end.
      cbn [bind] in Hpre.
      assert (Eg : guesses = kept) by congruence.
      assert (Ei : idx = [(Z.of_nat (n_segments self) - 1)%Z])
        by congruence.
      split; [exact Ei |].
      destruct (2 <? n_segments self)%nat.
      * assert (Hkbody : forall (acc : list matrix * list R) k,
          (vr <- get_variables self ;;
           spl <- key (vr_coeffs vr) k ;;
           vr <- get_variables self ;;
           T <- key (vr_T vr) k ;;
           Ok (fst acc ++ [spl], snd acc ++ [T]))
          = (r <- (vr <- get_variables self ;;
                   spl <- key (vr_coeffs vr) k ;;
                   vr <- get_variables self ;;
                   T <- key (vr_T vr) k ;;
                   Ok (spl, T)) ;;
             Ok (fst acc ++ [fst r], snd acc ++ [snd r]))).
        { intros acc k. destruct (get_variables self) as [vr |];
            [| reflexivity].
          cbn [bind]. destruct (key (vr_coeffs vr) k); [| reflexivity].
          cbn [bind]. destruct (key (vr_T vr) k); reflexivity. }
        destruct (accumulate_loop _ _ _ _ Hkbody Hkept)
          as (ks & HK & K1 & K2).
        exists first, ks. split; [| split].
        -- destruct (1 <? n_segments self)%nat.
           ++ destruct (get_init_guess_combined_segment self) as [[m T] |];
                [| discriminate].
              cbn [bind] in Hfirst. exists m, T. split; congruence.
           ++ congruence.
        -- eapply Forall2_impl; [| exact HK].
           intros k r Hr. cbn beta in Hr.
           destruct (get_variables self) as [vr |]; [| discriminate].
           cbn [bind] in Hr. exists vr. split; [reflexivity |].
           destruct (key (vr_coeffs vr) k) as [c |]; [| discriminate].
           cbn [bind] in Hr.
           destruct (key (vr_T vr) k) as [T |]; [| discriminate].
           cbn [bind] in Hr. injection Hr as <-. auto.
        -- rewrite Eg. destruct kept as [k1 k2]. cbn [fst snd] in K1, K2.
           congruence.
      * exists first, []. split; [| split; [reflexivity |]].
        -- destruct (1 <? n_segments self)%nat.
           ++ destruct (get_init_guess_combined_segment self) as [[m T] |];
                [| discriminate].
              cbn [bind] in Hfirst. exists m, T. split; congruence.
           ++ congruence.
        -- cbn [map]. rewrite !app_nil_r.
           assert (Ek : kept = first) by congruence.
           rewrite Eg, Ek. now destruct first.
    + split; congruence.
  - eapply Forall2_impl; [| exact HF].
    intros k r Hr. cbn beta in Hr.
    destruct (py_index (segments self) k) as [seg |]; [| discriminate].
    cbn [bind] in Hr. exists seg. auto.
Qed.

End GuessWindow.

Lemma Forall2_nth_error_l {A B : Type} (P : A -> B -> Prop) la lb i a :
  Forall2 P la lb -> nth_error la i = Some a ->
  exists b, nth_error lb i = Some b /\ P a b.
Proof.
  intros H; revert i; induction H as [| x y la lb Hxy H IH]; intros [| i] Hi;
    try discriminate.
  - cbn in Hi. injection Hi as <-. exists y. split; [reflexivity | exact Hxy].
  - cbn in Hi |- *. now apply IH.
Qed.

Section GuessWindowTheorems.
Context {scipy : SciPy} {splines : SplineLib} {opti : OptiLayer}.

Lemma get_init_guess_lengths (self s' : Scheduler)
      (init_splines : list matrix) (times : list R) :
  get_init_guess self = Ok (s', (init_splines, times)) ->
  (1 <= n_segments self)%nat \/ has_previous_solution self = false ->
  List.length init_splines = n_segments self /\
  List.length times = n_segments self.
Proof.
  intros H HN.
  destruct (get_init_guess_inv _ H)
    as (guesses & idx & rs & v & Hpre & HF & E1 & E2 & _ & _).
  pose proof (Forall2_length_eq HF) as HL.
  rewrite E1, E2, !length_app, !length_map.
  destruct (has_previous_solution self).
  - destruct HN as [HN | HN]; [| discriminate].
    destruct Hpre as (-> & first & kept & Hfirst & Hkept & ->).
    cbn [fst snd List.length] in *. rewrite !length_app, !length_map.
    assert (Hk : List.length kept = (n_segments self - 2)%nat).
    { destruct (Nat.ltb_spec 2 (n_segments self)).
      - rewrite <- (Forall2_length_eq Hkept). apply length_seq.
      - subst kept. cbn. lia. }
    destruct (Nat.ltb_spec 1 (n_segments self)).
    + destruct Hfirst as (m & T & _ & ->). cbn [fst snd List.length]. lia.
    + subst first. cbn [fst snd List.length]. lia.
  - destruct Hpre as (-> & ->).
    rewrite length_map, length_seq in HL. cbn [fst snd List.length]. lia.
Qed.

(** X9. When [get_init_guess] returns on a window of at least one slot,
    it returns one guess and one motion time per slot, with or without a
    previous solution. *)
Theorem X9_one_guess_per_slot (self s' : Scheduler)
    (init_splines : list matrix) (times : list R) :
  get_init_guess self = Ok (s', (init_splines, times)) ->
  (1 <= n_segments self)%nat ->
  List.length init_splines = n_segments self /\
  List.length times = n_segments self.
Proof.
  intros H HN. apply (get_init_guess_lengths _ H). left. exact HN.
Qed.

(** X10. [get_init_guess] assigns no attribute of the scheduler; it
    passes to the tool the returned guesses with the window length, the
    current state as initial condition (with the last input sample when
    the tool has signals, which must then exist), and the exit point of
    the last window segment as terminal condition. *)
Theorem X10_guess_passed_to_tool (self s' : Scheduler)
    (init_splines : list matrix) (times : list R) :
  get_init_guess self = Ok (s', (init_splines, times)) ->
  exists v last,
    s' = set_vehicle self v /\
    py_index (segments self) (-1) = Ok last /\
    veh_init_spline_values v = Some (init_splines, n_segments self) /\
    veh_terminal_conditions v = Some (seg_end last) /\
    match veh_signals (vehicle self) with
    | None => veh_initial_conditions v = Some (curr_state self, None)
    | Some signals =>
        exists input,
          py_index (sig_input signals) (-1) = Ok input /\
          veh_initial_conditions v = Some (curr_state self, Some input)
    end.
Proof.
  intros H.
  destruct (get_init_guess_inv _ H)
    as (guesses & idx & rs & v & _ & _ & _ & _ & Hv & Es).
  unfold pass_on_to_vehicle in Hv.
  destruct (veh_signals (vehicle self)) as [signals |] eqn:Hsig.
  - destruct (py_index (sig_input signals) (-1)) as [input |] eqn:Hin;
      [| discriminate].
    cbn [bind] in Hv.
    destruct (py_index (segments self) (-1)) as [last |]; [| discriminate].
    cbn [bind] in Hv. exists v, last. injection Hv as <-. cbn.
    split; [exact Es |]. do 3 (split; [reflexivity |]).
    exists input. auto.
  - cbn [bind] in Hv.
    destruct (py_index (segments self) (-1)) as [last |]; [| discriminate].
    cbn [bind] in Hv. exists v, last. injection Hv as <-. cbn.
    split; [exact Es |]. do 3 (split; [reflexivity |]). reflexivity.
Qed.

(** X11. With a previous solution and a window of at least two slots, the
    guesses of [get_init_guess] are the optimiser's values moved one slot
    forward: slot 0 holds the stitched guess with motion time [T0 + T1],
    slot [k - 1] holds the coefficients and the time of the old slot [k]
    for [2 <= k < n_segments], and only the last slot holds a centerline
    guess, for the segment at position [n_segments - 1] of the window. *)
Theorem X11_warm_start_shifts_slots (self s' : Scheduler)
    (init_splines : list matrix) (times : list R) :
  has_previous_solution self = true ->
  (2 <= n_segments self)%nat ->
  get_init_guess self = Ok (s', (init_splines, times)) ->
  exists vr,
    get_variables self = Ok vr /\
    (exists m T0 T1,
       nth_error (vr_T vr) 0 = Some T0 /\
       nth_error (vr_T vr) 1 = Some T1 /\
       get_init_guess_combined_segment self = Ok (m, T0 + T1) /\
       nth_error init_splines 0 = Some m /\
       nth_error times 0 = Some (T0 + T1)) /\
    (forall k,
       (2 <= k < n_segments self)%nat ->
       exists c T,
         nth_error (vr_coeffs vr) k = Some c /\
         nth_error (vr_T vr) k = Some T /\
         nth_error init_splines (k - 1) = Some c /\
         nth_error times (k - 1) = Some T) /\
    (exists segment g T,
       nth_error (segments self) (n_segments self - 1) = Some segment /\
       get_init_guess_new_segment self segment = Ok (g, T) /\
       nth_error init_splines (n_segments self - 1) = Some g /\
       nth_error times (n_segments self - 1) = Some T).
Proof.
  intros Hprev HN H.
  destruct (get_init_guess_inv _ H)
    as (guesses & idx & rs & v & Hpre & HF & E1 & E2 & _ & _).
  rewrite Hprev in Hpre.
  destruct Hpre as (-> & first & kept & Hfirst & Hkept & ->).
  destruct (Nat.ltb_spec 1 (n_segments self)) as [_ | ?]; [| lia].
  destruct Hfirst as (m & T & Hcomb & ->).
  cbn [fst snd] in E1, E2.
  assert (Hvr : exists vr, get_variables self = Ok vr).
  { unfold get_init_guess_combined_segment in Hcomb.
    destruct (get_variables self) as [vr |]; [eauto | discriminate]. }
  destruct Hvr as [vr Hvr]. exists vr. split; [exact Hvr |].
  assert (Hk : List.length kept = (n_segments self - 2)%nat).
  { destruct (Nat.ltb_spec 2 (n_segments self)).
    - rewrite <- (Forall2_length_eq Hkept). apply length_seq.
    - subst kept. cbn. lia. }
  inversion HF as [| k0 r0 ks0 rs0 (segment & Hseg & Hgen) HF' Ek Er].
  inversion HF'. subst.
  split; [| split].
  - pose proof Hcomb as Hcomb0.
    unfold get_init_guess_combined_segment in Hcomb. rewrite Hvr in Hcomb.
    cbn [bind] in Hcomb.
    destruct (key (vr_splines vr) 0) as [spl1 |]; [| discriminate].
    cbn [bind] in Hcomb.
    destruct (key (vr_splines vr) 1) as [spl2 |]; [| discriminate].
    cbn [bind] in Hcomb.
    unfold key in Hcomb.
    destruct (nth_error (vr_T vr) 0) as [T0 |]; [| discriminate].
    cbn [of_option bind] in Hcomb.
    destruct (nth_error (vr_T vr) 1) as [T1 |]; [| discriminate].
    cbn [of_option bind] in Hcomb.
    destruct (for_each _ _ _) as [coeffs |]; [| discriminate].
    cbn [bind] in Hcomb.
    assert (ET : T = T0 + T1) by congruence. subst T.
    exists m, T0, T1.
    split; [reflexivity |]. split; [reflexivity |].
    split; [exact Hcomb0 |]. split; reflexivity.
  - intros k Hk2.
    destruct (Nat.ltb_spec 2 (n_segments self)) as [_ | ?]; [| lia].
    assert (Hseq : nth_error (seq 2 (n_segments self - 2)) (k - 2) = Some k).
    { rewrite nth_error_seq.
      destruct (Nat.ltb_spec (k - 2) (n_segments self - 2)); [| lia].
      f_equal. lia. }
    destruct (Forall2_nth_error_l _ Hkept Hseq)
      as ([c Tk] & Hnth & vr' & Hvr' & Hc & HT).
    rewrite Hvr in Hvr'. injection Hvr' as <-.
    cbn [fst snd] in Hc, HT. unfold key in Hc, HT.
    destruct (nth_error (vr_coeffs vr) k) as [c' |]; [| discriminate].
    destruct (nth_error (vr_T vr) k) as [T' |]; [| discriminate].
    cbn in Hc, HT. injection Hc as ->. injection HT as ->.
    exists c, Tk. split; [reflexivity |]. split; [reflexivity |].
    replace (k - 1)%nat with (S (k - 2)) by lia.
    split.
    + cbn [app nth_error]. rewrite nth_error_app1, nth_error_map, Hnth;
        [reflexivity | rewrite length_map; lia].
    + cbn [app nth_error]. rewrite nth_error_app1, nth_error_map, Hnth;
        [reflexivity | rewrite length_map; lia].
  - replace (Z.of_nat (n_segments self) - 1)%Z
      with (Z.of_nat (n_segments self - 1)) in Hseg by lia.
    rewrite py_index_nat in Hseg.
    destruct (nth_error (segments self) (n_segments self - 1)) as [sg |];
      [| discriminate].
    cbn in Hseg. injection Hseg as ->.
    destruct r0 as [g Tg]. exists segment, g, Tg.
    split; [reflexivity |]. split; [exact Hgen |].
    replace (n_segments self - 1)%nat with (S (List.length kept)) by lia.
    cbn [app nth_error map fst snd].
    split.
    + rewrite nth_error_app2; rewrite length_map; [| lia].
      now rewrite Nat.sub_diag.
    + rewrite nth_error_app2; rewrite length_map; [| lia].
      now rewrite Nat.sub_diag.
Qed.

End GuessWindowTheorems.

(** *** Sample windows with a previous solution *)

Lemma mid_run_guess :
  exists s' g T,
    get_init_guess (scipy := sample_scipy) mid_run = Ok (s', ([g], [T])).
Proof.
  destruct line1_guess_exists as (g & T & Hgen).
  unfold get_init_guess.
  change (has_previous_solution mid_run) with true. cbn [bind].
  change ((1 <? n_segments mid_run)%nat) with false.
  change ((2 <? n_segments mid_run)%nat) with false.
  cbn [bind for_each].
  change (Z.of_nat (n_segments mid_run) - 1)%Z with (Z.of_nat 0).
  rewrite py_index_nat.
  change (nth_error (segments mid_run) 0) with (Some line1_segment).
  cbn [of_option bind]. rewrite Hgen. cbn [bind fst snd app].
  unfold pass_on_to_vehicle.
  change (veh_signals (vehicle mid_run)) with (@None Signals).
  cbn [bind].
  change (segments mid_run) with ([] ++ [line1_segment]).
  rewrite py_index_last. cbn [bind]. do 3 eexists. reflexivity.
Qed.

Lemma hat_functions (x : R) :
  0 <= x < 2 ->
  bspline [0 * (1 + 1); 0 * (1 + 1); 1 * (1 + 1); 1 * (1 + 1)] 1 0 x
  = (2 - x) / 2 /\
  bspline [0 * (1 + 1); 0 * (1 + 1); 1 * (1 + 1); 1 * (1 + 1)] 1 1 x
  = x / 2.
Proof.
  intros Hx. cbn -[Rplus Rmult Rminus Rdiv].
  repeat match goal with
         | |- context [Req_dec_T ?a ?b] => destruct (Req_dec_T a b)
         | |- context [Rle_dec ?a ?b] => destruct (Rle_dec a b)
         | |- context [Rlt_dec ?a ?b] => destruct (Rlt_dec a b)
         end; lra.
Qed.

Lemma gauss_2x2 (a b c d e f : R) :
  a <> 0 -> d - c / a * b <> 0 ->
  exists x0 x1, gauss 2 [[a; b; e]; [c; d; f]] = Ok [x0; x1].
Proof.
  intros Ha Hd. cbn -[Rplus Rmult Rminus Rdiv].
  destruct (Req_dec_T a 0) as [E | _]; [contradiction |].
  cbn -[Rplus Rmult Rminus Rdiv].
  destruct (Req_dec_T (d - c / a * b) 0) as [E | _]; [contradiction |].
  cbn -[Rplus Rmult Rminus Rdiv]. do 2 eexists. reflexivity.
Qed.

Lemma stitch_ramp_ok (l : nat) :
  (l < 3)%nat ->
  exists x0 x1,
    stitch_axis (scipy := sample_scipy) (splines := sample_splines) (1 + 1)
      (knot_concat [[ramp; ramp; ramp]; [ramp; ramp; ramp]] [1; 1])
      l ramp = Ok [x0; x1].
Proof.
  intros Hl.
  assert (H0 : 0 <= (0 * (1 + 1) + 0) / INR 1
                    + ((1 * (1 + 1) + 0) / INR 1
                       - (0 * (1 + 1) + 0) / INR 1) * 0.01 < 2)
    by (change (INR 1) with 1; lra).
  assert (H1 : 0 <= (1 * (1 + 1) + 0) / INR 1
                    - ((1 * (1 + 1) + 0) / INR 1
                       - ((0 * (1 + 1) + 0) / INR 1
                          + ((1 * (1 + 1) + 0) / INR 1
                             - (0 * (1 + 1) + 0) / INR 1) * 0.01)) * 0.01
                    < 2)
    by (change (INR 1) with 1; lra).
  destruct (hat_functions H0) as [A0 B0].
  destruct (hat_functions H1) as [A1 B1].
  destruct l as [| [| [| l]]]; [| | | lia];
    (unfold stitch_axis;
     cbn -[bspline Rplus Rmult Rminus Rdiv INR Pos.to_nat];
     change (Pos.to_nat 1) with 1%nat;
     cbn [nth_error of_option bind set_nth];
     unfold gauss_solve;
     cbn [map List.length combine fst snd app];
     rewrite A0, B0, A1, B1;
     apply gauss_2x2; change (INR 1) with 1; lra).
Qed.

Lemma warm_run_stitched :
  exists m,
    get_init_guess_combined_segment (scipy := sample_scipy) warm_run
    = Ok (m, 1 + 1).
Proof.
  destruct (stitch_ramp_ok (l := 0)) as (a0 & b0 & H0); [lia |].
  destruct (stitch_ramp_ok (l := 1)) as (a1 & b1 & H1); [lia |].
  destruct (stitch_ramp_ok (l := 2)) as (a2 & b2 & H2); [lia |].
  set (c0 := [a0; b0]) in H0. set (c1 := [a1; b1]) in H1.
  set (c2 := [a2; b2]) in H2.
  unfold get_init_guess_combined_segment.
  change (get_variables warm_run) with (Ok warm_answer). cbn [bind].
  change (key (vr_splines warm_answer) 0) with (Ok [ramp; ramp; ramp]).
  change (key (vr_splines warm_answer) 1) with (Ok [ramp; ramp; ramp]).
  change (key (vr_T warm_answer) 0) with (Ok 1).
  change (key (vr_T warm_answer) 1) with (Ok 1).
  cbn [bind List.length seq combine for_each fst snd].
  change (@concat_splines sample_splines) with knot_concat.
  eexists.
  repeat match goal with
         | |- context [@stitch_axis ?sc ?sp ?T ?spl 0%nat ?s] =>
             replace (@stitch_axis sc sp T spl 0%nat s) with (Ok c0)
               by (symmetry; exact H0)
         | |- context [@stitch_axis ?sc ?sp ?T ?spl 1%nat ?s] =>
             replace (@stitch_axis sc sp T spl 1%nat s) with (Ok c1)
               by (symmetry; exact H1)
         | |- context [@stitch_axis ?sc ?sp ?T ?spl 2%nat ?s] =>
             replace (@stitch_axis sc sp T spl 2%nat s) with (Ok c2)
               by (symmetry; exact H2)
         end.
  cbn [bind app]. reflexivity.
Qed.

Lemma warm_run_guess :
  exists s' m g T,
    get_init_guess (scipy := sample_scipy) warm_run
    = Ok (s', ([m; [[7; 8; 9]]; g], [1 + 1; 6; T])).
Proof.
  destruct (line_guess_total (scipy := sample_scipy) warm_run line3_segment
              (w := 10) (h := 0.1) (o := PI) (mv := 2))
    as (g & T & Hgen).
  { reflexivity. }
  { cbn. intros H. injection H as H. lra. }
  { reflexivity. }
  { cbn. lia. }
  destruct warm_run_stitched as [m Ec].
  unfold get_init_guess.
  change (has_previous_solution warm_run) with true. cbn [bind].
  change ((1 <? n_segments warm_run)%nat) with true.
  change ((2 <? n_segments warm_run)%nat) with true.
  rewrite Ec. cbn [bind].
  change (seq 2 (n_segments warm_run - 2)) with [2%nat].
  change (get_variables warm_run) with (Ok warm_answer).
  cbn [bind for_each].
  change (key (vr_coeffs warm_answer) 2) with (Ok [[7; 8; 9]]).
  change (key (vr_T warm_answer) 2) with (Ok 6).
  cbn [bind for_each fst snd app].
  change (Z.of_nat (n_segments warm_run) - 1)%Z with (Z.of_nat 2).
  rewrite py_index_nat.
  change (nth_error (segments warm_run) 2) with (Some line3_segment).
  cbn [of_option bind]. rewrite Hgen. cbn [bind fst snd app].
  unfold pass_on_to_vehicle.
  change (veh_signals (vehicle warm_run)) with (@None Signals).
  cbn [bind].
  change (segments warm_run)
    with ([line1_segment; line2_segment] ++ [line3_segment]).
  rewrite py_index_last. cbn [bind]. do 4 eexists. reflexivity.
Qed.

Lemma X9_witness :
  exists s' init_splines times,
    get_init_guess (scipy := sample_scipy) warm_run
    = Ok (s', (init_splines, times)) /\
    List.length init_splines = 3%nat /\ List.length times = 3%nat.
Proof.
  destruct warm_run_guess as (s' & m & g & T & H).
  exists s', [m; [[7; 8; 9]]; g], [1 + 1; 6; T]. split; [exact H |].
  apply (X9_one_guess_per_slot (scipy := sample_scipy) _ H). cbn. lia.
Defined.

Lemma X10_witness :
  exists s' v g,
    s' = set_vehicle mid_run v /\
    veh_init_spline_values v = Some ([g], 1%nat) /\
    veh_terminal_conditions v = Some (mk_vec3 10 0 0) /\
    veh_initial_conditions v = Some (mk_vec3 4 0 0, None).
Proof.
  destruct mid_run_guess as (s' & g & T & H).
  destruct (X10_guess_passed_to_tool (scipy := sample_scipy) _ H)
    as (v & last & Es & Hl & Hi & Ht & Hc).
  change (py_index (segments mid_run) (-1)) with (Ok line1_segment) in Hl.
  injection Hl as <-.
  exists s', v, g. auto.
Defined.

Lemma X11_witness :
  exists s' init_splines times,
    get_init_guess (scipy := sample_scipy) warm_run
    = Ok (s', (init_splines, times)) /\
    nth_error times 0 = Some (1 + 1) /\
    nth_error init_splines 1 = Some [[7; 8; 9]] /\
    nth_error times 1 = Some 6.
Proof.
  destruct warm_run_guess as (s' & m & g & T & H).
  exists s', [m; [[7; 8; 9]]; g], [1 + 1; 6; T]. split; [exact H |].
  destruct (X11_warm_start_shifts_slots (scipy := sample_scipy) warm_run
              eq_refl (le_S _ _ (le_n 2)) H)
    as (vr & Hvr & (m' & T0 & T1 & H0 & H1 & _ & _ & Ht0) & Hk & _).
  destruct (Hk 2%nat (conj (le_n 2) (le_n 3))) as (c & Tk & Hc & HT & Hs & Ht).
  change (get_variables warm_run) with (Ok warm_answer) in Hvr.
  assert (Evr : vr = warm_answer) by congruence. subst vr.
  assert (E0 : T0 = 1) by (cbn in H0; congruence).
  assert (E1 : T1 = 1) by (cbn in H1; congruence).
  assert (Ec : c = [[7; 8; 9]]) by (cbn in Hc; congruence).
  assert (ET : Tk = 6) by (cbn in HT; congruence).
  subst T0 T1 c Tk.
  split; [exact Ht0 |]. split; [exact Hs | exact Ht].
Defined.

(** ** Runs of the scheduler *)

Section Runs.
Context {scipy : SciPy} {splines : SplineLib} {opti : OptiLayer}.

Lemma update_segments_keeps (self s2 : Scheduler) :
  update_segments self = Ok s2 ->
  ((1 <= n_segments self)%nat ->
   List.length (motion_times s2) = n_segments self) /\
  n_segments s2 = n_segments self /\
  goal_state s2 = goal_state self /\
  cnt s2 = cnt self /\
  update_times s2 = update_times self /\
  curr_state s2 = curr_state self.
Proof.
  unfold update_segments. cbn.
  destruct (py_index (environment self) _) as [room |]; [| discriminate].
  cbn [bind].
  destruct (create_segment (n_current_block self) room) as [new |];
    [| discriminate].
  cbn [bind].
  destruct (get_init_guess _) as [[s [guess times]] |] eqn:Hg;
    [| discriminate].
  cbn [bind]. intros E. injection E as <-.
  split.
  - intros HN.
    destruct (get_init_guess_lengths _ Hg) as [_ Hl]; [left; exact HN |].
    exact Hl.
  - destruct (get_init_guess_frame _ Hg) as [v ->]. cbn. auto 10.
Qed.

Lemma reinitialize_keeps (s0 s : Scheduler) :
  reinitialize s0 = Ok s ->
  local_problem s0 = None ->
  List.length (motion_times s) = n_segments s0 /\
  (1 <= n_segments s0)%nat /\
  (exists lp, local_problem s = Some lp) /\
  n_segments s = n_segments s0 /\
  goal_state s = goal_state s0 /\
  cnt s = List.length (environment s0) /\
  update_times s = update_times s0 /\
  curr_state s = curr_state s0.
Proof.
  intros H Hfresh.
  destruct (reinitialize_inv _ H Hfresh) as (_ & _ & _ & Hlen & _ & _).
  revert H. unfold reinitialize.
  destruct (for_each _ _ _) as [sa |] eqn:Hloop; [| discriminate].
  cbn [bind].
  apply create_segments_loop with (c := n_current_block s0) in Hloop;
    [| reflexivity].
  destruct Hloop as (segs & -> & HF).
  destruct (get_init_guess _) as [[sb [guess times]] |] eqn:Hg;
    [| discriminate].
  cbn [bind]. intros H. injection H as <-.
  destruct (get_init_guess_lengths _ Hg) as [_ Hl].
  { right. apply has_previous_solution_fresh. exact Hfresh. }
  pose proof (get_init_guess_nonempty _ Hg) as Hne.
  destruct (get_init_guess_frame _ Hg) as [v ->].
  cbn in Hl, Hne, Hlen |- *.
  assert (1 <= n_segments s0)%nat.
  { rewrite <- Hlen. destruct segs; [congruence | cbn; lia]. }
  split; [exact Hl |]. split; [assumption |]. split; [eauto |]. auto 10.
Qed.

(** One call of [solve], with the two reads that follow the local
    solve. *)
Lemma solve_state (self s' : Scheduler) (current_time update_time : R) :
  solve self current_time update_time = Ok s' ->
  exists valid s1,
    check_segments self = Ok valid /\
    (if negb valid
     then exists s2,
         update_segments
           (set_n_current_block self (n_current_block self + 1)) = Ok s2 /\
         s1 = set_local_problem s2
                (Some (reset_init_guess (generate_problem s2)
                                        (init_guess s2)))
     else refresh_motion_times self = Ok s1) /\
    exists lp lp' v u x,
      local_problem s1 = Some lp /\
      problem_solve lp (vehicle s1) current_time update_time = Ok (lp', v) /\
      py_index (problem_update_times lp') (-1) = Ok u /\
      match veh_signals v with
      | None => x = veh_prediction_state v
      | Some signals => py_index (sig_state signals) (-1) = Ok x
      end /\
      s' = set_curr_state
             (set_update_times
                (set_vehicle (set_local_problem s1 (Some lp')) v)
                (update_times s1 ++ [u]))
             x.
Proof.
  unfold solve.
  destruct (check_segments self) as [valid |]; [| discriminate].
  cbn [bind]. intros H. exists valid.
  match type of H with
  | (bind ?m _) = _ => destruct m as [s1 |] eqn:Hbranch; [| discriminate]
  end.
  cbn [bind] in H. exists s1. split; [reflexivity |]. split.
  - destruct (negb valid); [| exact Hbranch].
    destruct (update_segments _) as [s2 |]; [| discriminate].
    cbn [bind] in Hbranch. exists s2. split; [reflexivity | congruence].
  - unfold attr in H.
    destruct (local_problem s1) as [lp |]; [| discriminate].
    cbn [of_option bind] in H.
    destruct (problem_solve lp (vehicle s1) current_time update_time)
      as [[lp' v] |] eqn:Hps; [| discriminate].
    cbn [bind] in H.
    destruct (py_index (problem_update_times lp') (-1)) as [u |] eqn:Hu;
      [| discriminate].
    cbn [bind] in H. cbn in H.
    destruct (veh_signals v) as [signals |] eqn:Hsig.
    + destruct (py_index (sig_state signals) (-1)) as [x |] eqn:Hx;
        [| discriminate].
      cbn [bind] in H.
      assert (Es : s' = set_curr_state
                (set_update_times
                   (set_vehicle (set_local_problem s1 (Some lp')) v)
                   (update_times s1 ++ [u])) x) by congruence.
      exists lp, lp', v, u, x. rewrite Hsig.
      split; [reflexivity |]. split; [exact Hps |].
      split; [exact Hu |]. split; [exact Hx | exact Es].
    + assert (Es : s' = set_curr_state
                (set_update_times
                   (set_vehicle (set_local_problem s1 (Some lp')) v)
                   (update_times s1 ++ [u])) (veh_prediction_state v))
        by congruence.
      exists lp, lp', v, u, (veh_prediction_state v). rewrite Hsig.
      split; [reflexivity |]. split; [exact Hps |].
      split; [exact Hu |]. split; [reflexivity | exact Es].
Qed.

Lemma solve_keeps (self s' : Scheduler) (current_time update_time : R) :
  solve self current_time update_time = Ok s' ->
  (1 <= n_segments self)%nat ->
  List.length (motion_times self) = n_segments self ->
  List.length (motion_times s') = n_segments self /\
  (exists lp, local_problem s' = Some lp) /\
  n_segments s' = n_segments self /\
  goal_state s' = goal_state self /\
  cnt s' = cnt self.
Proof.
  intros H HN Hm.
  destruct (solve_state _ _ _ H)
    as (valid & s1 & _ & Hbranch & lp & lp' & v & u & x & _ & _ & _ & _ & ->).
  cbn.
  destruct (negb valid).
  - destruct Hbranch as (s2 & Hup & ->).
    destruct (update_segments_keeps _ Hup) as (Hl & Hn & Hg & Hc & _).
    specialize (Hl HN). cbn in *. eauto 10.
  - destruct (refresh_motion_times_inv _ Hbranch) as (m & -> & Hl & _).
    cbn. split; [congruence |]. eauto 10.
Qed.

Lemma init_scheduler_state (tool : Vehicle) (GCode : list Block)
      (n : option nat) (s0 : Scheduler) :
  init_scheduler tool GCode n = Ok s0 ->
  s0 = mk_Scheduler (get_environment GCode (veh_tolerance tool)) tool 0
         (veh_prediction_state tool) (veh_poseT tool) []
         (match n with Some k => k | None => 1%nat end) [] 0 [] [] None.
Proof.
  unfold init_scheduler.
  destruct (py_index (veh_shapes tool) 0) as [[r |] |]; try discriminate.
  cbn [bind]. congruence.
Qed.

Lemma reachable_keeps tool GCode n (s : Scheduler) :
  reachable tool GCode n s ->
  List.length (motion_times s) = n_segments s /\
  (1 <= n_segments s)%nat /\
  (exists lp, local_problem s = Some lp) /\
  n_segments s = match n with Some k => k | None => 1%nat end /\
  goal_state s = veh_poseT tool /\
  cnt s = List.length GCode.
Proof.
  induction 1 as [s0 s Hinit Hre | s ct ut s' _ IH Hsolve
                  | s v _ IH | s lp lp' _ IH _].
  - apply init_scheduler_state in Hinit. subst s0.
    destruct (reinitialize_keeps _ Hre eq_refl)
      as (Hl & HN & Hlp & Hn & Hg & Hc & _).
    cbn in *. rewrite Hn. unfold get_environment in Hc.
    rewrite length_map in Hc. auto 10.
  - destruct IH as (Hl & HN & _ & Hn & Hg & Hc).
    destruct (solve_keeps _ _ _ Hsolve HN Hl) as (Hl' & Hlp' & Hn' & Hg' & Hc').
    rewrite Hn'. split; [exact Hl' |]. split; [exact HN |].
    split; [exact Hlp' |]. split; [exact Hn |]. split; congruence.
  - exact IH.
  - destruct IH as (Hl & HN & _ & Hn & Hg & Hc). cbn. eauto 10.
Qed.

End Runs.

Lemma get_init_guess_new_segment_vehicle
      {scipy : SciPy} {splines : SplineLib} {opti : OptiLayer}
      (s1 s2 : Scheduler) (segment : Segment) :
  vehicle s1 = vehicle s2 ->
  get_init_guess_new_segment s1 segment
  = get_init_guess_new_segment s2 segment.
Proof. intros E. unfold get_init_guess_new_segment. now rewrite E. Qed.

Section RunTheorems.
Context {scipy : SciPy} {splines : SplineLib} {opti : OptiLayer}.

(** X12. In every reachable state the scheduler holds one motion time per
    window slot and a local problem; the look-ahead is the constructor's
    value (1 by default) and at least 1; the goal state is the tool's
    target pose and [cnt] is the number of blocks of the program. *)
Theorem X12_reachable_state_invariants tool GCode n (s : Scheduler) :
  reachable tool GCode n s ->
  List.length (motion_times s) = n_segments s /\
  List.length (segments s) = n_segments s /\
  (1 <= n_segments s)%nat /\
  n_segments s = match n with Some k => k | None => 1%nat end /\
  (exists lp, local_problem s = Some lp) /\
  goal_state s = veh_poseT tool /\
  cnt s = List.length GCode.
Proof.
  intros Hr.
  destruct (reachable_keeps Hr) as (Hl & HN & Hlp & Hn & Hg & Hc).
  destruct (reachable_window Hr) as ((Hw & _) & _).
  auto 10.
Qed.

(** X13. In a reachable state [stop_criterium] never raises.  It returns
    [False] in every reachable state of a run whose tool's target pose is
    not the end point of a block of the program: such a run never
    stops. *)
Theorem X13_stop_criterium_reachable tool GCode n (s : Scheduler)
    (current_time update_time : R) :
  reachable tool GCode n s ->
  (exists r, stop_criterium s current_time update_time = Ok r) /\
  ((forall block, In block GCode -> block_end block <> veh_poseT tool) ->
   stop_criterium s current_time update_time = Ok (Some false)).
Proof.
  intros Hr.
  destruct (reachable_keeps Hr) as (_ & HN & (lp & Hlp) & _ & Hg & _).
  destruct (reachable_window Hr) as ((Hw & _ & Hseg) & Henv).
  assert (Hlast : exists last,
             py_index (segments s) (-1) = Ok last /\
             nth_error (segments s) (n_segments s - 1) = Some last).
  { change (-1)%Z with (- Z.of_nat 1)%Z. rewrite py_index_neg by lia.
    destruct (Nat.leb_spec 1 (List.length (segments s))); [| lia].
    rewrite Hw.
    destruct (nth_error (segments s) (n_segments s - 1)) as [last |] eqn:E.
    - exists last. auto.
    - apply nth_error_None in E. lia. }
  destruct Hlast as (last & Hidx & Hnth).
  unfold stop_criterium. rewrite Hidx. cbn [bind].
  split.
  - destruct (list_eqb (seg_end last) (goal_state s)); [| eauto].
    rewrite Hlp. cbn [attr of_option bind].
    destruct (problem_stop_criterium lp current_time update_time); eauto.
  - intros Hgoal.
    destruct (Hseg _ _ Hnth) as (room & Hroom & Hcreate).
    destruct (create_segment_number _ _ Hcreate) as (_ & _ & Hend & _).
    rewrite Henv in Hroom. unfold get_environment in Hroom.
    rewrite nth_error_map in Hroom.
    destruct (nth_error GCode (n_current_block s + (n_segments s - 1)))
      as [block |] eqn:Hb; [| discriminate].
    cbn in Hroom. injection Hroom as <-.
    destruct (room_of_block_pose (veh_tolerance tool) block)
      as (_ & _ & _ & He & _).
    destruct (list_eqb (seg_end last) (goal_state s)) eqn:Eq;
      [| reflexivity].
    apply list_eqb_true in Eq. exfalso.
    apply (Hgoal block); [eapply nth_error_In; exact Hb |].
    congruence.
Qed.

(** X14. On an empty window, in particular on a scheduler that has not
    been reinitialized since its construction, both [solve] and
    [stop_criterium] raise IndexError. *)
Theorem X14_empty_window_raises (self : Scheduler)
    (current_time update_time : R) :
  (segments self = [] ->
   solve self current_time update_time = Error IndexError /\
   stop_criterium self current_time update_time = Error IndexError) /\
  (forall tool GCode n,
     init_scheduler tool GCode n = Ok self ->
     solve self current_time update_time = Error IndexError /\
     stop_criterium self current_time update_time = Error IndexError).
Proof.
  assert (H : segments self = [] ->
              solve self current_time update_time = Error IndexError /\
              stop_criterium self current_time update_time
              = Error IndexError).
  { intros E. unfold solve, check_segments, stop_criterium.
    rewrite E, !py_index_nil. split; reflexivity. }
  split; [exact H |].
  intros tool GCode n Hinit. apply H.
  apply init_scheduler_state in Hinit. now subst self.
Qed.


(** X16. In the branch of [solve] that keeps the window (the tool state
    differs from the exit point of the first window segment), with a
    look-ahead of at least 1, an optimiser without a result makes [solve]
    raise the error of the missing attribute; the local problem is not
    solved. *)
Theorem X16_refresh_needs_solution (self : Scheduler)
    (current_time update_time : R) (seg0 : Segment) (rest : list Segment)
    (e : PyError) :
  segments self = seg0 :: rest ->
  curr_state self <> seg_end seg0 ->
  (1 <= n_segments self)%nat ->
  get_variables self = Error e ->
  solve self current_time update_time = Error e.
Proof.
  intros Hseg Hne HN Hvar. unfold solve.
  rewrite (check_segments_cons self Hseg).
  rewrite (np_any_ne_true Hne). cbn [negb bind].
  unfold refresh_motion_times.
  destruct (n_segments self) as [| k]; [lia |].
  cbn [seq for_each]. rewrite Hvar. reflexivity.
Qed.

(** X17. After [reinitialize] on a scheduler without local problem, the
    motion time of every window slot is the centerline estimate of the
    segment in that slot, and the tool has received the centerline guess
    of every slot, in window order. *)
Theorem X17_initial_motion_times (s0 s : Scheduler) :
  reinitialize s0 = Ok s ->
  local_problem s0 = None ->
  exists guesses,
    veh_init_spline_values (vehicle s) = Some (guesses, n_segments s0) /\
    forall k segment,
      nth_error (segments s) k = Some segment ->
      exists g T,
        get_init_guess_new_segment s0 segment = Ok (g, T) /\
        nth_error guesses k = Some g /\
        nth_error (motion_times s) k = Some T.
Proof.
  intros H Hfresh. revert H. unfold reinitialize.
  destruct (for_each _ _ _) as [sa |] eqn:Hloop; [| discriminate].
  cbn [bind].
  apply create_segments_loop with (c := n_current_block s0) in Hloop;
    [| reflexivity].
  destruct Hloop as (segs & -> & HFc).
  apply Forall2_length_eq in HFc. rewrite length_py_slice in HFc.
  change (n_segments (set_segments s0 [])) with (n_segments s0) in HFc.
  assert (Hsegs : (List.length segs <= n_segments s0)%nat)
    by (rewrite <- HFc; apply Nat.le_min_l).
  clear HFc.
  match goal with
  | |- context [get_init_guess ?st] => set (sa := st)
  end.
  destruct (get_init_guess sa) as [[sb [guess times]] |] eqn:Hg;
    [| discriminate].
  cbn [bind]. intros H. injection H as <-.
  destruct (get_init_guess_inv _ Hg)
    as (guesses & idx & rs & v & Hpre & HF & E1 & E2 & Hv & ->).
  assert (Hp : has_previous_solution sa = false)
    by (apply has_previous_solution_fresh; exact Hfresh).
  rewrite Hp in Hpre. destruct Hpre as (-> & ->).
  cbn [fst snd app] in E1, E2.
  change (n_segments sa) with (n_segments s0) in HF.
  exists guess. split.
  - unfold pass_on_to_vehicle in Hv.
    destruct (match veh_signals (vehicle sa) with
              | Some _ => _ | None => _ end)
      as [initial |]; [| discriminate].
    cbn [bind] in Hv.
    destruct (py_index (segments sa) (-1)) as [last |]; [| discriminate].
    cbn [bind] in Hv. injection Hv as <-. reflexivity.
  - change (forall k segment,
              nth_error segs k = Some segment ->
              exists g T,
                get_init_guess_new_segment s0 segment = Ok (g, T) /\
                nth_error guess k = Some g /\
                nth_error times k = Some T).
    intros k segment Hk.
    assert (Hlt : (k < n_segments s0)%nat).
    { assert (k < List.length segs)%nat
        by (apply nth_error_Some; congruence).
      lia. }
    assert (Hidx : nth_error (map Z.of_nat (seq 0 (n_segments s0))) k
                   = Some (Z.of_nat k)).
    { rewrite nth_error_map, nth_error_seq.
      destruct (Nat.ltb_spec k (n_segments s0)); [reflexivity | lia]. }
    destruct (Forall2_nth_error_l _ HF Hidx)
      as ([g T] & Hr & sg & Hsg & Hgen).
    rewrite py_index_nat in Hsg.
    change (segments sa) with segs in Hsg.
    rewrite Hk in Hsg. cbn in Hsg. injection Hsg as <-.
    exists g, T. split.
    + rewrite <- Hgen. apply get_init_guess_new_segment_vehicle.
      reflexivity.
    + rewrite E1, E2, !nth_error_map, Hr. auto.
Qed.

End RunTheorems.

(** *** Sample runs *)

Lemma two_line_reachable_goal (goal : vec3) :
  exists s,
    reachable (scipy := sample_scipy) (opti := steady_optimizer)
      (sample_tool origin goal) [line1; line2] (Some 2%nat) s.
Proof.
  destruct (line_room_segment 0 line1) as (seg1 & Hc1 & (w1 & h1 & o1 & Hs1)
                                           & Hst1 & Hen1); [now right |].
  destruct (line_room_segment 0 line2) as (seg2 & Hc2 & (w2 & h2 & o2 & Hs2)
                                           & Hst2 & Hen2); [now right |].
  destruct (reinitialize_total (scipy := sample_scipy)
              (fresh_scheduler steady_optimizer [line1; line2] goal 2)
              (segs := [seg1; seg2])) as [s Hs]; try reflexivity.
  - cbn. repeat constructor; assumption.
  - cbn. lia.
  - intros seg [<- | [<- | []]].
    + destruct (line_guess_total (scipy := sample_scipy)
                  (fresh_scheduler steady_optimizer [line1; line2] goal 2)
                  seg1 (mv := 2) Hs1)
        as (g & T & H); [| reflexivity | cbn; lia | eauto].
      rewrite Hst1, Hen1. cbn. intros H. injection H as H. lra.
    + destruct (line_guess_total (scipy := sample_scipy)
                  (fresh_scheduler steady_optimizer [line1; line2] goal 2)
                  seg2 (mv := 2) Hs2)
        as (g & T & H); [| reflexivity | cbn; lia | eauto].
      rewrite Hst2, Hen2. cbn. intros H. injection H as H. lra.
  - exists s. eapply reach_reinitialize; [| exact Hs].
    apply init_fresh_scheduler.
Qed.

Lemma X12_witness :
  exists s,
    reachable (scipy := sample_scipy) (opti := steady_optimizer)
      (sample_tool origin (mk_vec3 10 10 0)) [line1; line2] (Some 2%nat) s /\
    List.length (motion_times s) = 2%nat /\
    List.length (segments s) = 2%nat /\
    goal_state s = mk_vec3 10 10 0 /\
    cnt s = 2%nat.
Proof.
  destruct (two_line_reachable_goal (mk_vec3 10 10 0)) as [s Hr].
  destruct (X12_reachable_state_invariants Hr)
    as (Hm & Hw & _ & Hn & _ & Hg & Hc).
  exists s. rewrite Hm, Hw, Hn. auto.
Defined.

Lemma X13_witness :
  exists s,
    reachable (scipy := sample_scipy) (opti := steady_optimizer)
      (sample_tool origin (mk_vec3 5 5 5)) [line1; line2] (Some 2%nat) s /\
    stop_criterium s 0 0.01 = Ok (Some false).
Proof.
  destruct (two_line_reachable_goal (mk_vec3 5 5 5)) as [s Hr].
  exists s. split; [exact Hr |].
  apply (proj2 (X13_stop_criterium_reachable 0 0.01 Hr)).
  intros block [<- | [<- | []]]; cbn; intros H; injection H as H; lra.
Defined.

Lemma X14_witness :
  solve (scipy := sample_scipy)
    (fresh_scheduler steady_optimizer [line1; line2] (mk_vec3 10 10 0) 2)
    0 0.01 = Error IndexError /\
  stop_criterium
    (fresh_scheduler steady_optimizer [line1; line2] (mk_vec3 10 10 0) 2)
    0 0.01 = Error IndexError.
Proof.
  apply (proj2 (X14_empty_window_raises (scipy := sample_scipy)
                  (fresh_scheduler steady_optimizer [line1; line2]
                     (mk_vec3 10 10 0) 2) 0 0.01)
           (sample_tool origin (mk_vec3 10 10 0)) [line1; line2] (Some 2%nat)).
  apply init_fresh_scheduler.
Defined.


Lemma X16_witness :
  solve (scipy := sample_scipy) (set_local_problem mid_run None) 0 0.02
  = Error AttributeError.
Proof.
  apply (X16_refresh_needs_solution (scipy := sample_scipy)
           (set_local_problem mid_run None) 0 0.02
           (seg0 := line1_segment) (rest := [])).
  - reflexivity.
  - exact mid_run_not_at_exit.
  - cbn. lia.
  - reflexivity.
Defined.

Lemma X17_witness :
  exists s guesses T0 T1,
    reinitialize (scipy := sample_scipy)
      (fresh_scheduler steady_optimizer [line1; line2] (mk_vec3 10 10 0) 2)
    = Ok s /\
    veh_init_spline_values (vehicle s) = Some (guesses, 2%nat) /\
    motion_times s = [T0; T1].
Proof.
  destruct two_line_start as [s Hs].
  destruct (X17_initial_motion_times (scipy := sample_scipy) _ Hs eq_refl)
    as (guesses & Hv & Hk).
  destruct (reinitialize_keeps _ Hs eq_refl) as (Hl & _).
  change (List.length (motion_times s) = 2%nat) in Hl.
  destruct (motion_times s) as [| T0 [| T1 [| T2 t]]] eqn:Hm;
    try discriminate Hl.
  exists s, guesses, T0, T1.
  split; [exact Hs |]. split; [exact Hv | exact Hm].
Defined.

(** ** The solution stitcher *)

Lemma append_loop {K C : Type} (h : K -> result C) (ks : list K)
      (acc res : list C) :
  for_each (fun coeffs k => c <- h k ;; Ok (coeffs ++ [c])) ks acc = Ok res ->
  exists cs, Forall2 (fun k c => h k = Ok c) ks cs /\ res = acc ++ cs.
Proof.
  revert acc. induction ks as [| k ks IH]; intros acc H.
  - cbn in H. injection H as <-. exists []. rewrite app_nil_r. auto.
  - cbn [for_each] in H.
    destruct (h k) as [c |] eqn:Hk; [| discriminate].
    cbn [bind] in H. destruct (IH _ H) as (cs & HF & ->).
    exists (c :: cs). split; [constructor; assumption |].
    now rewrite <- app_assoc.
Qed.

Lemma zip_cons_shape (col : list R) (m : matrix) (n k : nat) :
  List.length col = n -> List.length m = n ->
  Forall (fun row => List.length row = k) m ->
  List.length (zip_cons col m) = n /\
  Forall (fun row => List.length row = S k) (zip_cons col m).
Proof.
  revert m n. induction col as [| x col IH]; intros m n Hc Hm HF.
  - cbn in *. subst n. split; [reflexivity | constructor].
  - destruct m as [| r m]; [cbn in *; lia |].
    cbn [zip_cons List.length] in *.
    inversion HF as [| r' m' Hr HF']. subst r' m'.
    destruct (IH m (List.length col) eq_refl) as (Hl & HF'');
      [lia | exact HF' |].
    split; [rewrite Hl; exact Hc |].
    constructor; [cbn; now rewrite Hr | exact HF''].
Qed.

Lemma transpose_shape (m : matrix) (n : nat) :
  m <> [] ->
  Forall (fun c => List.length c = n) m ->
  List.length (transpose m) = n /\
  Forall (fun row => List.length row = List.length m) (transpose m).
Proof.
  induction m as [| r m IH]; intros Hne HF; [congruence |].
  inversion HF as [| r' m' Hr HF']. subst r' m'.
  destruct m as [| r2 m].
  - cbn [transpose]. rewrite length_map. split; [exact Hr |].
    apply Forall_forall. intros row Hin. apply in_map_iff in Hin.
    destruct Hin as (x & <- & _). reflexivity.
  - change (transpose (r :: r2 :: m))
      with (zip_cons r (transpose (r2 :: m))).
    destruct IH as (Hl & HF2); [discriminate | exact HF' |].
    apply zip_cons_shape; auto.
Qed.

Lemma py_index_penultimate {A : Type} (l : list A) (a b : A) :
  py_index (l ++ [a; b]) (-2) = Ok a.
Proof.
  change (-2)%Z with (- Z.of_nat 2)%Z.
  rewrite py_index_neg by lia.
  rewrite length_app. cbn [List.length].
  destruct (Nat.leb_spec 2 (List.length l + 2)); [| lia].
  replace (List.length l + 2 - 2)%nat with (List.length l) by lia.
  rewrite nth_error_app2 by lia. now rewrite Nat.sub_diag.
Qed.

Lemma set_nth_last {A : Type} (l : list A) (a v : A) :
  set_nth (l ++ [a]) (List.length l) v = l ++ [v].
Proof. induction l as [| h t IH]; cbn; [reflexivity | now rewrite IH]. Qed.

Lemma py_set_item_last {A : Type} (l : list A) (a v : A) :
  py_set_item (l ++ [a]) (-1) v = Ok (l ++ [v]).
Proof.
  change (-1)%Z with (- Z.of_nat 1)%Z.
  rewrite py_set_item_neg by lia.
  rewrite length_app. cbn [List.length].
  destruct (Nat.leb_spec 1 (List.length l + 1)); [| lia].
  replace (List.length l + 1 - 1)%nat with (List.length l) by lia.
  now rewrite set_nth_last.
Qed.

Section Stitcher.
Context {scipy : SciPy} {splines : SplineLib} {opti : OptiLayer}.

(** X18. The stitched guess of [get_init_guess_combined_segment]: its
    motion time is the sum of the optimiser's first two time variables;
    its coefficients come from one linear solve per axis of the first
    segment, in axis order, and are returned transposed: when every solve
    returns [n] coefficients and there is at least one axis, the guess has
    [n] rows with one entry per axis. *)
Theorem X18_stitched_guess (self : Scheduler) (m : matrix) (T : R) :
  get_init_guess_combined_segment self = Ok (m, T) ->
  exists vr spl1 spl2 T0 T1 coeffs,
    get_variables self = Ok vr /\
    nth_error (vr_splines vr) 0 = Some spl1 /\
    nth_error (vr_splines vr) 1 = Some spl2 /\
    nth_error (vr_T vr) 0 = Some T0 /\
    nth_error (vr_T vr) 1 = Some T1 /\
    T = T0 + T1 /\
    List.length coeffs = List.length spl1 /\
    (forall l s,
       nth_error spl1 l = Some s ->
       exists c,
         stitch_axis (T0 + T1) (concat_splines [spl1; spl2] [T0; T1]) l s
         = Ok c /\
         nth_error coeffs l = Some c) /\
    m = transpose coeffs /\
    (forall n,
       spl1 <> [] ->
       Forall (fun c => List.length c = n) coeffs ->
       List.length m = n /\
       Forall (fun row => List.length row = List.length spl1) m).
Proof.
  unfold get_init_guess_combined_segment. intros H.
  destruct (get_variables self) as [vr |]; [| discriminate].
  cbn [bind] in H. unfold key in H.
  destruct (nth_error (vr_splines vr) 0) as [spl1 |] eqn:Hs1;
    [| discriminate].
  cbn [of_option bind] in H.
  destruct (nth_error (vr_splines vr) 1) as [spl2 |] eqn:Hs2;
    [| discriminate].
  cbn [of_option bind] in H.
  destruct (nth_error (vr_T vr) 0) as [T0 |] eqn:HT0; [| discriminate].
  cbn [of_option bind] in H.
  destruct (nth_error (vr_T vr) 1) as [T1 |] eqn:HT1; [| discriminate].
  cbn [of_option bind] in H.
  destruct (for_each _ _ _) as [coeffs |] eqn:Hloop; [| discriminate].
  cbn [bind] in H.
  assert (Em : m = transpose coeffs) by congruence.
  assert (ET : T = T0 + T1) by congruence.
  clear H.
  apply (append_loop
           (fun ls => stitch_axis (T0 + T1)
                        (concat_splines [spl1; spl2] [T0; T1])
                        (fst ls) (snd ls))) in Hloop.
  destruct Hloop as (cs & HF & E). cbn [app] in E. subst cs.
  pose proof (Forall2_length_eq HF) as HL.
  rewrite length_combine, length_seq, Nat.min_id in HL.
  exists vr, spl1, spl2, T0, T1, coeffs.
  split; [reflexivity |]. split; [exact Hs1 |]. split; [exact Hs2 |].
  split; [exact HT0 |]. split; [exact HT1 |]. split; [exact ET |].
  split; [symmetry; exact HL |]. split; [| split; [exact Em |]].
  - intros l s Hs.
    assert (Hc : nth_error (combine (seq 0 (List.length spl1)) spl1) l
                 = Some (l, s)).
    { rewrite nth_error_combine_seq, Hs. reflexivity. }
    destruct (Forall2_nth_error_l _ HF Hc) as (c & Hn & Hst).
    exists c. auto.
  - intros n Hne Hall. rewrite Em, HL.
    apply transpose_shape; [| exact Hall].
    intros ->. destruct spl1; [congruence | cbn in HL; lia].
Qed.

(** X19. With three or more Greville points, the evaluation points of
    [stitch_axis] are the Greville points of the rescaled basis with the
    first one moved towards the second, and the last one towards the one
    before it, by 1% of their distance; the points in between are kept.
    The linear system is built at these points.  With fewer than two
    Greville points the function raises IndexError and solves nothing. *)
Theorem X19_stitch_axis_points (motion_time : R) (spl : list Spline)
    (l : nat) (s : Spline) :
  let new_basis :=
    BSplineBasis (map (fun k => k * motion_time)
                      (basis_knots (spline_basis s)))
                 (basis_degree (spline_basis s)) in
  ((List.length (greville new_basis) < 2)%nat ->
   stitch_axis motion_time spl l s = Error IndexError) /\
  (forall g0 mid gb,
     greville new_basis = (g0 :: mid) ++ [gb] ->
     mid <> [] ->
     let points :=
       (g0 + (hd 0 mid - g0) * 0.01 :: mid)
       ++ [gb - (gb - last mid 0) * 0.01] in
     stitch_axis motion_time spl l s
     = (spl_l <- py_index spl (Z.of_nat l) ;;
        la_solve (basis_call new_basis points) (spline_call spl_l points))).
Proof.
  cbv zeta. split.
  - intros Hl. unfold stitch_axis.
    destruct (greville _) as [| g0 [| g1 t]].
    + reflexivity.
    + reflexivity.
    + cbn in Hl. lia.
  - intros g0 mid gb Hg Hmid. unfold stitch_axis. rewrite Hg.
    destruct mid as [| m0 mid']; [congruence |].
    change (py_index ((g0 :: m0 :: mid') ++ [gb]) 0) with (Ok g0).
    cbn [bind].
    assert (E1 : py_index ((g0 :: m0 :: mid') ++ [gb]) 1 = Ok m0).
    { change 1%Z with (Z.of_nat 1). now rewrite py_index_nat. }
    rewrite E1. cbn [bind].
    change (py_set_item ((g0 :: m0 :: mid') ++ [gb]) 0
              (g0 + (m0 - g0) * 0.01))
      with (Ok ((g0 + (m0 - g0) * 0.01 :: m0 :: mid') ++ [gb])).
    cbn [bind]. rewrite py_index_last. cbn [bind].
    assert (E2 : py_index ((g0 + (m0 - g0) * 0.01 :: m0 :: mid') ++ [gb])
                          (-2)
                 = Ok (last (m0 :: mid') 0)).
    { destruct (exists_last (l := m0 :: mid')) as (front & ga & Hf);
        [discriminate |].
      rewrite Hf. rewrite last_last.
      change ((g0 + (m0 - g0) * 0.01 :: front ++ [ga]) ++ [gb])
        with (((g0 + (m0 - g0) * 0.01 :: front) ++ [ga]) ++ [gb]).
      rewrite <- app_assoc. apply py_index_penultimate. }
    rewrite E2. cbn [bind]. rewrite py_set_item_last. cbn [bind hd].
    reflexivity.
Qed.

End Stitcher.

Lemma X18_witness :
  exists m,
    get_init_guess_combined_segment (scipy := sample_scipy) warm_run
    = Ok (m, 1 + 1) /\
    List.length m = 2%nat /\
    Forall (fun row => List.length row = 3%nat) m.
Proof.
  destruct warm_run_stitched as [m H]. exists m. split; [exact H |].
  destruct (X18_stitched_guess (scipy := sample_scipy) warm_run H)
    as (vr & spl1 & spl2 & T0 & T1 & coeffs & Hvr & H1 & H2 & HT0 & HT1
        & _ & Hlen & Hax & _ & Hshape).
  change (get_variables warm_run) with (Ok warm_answer) in Hvr.
  assert (Evr : vr = warm_answer) by congruence. subst vr.
  assert (E1 : spl1 = [ramp; ramp; ramp]) by (cbn in H1; congruence).
  assert (E2 : spl2 = [ramp; ramp; ramp]) by (cbn in H2; congruence).
  assert (E3 : T0 = 1) by (cbn in HT0; congruence).
  assert (E4 : T1 = 1) by (cbn in HT1; congruence).
  subst spl1 spl2 T0 T1.
  apply (Hshape 2%nat); [discriminate |].
  apply Forall_forall. intros c Hin.
  apply In_nth_error in Hin. destruct Hin as [l Hl].
  assert (Hlt : (l < 3)%nat).
  { assert (l < List.length coeffs)%nat
      by (apply nth_error_Some; congruence).
    cbn in Hlen. lia. }
  destruct (nth_error [ramp; ramp; ramp] l) as [s |] eqn:Hs.
  - assert (s = ramp)
      by (destruct l as [| [| [| l]]]; [| | | lia];
          cbn [nth_error] in Hs; injection Hs as <-; reflexivity).
    subst s.
    destruct (Hax l ramp Hs) as (c' & Hc' & Hn).
    destruct (stitch_ramp_ok Hlt) as (x0 & x1 & Hst).
    assert (c = [x0; x1]).
    { assert (Ok c' = Ok [x0; x1]) by (rewrite <- Hc'; exact Hst).
      congruence. }
    subst c. reflexivity.
  - apply nth_error_None in Hs. cbn in Hs. lia.
Defined.

Lemma X19_witness :
  stitch_axis (scipy := sample_scipy) (splines := sample_splines) 1
    [] 0 (([0; 1], 0%nat), fun t => t)
  = Error IndexError /\
  exists p0 p1 p2,
    (p0 = 0.01 /\ p1 = 1 /\ p2 = 1.99) /\
    stitch_axis (scipy := sample_scipy) (splines := sample_splines) 1
      [(([0; 0; 1; 2; 2], 1%nat), fun t => t)] 0
      (([0; 0; 1; 2; 2], 1%nat), fun t => t)
    = gauss_solve
        (knot_basis_call ([0 * 1; 0 * 1; 1 * 1; 2 * 1; 2 * 1], 1%nat)
                         [p0; p1; p2])
        [p0; p1; p2].
Proof.
  split.
  - apply (proj1 (X19_stitch_axis_points (scipy := sample_scipy)
                    (splines := sample_splines) 1 [] 0
                    (([0; 1], 0%nat), fun t => t))).
    cbn. lia.
  - rewrite (proj2 (X19_stitch_axis_points (scipy := sample_scipy)
                      (splines := sample_splines) 1
                      [(([0; 0; 1; 2; 2], 1%nat), fun t => t)] 0
                      (([0; 0; 1; 2; 2], 1%nat), fun t => t))
               ((0 * 1 + 0) / INR 1) [(1 * 1 + 0) / INR 1]
               ((2 * 1 + 0) / INR 1)).
    + do 3 eexists. split; [| reflexivity].
      cbn [hd last snd]. change (INR 1) with 1. repeat split; lra.
    + reflexivity.
    + discriminate.
Defined.

(** ** The guess of a LINE segment *)

Lemma repeat_final_row_other (g0 g : matrix) (i : nat) :
  repeat_final_row g0 = Ok g ->
  i <> (List.length g0 - 3)%nat -> i <> (List.length g0 - 4)%nat ->
  nth_error g i = nth_error g0 i.
Proof.
  unfold repeat_final_row.
  change (-1)%Z with (- Z.of_nat 1)%Z.
  change (-3)%Z with (- Z.of_nat 3)%Z.
  change (-4)%Z with (- Z.of_nat 4)%Z.
  set (n := List.length g0).
  rewrite py_index_neg by lia. fold n.
  destruct (Nat.leb_spec 1 n) as [H1 | H1]; [| discriminate].
  destruct (nth_error g0 (n - 1)) as [last |] eqn:Hlast; [| discriminate].
  cbn [of_option bind].
  rewrite py_set_item_neg by lia. fold n.
  destruct (Nat.leb_spec 3 n) as [H3 | H3]; [| discriminate].
  cbn [bind].
  rewrite py_index_neg by lia. rewrite length_set_nth. fold n.
  destruct (Nat.leb_spec 1 n) as [_ | ?]; [| lia].
  rewrite nth_error_set_nth_neq by lia. rewrite Hlast.
  cbn [of_option bind].
  rewrite py_set_item_neg by lia. rewrite length_set_nth. fold n.
  destruct (Nat.leb_spec 4 n) as [H4 | H4]; [| discriminate].
  intros E Hi3 Hi4. injection E as <-.
  now rewrite !nth_error_set_nth_neq by lia.
Qed.

Lemma axis_time_pair (a b : R) :
  axis_time [a; b] = [0; 1] \/ (a = b /\ axis_time [a; b] = [0; 0]).
Proof.
  destruct (Req_dec_T a b) as [-> | Hne].
  - right. split; [reflexivity | apply axis_time_still].
  - left. now apply axis_time_moving.
Qed.

Lemma interpolation_times_line (a b c d e f : R) (tx ty tz : list R) :
  interpolation_times (axis_time [a; b]) (axis_time [c; d]) (axis_time [e; f])
  = Ok (tx, ty, tz) ->
  tx = [0; 1] /\ ty = [0; 1] /\ tz = [0; 1].
Proof.
  unfold interpolation_times.
  destruct (axis_time_pair a b) as [-> | [_ ->]];
    destruct (axis_time_pair c d) as [-> | [_ ->]];
    destruct (axis_time_pair e f) as [-> | [_ ->]];
    cbv zeta; intros H;
    do 3 (rewrite ?all_zero_01, ?all_zero_00 in H; cbn [andb negb] in H);
    try discriminate; injection H as <- <- <-;
    repeat split; reflexivity.
Qed.

Section LineGuess.
Context {scipy : SciPy} {splines : SplineLib} {opti : OptiLayer}.

(** X20. With an interpolator that is linear between two samples, the
    guess of a LINE segment lies on the straight line from the entry to
    the exit point: the row of a Greville point [t] between 0 and 1 is the
    point at fraction [t] of the segment, on all three axes, except the
    rows at positions -3 and -4, which hold the point of the last Greville
    point. *)
Theorem X20_line_guess_on_segment
    (self : Scheduler) (segment : Segment) (w h o : R)
    (g : matrix) (T : R) :
  (forall a b t, 0 <= t <= 1 -> interp1d [0; 1] [a; b] 1 t = a + t * (b - a)) ->
  border_shape (seg_border segment) = Rectangle w h o ->
  get_init_guess_new_segment self segment = Ok (g, T) ->
  let grev := greville (veh_basis (vehicle self)) in
  let n := List.length grev in
  let point t :=
    [vx (seg_start segment)
     + t * (vx (seg_end segment) - vx (seg_start segment));
     vy (seg_start segment)
     + t * (vy (seg_end segment) - vy (seg_start segment));
     vz (seg_start segment)
     + t * (vz (seg_end segment) - vz (seg_start segment))] in
  List.length g = n /\
  (forall i t,
     nth_error grev i = Some t -> 0 <= t <= 1 ->
     i <> (n - 3)%nat -> i <> (n - 4)%nat ->
     nth_error g i = Some (point t)) /\
  (forall t,
     nth_error grev (n - 1) = Some t -> 0 <= t <= 1 ->
     nth_error g (n - 3) = Some (point t) /\
     nth_error g (n - 4) = Some (point t)).
Proof.
  intros Hlin Hshape H grev n point.
  destruct (get_init_guess_new_segment_inv _ _ H)
    as (x & y & z & tx & ty & tz & mv & Hc & Ht & _ & _ & Hg).
  rewrite (centerline_rectangle _ Hshape) in Hc.
  assert (E : x = [vx (seg_start segment); vx (seg_end segment)]
              /\ y = [vy (seg_start segment); vy (seg_end segment)]
              /\ z = [vz (seg_start segment); vz (seg_end segment)])
    by (repeat split; congruence).
  destruct E as (-> & -> & ->).
  destruct (interpolation_times_line _ _ _ _ _ _ Ht) as (-> & -> & ->).
  fold grev in Hg.
  destruct (repeat_final_row_inv _ Hg)
    as (H4 & Hlen & last & Hl0 & _ & Hl3 & Hl4 & _).
  rewrite length_map in *. fold n in H4, Hlen, Hl0, Hl3, Hl4.
  split; [exact Hlen |]. split.
  - intros i t Hi Ht01 Hi3 Hi4.
    rewrite (repeat_final_row_other _ Hg); rewrite ?length_map; fold n;
      try assumption.
    rewrite nth_error_map, Hi. cbn [option_map]. unfold point.
    now rewrite !Hlin by exact Ht01.
  - intros t Ht' Ht01.
    rewrite nth_error_map, Ht' in Hl0. cbn [option_map] in Hl0.
    injection Hl0 as <-. rewrite !Hlin in Hl3, Hl4 by exact Ht01.
    split; assumption.
Qed.

End LineGuess.

Lemma X20_witness :
  exists g T,
    get_init_guess_new_segment (scipy := sample_scipy) mid_run line1_segment
    = Ok (g, T) /\
    List.length g = 4%nat /\
    nth_error g 2 = Some [0 + (0 + (1 + (1 + 0))) / INR 3 * (10 - 0);
                          0 + (0 + (1 + (1 + 0))) / INR 3 * (0 - 0);
                          0 + (0 + (1 + (1 + 0))) / INR 3 * (0 - 0)].
Proof.
  destruct line1_guess_exists as (g & T & H).
  exists g, T. split; [exact H |].
  assert (Hlin : forall a b t, 0 <= t <= 1 ->
            interp1d (SciPy := sample_scipy) [0; 1] [a; b] 1 t
            = a + t * (b - a)).
  { intros a b t Ht. cbn [interp1d sample_scipy].
    rewrite linear_interp_unit by exact Ht. field. }
  destruct (X20_line_guess_on_segment (scipy := sample_scipy) mid_run
              line1_segment (w := 10) (h := 0.1) (o := 0) Hlin eq_refl H)
    as (Hlen & Hrow & _).
  split; [exact Hlen |].
  apply (Hrow 2%nat ((0 + (1 + (1 + 0))) / INR 3)).
  - reflexivity.
  - rewrite INR_IZR_INZ. cbn [Z.of_nat Pos.of_succ_nat Pos.succ]. lra.
  - cbn. lia.
  - cbn. lia.
Defined.

(** ** The end points of a sampled arc *)

Lemma sqrt_one_plus_sqr (u q : R) :
  0 < q -> 1 + u² = q² -> sqrt (1 + u²) = q.
Proof.
  intros Hq E. rewrite E. apply sqrt_Rsqr. lra.
Qed.

(** The angle of [arctan2] is the polar angle of the point. *)
Lemma arctan2_polar (y x r : R) :
  0 < r -> x ^ 2 + y ^ 2 = r ^ 2 ->
  r * cos (arctan2 y x) = x /\ r * sin (arctan2 y x) = y.
Proof.
  intros Hr Hc. unfold arctan2.
  destruct (Rlt_dec 0 x) as [Hx | Hx].
  - rewrite cos_atan, sin_atan.
    rewrite (sqrt_one_plus_sqr (u := y / x) (q := r / x)).
    + split; field; lra.
    + apply Rdiv_lt_0_compat; assumption.
    + unfold Rsqr.
      transitivity ((x ^ 2 + y ^ 2) / x ^ 2); [field; lra |].
      rewrite Hc. field. lra.
  - destruct (Rlt_dec x 0) as [Hx' | Hx'].
    + assert (Hs : sqrt (1 + (y / x)²) = r / - x).
      { apply sqrt_one_plus_sqr.
        - apply Rdiv_lt_0_compat; lra.
        - unfold Rsqr.
          transitivity ((x ^ 2 + y ^ 2) / x ^ 2); [field; lra |].
          rewrite Hc. field. lra. }
      destruct (Rle_dec 0 y) as [Hy | Hy].
      * rewrite neg_cos, neg_sin, cos_atan, sin_atan, Hs.
        split; field; lra.
      * rewrite cos_minus, sin_minus, cos_PI, sin_PI, cos_atan, sin_atan, Hs.
        split; field; lra.
    + assert (x = 0) by lra. subst x.
      destruct (Rlt_dec 0 y) as [Hy | Hy].
      * rewrite cos_PI2, sin_PI2. split; nra.
      * destruct (Rlt_dec y 0) as [Hy' | Hy'].
        -- rewrite cos_neg, sin_neg, cos_PI2, sin_PI2. split; nra.
        -- exfalso. assert (y = 0) by lra. subst y. nra.
Qed.

Lemma sweep_angles_polar (dir : Direction) (a b : R) :
  let sa := fst (sweep_angles dir a b) in
  let ea := snd (sweep_angles dir a b) in
  cos sa = cos a /\ sin sa = sin a /\ cos ea = cos b /\ sin ea = sin b.
Proof.
  cbv zeta. unfold sweep_angles.
  destruct dir.
  - destruct (Rlt_dec a b); cbn [fst snd];
      rewrite ?cos_plus, ?sin_plus, ?cos_2PI, ?sin_2PI;
      repeat split; ring.
  - destruct (Rgt_dec a b); cbn [fst snd];
      rewrite ?cos_plus, ?sin_plus, ?cos_2PI, ?sin_2PI;
      repeat split; ring.
Qed.

(** X21. When the entry and the exit point of an arc lie on the circle
    around the first two pose entries whose radius is the mean of the
    inner and the outer radius, the sampled centerline starts at the entry
    point and ends at the exit point in the plane, for both directions;
    its third coordinate is 0 whatever the third coordinate of the two
    points. *)
Theorem X21_arc_centerline_end_points
    (segment : Segment) (rin rout : R) (rs re : vec3) (dir : Direction)
    (p0 p1 : R) (rest : list R) :
  border_shape (seg_border segment) = Ring rin rout rs re dir ->
  border_pose (seg_border segment) = p0 :: p1 :: rest ->
  let radius := (rin + rout) * 0.5 in
  0 < radius ->
  (vx (seg_start segment) - p0) ^ 2 + (vy (seg_start segment) - p1) ^ 2
  = radius ^ 2 ->
  (vx (seg_end segment) - p0) ^ 2 + (vy (seg_end segment) - p1) ^ 2
  = radius ^ 2 ->
  exists x y z,
    centerline segment = Ok (x, y, z) /\
    hd 0 x = vx (seg_start segment) /\ hd 0 y = vy (seg_start segment) /\
    last x 0 = vx (seg_end segment) /\ last y 0 = vy (seg_end segment) /\
    hd 1 z = 0 /\ last z 1 = 0.
Proof.
  intros Hshape Hpose radius Hr Hs He.
  assert (E0 : py_index (border_pose (seg_border segment)) 0 = Ok p0)
    by (rewrite Hpose; reflexivity).
  assert (E1 : py_index (border_pose (seg_border segment)) 1 = Ok p1).
  { rewrite Hpose. change 1%Z with (Z.of_nat 1). now rewrite py_index_nat. }
  set (a := arctan2 (vy (seg_start segment) - p1)
                    (vx (seg_start segment) - p0)).
  set (b := arctan2 (vy (seg_end segment) - p1) (vx (seg_end segment) - p0)).
  destruct (sweep_angles dir a b) as [sa ea] eqn:Hsweep.
  destruct (centerline_ring segment Hshape E0 E1 Hsweep) as [Hc _].
  fold radius in Hc.
  pose proof (sweep_angles_polar dir a b) as Hpol.
  rewrite Hsweep in Hpol. cbn [fst snd] in Hpol.
  destruct Hpol as (Ca & Sa & Cb & Sb).
  destruct (arctan2_polar (y := vy (seg_start segment) - p1)
              (x := vx (seg_start segment) - p0) Hr Hs) as [Px Py].
  destruct (arctan2_polar (y := vy (seg_end segment) - p1)
              (x := vx (seg_end segment) - p0) Hr He) as [Qx Qy].
  fold a in Px, Py. fold b in Qx, Qy.
  do 3 eexists. split; [exact Hc |].
  rewrite linspace_50.
  assert (Efirst : INR 0 * ((ea - sa) / INR 49) + sa = sa)
    by (cbn [INR]; ring).
  rewrite Efirst.
  cbn [map app hd].
  split; [rewrite Ca; lra |]. split; [rewrite Sa; lra |].
  rewrite !map_app. cbn [map].
  rewrite !app_comm_cons, !last_last.
  split; [rewrite Cb; lra |]. split; [rewrite Sb; lra |].
  split; ring.
Qed.

Lemma X21_witness :
  exists x y z,
    centerline arc1_segment = Ok (x, y, z) /\
    hd 0 x = 1 /\ hd 0 y = 0 /\ last x 0 = 0 /\ last y 0 = -1.
Proof.
  destruct (X21_arc_centerline_end_points arc1_segment
              (rin := 0.9) (rout := 1.1) (rs := mk_vec3 1 0 0)
              (re := mk_vec3 0 (-1) 0) (dir := CCW)
              (p0 := 0) (p1 := 0) (rest := [0; 0; 0; 0]) eq_refl eq_refl)
    as (x & y & z & Hc & Hx & Hy & Hx' & Hy' & _).
  - lra.
  - cbn. lra.
  - cbn. lra.
  - exists x, y, z. auto.
Defined.

(** ** The keep branch and the constructor *)

Section KeepBranch.
Context {scipy : SciPy} {splines : SplineLib} {opti : OptiLayer}.

Lemma refresh_total (vr : VarResult) (n a : nat) (self : Scheduler) :
  get_variables self = Ok vr ->
  (a + n <= List.length (vr_T vr))%nat ->
  (a + n <= List.length (motion_times self))%nat ->
  exists s1,
    for_each
      (fun self k =>
         vr <- get_variables self ;;
         T <- key (vr_T vr) k ;;
         m <- py_set_item (motion_times self) (Z.of_nat k) T ;;
         Ok (set_motion_times self m))
      (seq a n) self = Ok s1.
Proof.
  revert a self. induction n as [| n IH]; intros a self Hvr HT Hm.
  - cbn. eauto.
  - cbn [seq for_each]. rewrite Hvr. cbn [bind]. unfold key.
    destruct (nth_error (vr_T vr) a) as [T |] eqn:Ha.
    2:{ apply nth_error_None in Ha. lia. }
    cbn [of_option bind]. rewrite py_set_item_nat.
    destruct (Nat.ltb_spec a (List.length (motion_times self))); [| lia].
    cbn [bind].
    apply IH.
    + exact Hvr.
    + lia.
    + cbn. rewrite length_set_nth. lia.
Qed.

(** X23. In a reachable state whose tool is not at the exit point of the
    first window segment, [solve] never raises before the local solve
    when the optimiser holds a time variable for every window slot: it
    returns as soon as the local solve returns, the solved problem has an
    update time and the tool, when it has signals, has a state sample. *)
Theorem X23_keep_branch_returns tool GCode n (s : Scheduler)
    (current_time update_time : R) (seg0 : Segment) (rest : list Segment)
    (vr : VarResult) (lp lp' : LocalProblem) (v : Vehicle) :
  reachable tool GCode n s ->
  segments s = seg0 :: rest ->
  curr_state s <> seg_end seg0 ->
  get_variables s = Ok vr ->
  (n_segments s <= List.length (vr_T vr))%nat ->
  local_problem s = Some lp ->
  problem_solve lp (vehicle s) current_time update_time = Ok (lp', v) ->
  problem_update_times lp' <> [] ->
  (forall signals, veh_signals v = Some signals -> sig_state signals <> []) ->
  exists s', solve s current_time update_time = Ok s'.
Proof.
  intros Hr Hseg Hne Hvr HT Hlp Hps Hu Hsig.
  destruct (reachable_keeps Hr) as (Hl & _).
  destruct (refresh_total (n_segments s) 0 s Hvr) as [s1 Hs1];
    [lia | lia |].
  pose proof Hs1 as Hs1'.
  apply refresh_loop in Hs1'. destruct Hs1' as (m & E & _).
  unfold solve. rewrite (check_segments_cons s Hseg).
  rewrite (np_any_ne_true Hne). cbn [negb bind].
  unfold refresh_motion_times. rewrite Hs1. cbn [bind].
  subst s1. cbn [local_problem set_motion_times vehicle].
  rewrite Hlp. cbn [attr of_option bind]. rewrite Hps. cbn [bind].
  assert (Hlast : forall (A : Type) (l : list A),
            l <> [] -> exists a, py_index l (-1) = Ok a).
  { intros A l Hl'. destruct (exists_last Hl') as (front & a & ->).
    exists a. apply py_index_last. }
  destruct (Hlast _ _ Hu) as [u Eu]. rewrite Eu. cbn [bind]. cbn.
  destruct (veh_signals v) as [signals |] eqn:Hv.
  - destruct (Hlast _ _ (Hsig signals eq_refl)) as [x Ex].
    rewrite Ex. cbn [bind]. eauto.
  - eauto.
Qed.

(** X24. The constructor returns only for a tool whose first shape is a
    circle: for a tool without shapes, or with another first shape, it
    does not return.  When it returns, the new scheduler has an empty
    window, no local problem, counter 0, the tool's prediction as current
    state, its target pose as goal, one room per block and the look-ahead
    of the keyword argument, or 1. *)
Theorem X24_constructor (tool : Vehicle) (GCode : list Block)
    (n : option nat) :
  (forall s0,
     init_scheduler tool GCode n = Ok s0 ->
     (exists radius rest, veh_shapes tool = Circle radius :: rest) /\
     segments s0 = [] /\ local_problem s0 = None /\
     n_current_block s0 = 0%nat /\
     curr_state s0 = veh_prediction_state tool /\
     goal_state s0 = veh_poseT tool /\
     List.length (environment s0) = List.length GCode /\
     n_segments s0 = match n with Some k => k | None => 1%nat end) /\
  (veh_shapes tool = [] \/ (exists rest, veh_shapes tool = OtherShape :: rest) ->
   is_error (init_scheduler tool GCode n)).
Proof.
  unfold init_scheduler. split.
  - intros s0 H.
    destruct (veh_shapes tool) as [| [r |] shapes].
    + discriminate H.
    + change (py_index (Circle r :: shapes) 0) with (Ok (Circle r)) in H.
      cbn [bind] in H. injection H as <-. cbn.
      unfold get_environment. rewrite length_map.
      split; [eauto |]. auto 10.
    + discriminate H.
  - intros [-> | [rest ->]]; eexists; reflexivity.
Qed.

End KeepBranch.


Lemma pass_on_to_vehicle_signals
      {scipy : SciPy} {splines : SplineLib} {opti : OptiLayer}
      (self : Scheduler) (init_splines : list matrix) (v : Vehicle) :
  pass_on_to_vehicle self init_splines = Ok v ->
  veh_signals v = veh_signals (vehicle self).
Proof.
  unfold pass_on_to_vehicle.
  destruct (match veh_signals (vehicle self) with
            | Some _ => _ | None => _ end) as [initial |]; [| discriminate].
  cbn [bind].
  destruct (py_index (segments self) (-1)) as [last |]; [| discriminate].
  cbn [bind]. intros E. injection E as <-. reflexivity.
Qed.

Lemma reinitialize_problem
      {scipy : SciPy} {splines : SplineLib} {opti : OptiLayer}
      (s0 s : Scheduler) :
  reinitialize s0 = Ok s ->
  (exists v rooms segs N g,
     local_problem s
     = Some (reset_init_guess (GCodeProblem v rooms segs N) g)) /\
  veh_signals (vehicle s) = veh_signals (vehicle s0).
Proof.
  unfold reinitialize.
  destruct (for_each _ _ _) as [sa |] eqn:Hloop; [| discriminate].
  cbn [bind].
  apply create_segments_loop with (c := n_current_block s0) in Hloop;
    [| reflexivity].
  destruct Hloop as (segs & -> & _).
  destruct (get_init_guess _) as [[sb [guess times]] |] eqn:Hg;
    [| discriminate].
  cbn [bind]. intros H. injection H as <-.
  destruct (get_init_guess_inv _ Hg)
    as (guesses & idx & rs & v & _ & _ & _ & _ & Hv & ->).
  apply pass_on_to_vehicle_signals in Hv.
  split.
  - unfold generate_problem. cbn. eauto 10.
  - cbn. exact Hv.
Qed.

Lemma one_slot_start :
  exists s,
    reinitialize (scipy := sample_scipy)
      (fresh_scheduler steady_optimizer [line1; line2] (mk_vec3 10 10 0) 1)
    = Ok s.
Proof.
  destruct (line_room_segment 0 line1) as (seg1 & Hc1 & (w1 & h1 & o1 & Hs1)
                                           & Hst1 & Hen1); [now right |].
  apply reinitialize_total with (segs := [seg1]); try reflexivity.
  - cbn. repeat constructor; assumption.
  - intros seg [<- | []].
    destruct (line_guess_total (scipy := sample_scipy)
                (fresh_scheduler steady_optimizer [line1; line2]
                   (mk_vec3 10 10 0) 1) seg1 (mv := 2) Hs1)
      as (g & T & H); [| reflexivity | cbn; lia | eauto].
    rewrite Hst1, Hen1. cbn. intros H. injection H as H. lra.
Qed.

Lemma X23_witness :
  exists s s',
    reachable (scipy := sample_scipy) (opti := steady_optimizer)
      (sample_tool origin (mk_vec3 10 10 0)) [line1; line2] (Some 1%nat) s /\
    solve (scipy := sample_scipy) s 0 0.01 = Ok s'.
Proof.
  destruct one_slot_start as [s Hs].
  assert (Hr : reachable (scipy := sample_scipy) (opti := steady_optimizer)
                 (sample_tool origin (mk_vec3 10 10 0)) [line1; line2]
                 (Some 1%nat) s).
  { eapply reach_reinitialize; [apply init_fresh_scheduler | exact Hs]. }
  destruct (reinitialize_inv _ Hs eq_refl) as (_ & HN & _ & Hlen & _ & Hseg).
  destruct (reinitialize_keeps _ Hs eq_refl)
    as (_ & _ & _ & _ & _ & _ & _ & Hcur).
  destruct (reinitialize_problem _ Hs)
    as ((v & rooms & segs & N & g & Hlp) & Hsig).
  destruct (segments s) as [| seg0 [| seg1 rest]] eqn:Hsegs;
    try discriminate Hlen.
  destruct (Hseg 0%nat seg0 eq_refl) as (room & Hroom & Hcreate).
  cbn in Hroom. injection Hroom as <-.
  destruct (create_segment_number _ _ Hcreate) as (_ & _ & Hend & _).
  assert (Hvr : get_variables s = Ok sample_answer).
  { unfold get_variables. rewrite Hlp. reflexivity. }
  destruct (X23_keep_branch_returns (scipy := sample_scipy)
              (tool := sample_tool origin (mk_vec3 10 10 0))
              (GCode := [line1; line2]) (n := Some 1%nat) (s := s) 0 0.01
              (seg0 := seg0) (rest := []) (vr := sample_answer)
              (lp := reset_init_guess (GCodeProblem v rooms segs N) g)
              (lp' := mk_SampleProblem (Some sample_answer) ([] ++ [0.01]) g)
              (v := vehicle s))
    as [s' Hsolve].
  - exact Hr.
  - exact Hsegs.
  - rewrite Hcur, Hend. cbn. intros H. injection H as H. lra.
  - exact Hvr.
  - rewrite HN. cbn. lia.
  - exact Hlp.
  - reflexivity.
  - discriminate.
  - intros signals H. rewrite Hsig in H. discriminate H.
  - exists s, s'. split; [exact Hr | exact Hsolve].
Defined.

Lemma X24_witness :
  (exists s0,
     init_scheduler (opti := steady_optimizer)
       (sample_tool origin (mk_vec3 10 10 0)) [line1; line2] None = Ok s0 /\
     n_segments s0 = 1%nat /\ List.length (environment s0) = 2%nat /\
     segments s0 = []) /\
  is_error
    (init_scheduler (opti := steady_optimizer)
       (@mk_Vehicle sample_splines 0.1 [OtherShape; Circle 0.5]
          (mk_vec3 10 10 0) ([0; 0; 0; 0; 1; 1; 1; 1], 3%nat) (Some 2)
          None None None origin None None None None)
       [line1; line2] None).
Proof.
  split.
  - eexists. split; [reflexivity |].
    destruct (proj1 (X24_constructor (opti := steady_optimizer)
                       (sample_tool origin (mk_vec3 10 10 0))
                       [line1; line2] None) _ eq_refl)
      as (_ & Hs & _ & _ & _ & _ & Hlen & Hn).
    split; [exact Hn |]. split; [exact Hlen | exact Hs].
  - apply (proj2 (X24_constructor (opti := steady_optimizer)
                    (@mk_Vehicle sample_splines 0.1 [OtherShape; Circle 0.5]
                       (mk_vec3 10 10 0) ([0; 0; 0; 0; 1; 1; 1; 1], 3%nat)
                       (Some 2) None None None origin None None None None)
                    [line1; line2] None)).
    right. eexists. reflexivity.
Defined.

(** ** The local problem of an advance *)

Section Advance.
Context {scipy : SciPy} {splines : SplineLib} {opti : OptiLayer}.

(** X25. When [solve] advances a window that is a slice of the program
    (as in every reachable state) with a look-ahead of at least 1, the
    local problem it solves is a new one, built from the tool as
    [get_init_guess] left it, the [n_segments] rooms that follow the new
    counter and the new window, and reset to the guesses stored in
    [init_guess]: room [i] is the corridor of window slot [i], and there
    is one guess per slot. *)
Theorem X25_advance_rebuilds_problem (s s' : Scheduler)
    (current_time update_time : R) (seg0 : Segment) (rest : list Segment) :
  window_inv s ->
  (1 <= n_segments s)%nat ->
  solve s current_time update_time = Ok s' ->
  segments s = seg0 :: rest ->
  curr_state s = seg_end seg0 ->
  let rooms :=
    py_slice (environment s) (n_current_block s + 1)
             (n_current_block s + 1 + n_segments s) in
  exists v lp' v',
    problem_solve
      (reset_init_guess
         (GCodeProblem v rooms (segments s') (n_segments s)) (init_guess s'))
      v current_time update_time = Ok (lp', v') /\
    local_problem s' = Some lp' /\
    vehicle s' = v' /\
    veh_init_spline_values v = Some (init_guess s', n_segments s) /\
    List.length (init_guess s') = n_segments s /\
    List.length rooms = n_segments s /\
    forall i room,
      nth_error rooms i = Some room ->
      exists segment,
        nth_error (segments s') i = Some segment /\
        seg_start segment = room_start room /\
        seg_end segment = room_end room /\
        border_shape (seg_border segment) = room_shape room.
Proof.
  intros Hw HN Hsolve Hseg Hexit rooms.
  destruct (solve_window current_time update_time Hw Hsolve)
    as ((Hw' & Hfit' & Hslot') & _).
  destruct (@solve_branches _ _ _ s s' current_time update_time seg0 rest
              Hsolve Hseg) as (Henv & Hn & Hadv & _).
  destruct (Hadv Hexit) as (Hc' & _).
  destruct (solve_state _ _ _ Hsolve)
    as (valid & s1 & Hcheck & Hbranch & lp & lp' & v' & u & x
        & Hlp & Hps & _ & _ & Es').
  rewrite (check_segments_cons s Hseg) in Hcheck.
  assert (Hvalid : valid = false).
  { apply np_any_ne_false in Hexit. congruence. }
  subst valid. cbn [negb] in Hbranch.
  destruct Hbranch as (s2 & Hup & Es1).
  unfold update_segments in Hup. cbn in Hup.
  destruct (py_index (environment s) _) as [room |]; [| discriminate].
  cbn [bind] in Hup.
  destruct (create_segment (n_current_block s + 1) room) as [new |];
    [| discriminate].
  cbn [bind] in Hup.
  destruct (get_init_guess _) as [[sb [guess times]] |] eqn:Hg;
    [| discriminate].
  cbn [bind] in Hup. injection Hup as <-.
  destruct (get_init_guess_lengths _ Hg) as [Hlg _]; [left; exact HN |].
  destruct (get_init_guess_inv _ Hg)
    as (guesses & idx & rs & v & _ & _ & _ & _ & Hv & ->).
  assert (Hisv : veh_init_spline_values v = Some (guess, n_segments s)).
  { unfold pass_on_to_vehicle in Hv.
    destruct (match veh_signals _ with Some _ => _ | None => _ end)
      as [initial |]; [| discriminate].
    cbn [bind] in Hv.
    destruct (py_index _ (-1)) as [last |]; [| discriminate].
    cbn [bind] in Hv. injection Hv as <-. reflexivity. }
  subst s1. cbn in Hlp. injection Hlp as <-.
  cbn in Hps. subst s'. cbn in *.
  exists v, lp', v'.
  split; [exact Hps |]. split; [reflexivity |]. split; [reflexivity |].
  split; [exact Hisv |]. split; [exact Hlg |].
  assert (Hrooms : List.length rooms = n_segments s).
  { unfold rooms. rewrite length_py_slice. lia. }
  split; [exact Hrooms |].
  intros i rm Hi.
  assert (Hlt : (i < n_segments s)%nat).
  { rewrite <- Hrooms. apply nth_error_Some. congruence. }
  apply nth_error_py_slice in Hi.
  destruct (nth_error (tl (segments s) ++ [new]) i) as [sg |] eqn:Hsg.
  - destruct (Hslot' i sg Hsg) as (rm' & Hrm' & Hcreate).
    rewrite Hi in Hrm'. injection Hrm' as <-.
    destruct (create_segment_number _ _ Hcreate) as (_ & Hs & He & Hsh & _).
    exists sg. auto.
  - apply nth_error_None in Hsg. lia.
Qed.

End Advance.

Lemma X25_witness :
  exists s' (v : @Vehicle sample_splines) segment,
    solve (scipy := sample_scipy) at_exit 0 0.02 = Ok s' /\
    veh_init_spline_values v = Some (init_guess s', 1%nat) /\
    nth_error (segments s') 0 = Some segment /\
    seg_start segment = mk_vec3 10 0 0 /\ seg_end segment = mk_vec3 10 10 0.
Proof.
  destruct solve_at_exit as [s' H].
  assert (Hw : window_inv at_exit).
  { split; [reflexivity |]. split; [cbn; lia |].
    intros [| i] seg Hi; [| destruct i; discriminate Hi].
    cbn in Hi. injection Hi as <-.
    exists (room_of_block 0.1 line1). split; [reflexivity |].
    exact line1_segment_created. }
  destruct (X25_advance_rebuilds_problem (scipy := sample_scipy) 0 0.02
              (seg0 := line1_segment) (rest := []) Hw (le_n 1) H
              eq_refl eq_refl)
    as (v & lp' & v' & _ & _ & _ & Hv & _ & _ & Hrooms).
  destruct (Hrooms 0%nat (room_of_block 0.1 line2) eq_refl)
    as (segment & Hs & Hst & Hen & _).
  exists s', v, segment. auto.
Defined.
